(** * The sd-server command-line client (examples/server/client.py)

    A shallow embedding of the request/response translation pipeline of the
    client: the option resolver ([parse_arguments]), the payload encoder
    ([build_openai_payload]), the response decoder
    ([decode_openai_response]) and the output sequencer ([save_images]),
    together with the parts of the Python library they call
    ([os.path], [re], the [%] operator, [json], [base64]).

    Conventions of the model.

    - A Python [str] is a [string]: the sequence of the bytes of its UTF-8
      encoding.  Everything the client does with text is driven by ASCII
      characters (the separator [/], the dot, [%], digits, JSON syntax), so
      the operations act on the bytes exactly as they act on the code
      points; the one exception is [\d] of the regular expression, which
      matches every decimal digit of Unicode: there the code points are
      decoded.
    - Python integers are [Z]; a Python float is kept as the decimal text
      that denotes it ([repr] for a value of the command line, the literal
      for a value read from JSON).
    - [bytes] are [list byte].
    - A [dict] is an association list in insertion order with unique keys.
    - A function that can raise returns a [result].
    - [os.path] is [posixpath]: the separator is [/].
    - Limits of the interpreter (recursion depth, memory, the maximal field
      width of [%], the maximal number of digits of an integer literal)
      and the file system are not part of the model. *)

From Stdlib Require Import Bool Arith ZArith NArith Lia List.
From Stdlib Require Import Ascii String DecimalString DecimalN DecimalZ.
From Stdlib Require Import Strings.Byte Strings.HexString.
Import ListNotations.

Open Scope string_scope.
Open Scope Z_scope.

(* ================================================================== *)
(** * Results and exceptions *)

(** The exceptions the modelled code can raise.  [ValueError] carries the
    message; the two library errors that the client catches and re-raises
    are kept apart from it. *)
Inductive exn : Type :=
| ValueError (msg : string)
| TypeError
| AttributeError
| KeyError (key : string)
| JSONDecodeError                (* json.JSONDecodeError *)
| BinasciiError (msg : string).  (* base64.binascii.Error *)

Inductive result (A : Type) : Type :=
| Ok (a : A)
| Raise (e : exn).

Arguments Ok {A} a.
Arguments Raise {A} e.

Definition bind {A B : Type} (r : result A) (k : A -> result B) : result B :=
  match r with
  | Ok a => k a
  | Raise e => Raise e
  end.

Notation "x <- r ;; k" := (bind r (fun x => k))
  (at level 61, r at next level, right associativity).

(* ================================================================== *)
(** * Strings *)

Module Str.

(** The double quote, and a text where each apostrophe stands for one
    (to write JSON texts down). *)
Definition dquote : ascii := ascii_of_nat 34.

Fixpoint quoted (s : string) : string :=
  match s with
  | EmptyString => EmptyString
  | String c r => String (if Ascii.eqb c "'" then dquote else c) (quoted r)
  end.

Definition is_digit (c : ascii) : bool :=
  (48 <=? nat_of_ascii c)%nat && (nat_of_ascii c <=? 57)%nat.

(** [s.rpartition(c)]: the text before and after the last [c]. *)
Fixpoint rpartition (c : ascii) (s : string) : option (string * string) :=
  match s with
  | EmptyString => None
  | String a r =>
      match rpartition c r with
      | Some (b, t) => Some (String a b, t)
      | None => if Ascii.eqb a c then Some (EmptyString, r) else None
      end
  end.

(** [s.rstrip(c)]. *)
Fixpoint rstrip (c : ascii) (s : string) : string :=
  match s with
  | EmptyString => EmptyString
  | String a r =>
      match rstrip c r with
      | EmptyString => if Ascii.eqb a c then EmptyString else String a EmptyString
      | r' => String a r'
      end
  end.

(** [s == c * len(s)]. *)
Fixpoint all_eq (c : ascii) (s : string) : bool :=
  match s with
  | EmptyString => true
  | String a r => Ascii.eqb a c && all_eq c r
  end.

Fixpoint contains_char (c : ascii) (s : string) : bool :=
  match s with
  | EmptyString => false
  | String a r => Ascii.eqb a c || contains_char c r
  end.

Definition is_empty (s : string) : bool :=
  match s with EmptyString => true | _ => false end.

Definition starts_with_char (c : ascii) (s : string) : bool :=
  match s with String a _ => Ascii.eqb a c | EmptyString => false end.

Fixpoint ends_with_char (c : ascii) (s : string) : bool :=
  match s with
  | EmptyString => false
  | String a EmptyString => Ascii.eqb a c
  | String _ r => ends_with_char c r
  end.

Fixpoint repeat (c : ascii) (n : nat) : string :=
  match n with
  | O => EmptyString
  | S k => String c (repeat c k)
  end.

(** ASCII [str.lower()]. *)
Definition lower_char (c : ascii) : ascii :=
  let n := nat_of_ascii c in
  if ((65 <=? n) && (n <=? 90))%nat then ascii_of_nat (n + 32) else c.

Fixpoint lower (s : string) : string :=
  match s with
  | EmptyString => EmptyString
  | String a r => String (lower_char a) (lower r)
  end.

(** [s[len(p):]] when [s.startswith(p)]. *)
Fixpoint strip_prefix (p s : string) : option string :=
  match p, s with
  | EmptyString, _ => Some s
  | String a p', String b s' =>
      if Ascii.eqb a b then strip_prefix p' s' else None
  | String _ _, EmptyString => None
  end.

(** [needle in hay] *)
Fixpoint contains (needle hay : string) : bool :=
  match strip_prefix needle hay with
  | Some _ => true
  | None =>
      match hay with
      | EmptyString => false
      | String _ r => contains needle r
      end
  end.


(** [str(n)] for an integer. *)
Definition of_Z (n : Z) : string := NilEmpty.string_of_int (Z.to_int n).

Definition of_nat (n : nat) : string := of_Z (Z.of_nat n).

End Str.

(* ================================================================== *)
(** * posixpath *)

Module posixpath.

Definition sep : ascii := "/".
Definition extsep : ascii := ".".

(** [os.path.split(p)]: the head up to the last separator, without its
    trailing separators unless it consists of separators only, and the
    tail after it. *)
Definition split (p : string) : string * string :=
  match Str.rpartition sep p with
  | None => (EmptyString, p)
  | Some (b, tail) =>
      let head := b ++ String sep EmptyString in
      (if Str.all_eq sep head then head else Str.rstrip sep head, tail)
  end.

(** [genericpath._splitext] on the last component [base]: the extension
    starts at the last dot, unless only dots precede it. *)
Definition splitext_base (base : string) : option (string * string) :=
  match Str.rpartition extsep base with
  | None => None
  | Some (stem, e) =>
      if Str.all_eq extsep stem then None else Some (stem, String extsep e)
  end.

(** [os.path.splitext(p)]. *)
Definition splitext (p : string) : string * string :=
  match Str.rpartition sep p with
  | None =>
      match splitext_base p with
      | Some (stem, ext) => (stem, ext)
      | None => (p, EmptyString)
      end
  | Some (b, base) =>
      match splitext_base base with
      | Some (stem, ext) => (b ++ String sep stem, ext)
      | None => (p, EmptyString)
      end
  end.

(** [os.path.join(a, b)]. *)
Definition join (a b : string) : string :=
  if Str.starts_with_char sep b then b
  else if Str.is_empty a || Str.ends_with_char sep a then a ++ b
  else a ++ String sep b.

End posixpath.

(* ================================================================== *)
(** * The placeholder pattern and the [%] operator *)

(** A match of [re.search(r'%\d*d', s)]: the text before the match
    ([s[:m.start()]]), the match ([m.group()]) and the text after it
    ([s[m.end():]]). *)
Record re_match : Type := {
  m_before : string;
  m_group : string;
  m_after : string
}.

(** The decimal digits of Unicode (the category [Nd] of Unicode 14.0,
    which Python 3.11 carries): the characters [\d] matches in a pattern
    for [str].  Each run is given by its first code point and its
    length. *)
Definition decimal_digit_runs : list (N * N) :=
  [ (48, 10); (1632, 10); (1776, 10); (1984, 10); (2406, 10); (2534, 10);
    (2662, 10); (2790, 10); (2918, 10); (3046, 10); (3174, 10); (3302, 10);
    (3430, 10); (3558, 10); (3664, 10); (3792, 10); (3872, 10); (4160, 10);
    (4240, 10); (6112, 10); (6160, 10); (6470, 10); (6608, 10); (6784, 10);
    (6800, 10); (6992, 10); (7088, 10); (7232, 10); (7248, 10);
    (42528, 10); (43216, 10); (43264, 10); (43472, 10); (43504, 10);
    (43600, 10); (44016, 10); (65296, 10); (66720, 10); (68912, 10);
    (69734, 10); (69872, 10); (69942, 10); (70096, 10); (70384, 10);
    (70736, 10); (70864, 10); (71248, 10); (71360, 10); (71472, 10);
    (71904, 10); (72016, 10); (72784, 10); (73040, 10); (73120, 10);
    (92768, 10); (92864, 10); (93008, 10); (120782, 50); (123200, 10);
    (123632, 10); (125264, 10); (130032, 10) ]%N.

Definition is_decimal_digit (cp : N) : bool :=
  existsb (fun run => (fst run <=? cp)%N && (cp <? fst run + snd run)%N)
    decimal_digit_runs.

(** The code point that a UTF-8 sequence of two, three or four bytes
    spells. *)
Definition trail (c : ascii) : N := N.land (N_of_ascii c) 63.

Definition code_point_2 (c c1 : ascii) : N :=
  (N.land (N_of_ascii c) 31 * 64 + trail c1)%N.

Definition code_point_3 (c c1 c2 : ascii) : N :=
  (N.land (N_of_ascii c) 15 * 4096 + trail c1 * 64 + trail c2)%N.

Definition code_point_4 (c c1 c2 c3 : ascii) : N :=
  (N.land (N_of_ascii c) 7 * 262144 + trail c1 * 4096 + trail c2 * 64
   + trail c3)%N.

(** [\d*d] at the head of [s]: the digits read and the text after the
    [d].  A digit is an ASCII digit or the UTF-8 sequence of another
    decimal digit.  The star is greedy and a digit is never a [d], so no
    shorter run of digits can match where the longest does not. *)
Fixpoint match_digits_d (s : string) : option (string * string) :=
  match s with
  | EmptyString => None
  | String c r =>
      let n := N_of_ascii c in
      if (n <? 128)%N then
        if Str.is_digit c then
          match match_digits_d r with
          | Some (ds, rest) => Some (String c ds, rest)
          | None => None
          end
        else if Ascii.eqb c "d" then Some (EmptyString, r)
        else None
      else if (n <? 194)%N then None
      else if (n <? 224)%N then
        match r with
        | String c1 r1 =>
            if is_decimal_digit (code_point_2 c c1) then
              match match_digits_d r1 with
              | Some (ds, rest) => Some (String c (String c1 ds), rest)
              | None => None
              end
            else None
        | _ => None
        end
      else if (n <? 240)%N then
        match r with
        | String c1 (String c2 r2) =>
            if is_decimal_digit (code_point_3 c c1 c2) then
              match match_digits_d r2 with
              | Some (ds, rest) =>
                  Some (String c (String c1 (String c2 ds)), rest)
              | None => None
              end
            else None
        | _ => None
        end
      else
        match r with
        | String c1 (String c2 (String c3 r3)) =>
            if is_decimal_digit (code_point_4 c c1 c2 c3) then
              match match_digits_d r3 with
              | Some (ds, rest) =>
                  Some (String c (String c1 (String c2 (String c3 ds))), rest)
              | None => None
              end
            else None
        | _ => None
        end
  end.

(** [%\d*d] at the head of [s]. *)
Definition match_placeholder (s : string) : option (string * string) :=
  match s with
  | String c r =>
      if Ascii.eqb c "%" then
        match match_digits_d r with
        | Some (ds, rest) => Some (String "%" (ds ++ "d"), rest)
        | None => None
        end
      else None
  | EmptyString => None
  end.

(** [re.search(r'%\d*d', s)]: the leftmost match. *)
Fixpoint re_search_placeholder (s : string) : option re_match :=
  match match_placeholder s with
  | Some (g, rest) =>
      Some {| m_before := EmptyString; m_group := g; m_after := rest |}
  | None =>
      match s with
      | EmptyString => None
      | String c r =>
          match re_search_placeholder r with
          | Some m =>
              Some {| m_before := String c (m_before m);
                      m_group := m_group m;
                      m_after := m_after m |}
          | None => None
          end
      end
  end.

(** The decimal digits of a width, read as a number. *)
Fixpoint digits_value (acc : N) (s : string) : N :=
  match s with
  | EmptyString => acc
  | String c r => digits_value (10 * acc + (N_of_ascii c - 48))%N r
  end.

(** The conversion [%<flags><width>d] applied to [n]: the sign and the
    digits of [n], padded on the left up to [width] characters, with
    zeros after the sign under the [0] flag and with spaces before the
    sign otherwise. *)
Definition format_d (zero : bool) (width : nat) (n : Z) : string :=
  let sign := if n <? 0 then "-" else "" in
  let digits := NilEmpty.string_of_uint (N.to_uint (Z.abs_N n)) in
  let pad := (width - (String.length sign + String.length digits))%nat in
  if zero then sign ++ Str.repeat "0" pad ++ digits
  else Str.repeat " " pad ++ sign ++ digits.

(** After [%]: the [0] flags. *)
Fixpoint skip_zero_flags (s : string) : bool * string :=
  match s with
  | String "0" r => (true, snd (skip_zero_flags r))
  | _ => (false, s)
  end.

(** What stands after the flags of a conversion: the width digits, the
    conversion character [d] and the literal text that follows; or a
    conversion character outside ASCII, which the operator does not know
    ([index] is its position in the format string, counted in
    characters). *)
Inductive conversion : Type :=
| Decimal (width : string) (rest : string)
| Unsupported (code_point : N) (index : nat).

(** The width is written with ASCII digits: any other character ends it
    and is the conversion character. *)
Fixpoint read_width_d (acc : string) (pos : nat) (s : string)
  : option conversion :=
  match s with
  | EmptyString => None
  | String c r =>
      if Str.is_digit c then
        read_width_d (acc ++ String c EmptyString) (S pos) r
      else if Ascii.eqb c "d" then Some (Decimal acc r)
      else
        let n := N_of_ascii c in
        if (n <? 194)%N then None
        else if (n <? 224)%N then
          match r with
          | String c1 _ => Some (Unsupported (code_point_2 c c1) pos)
          | _ => None
          end
        else if (n <? 240)%N then
          match r with
          | String c1 (String c2 _) =>
              Some (Unsupported (code_point_3 c c1 c2) pos)
          | _ => None
          end
        else
          match r with
          | String c1 (String c2 (String c3 _)) =>
              Some (Unsupported (code_point_4 c c1 c2 c3) pos)
          | _ => None
          end
  end.

(** The message of the [ValueError] for a conversion character outside
    ASCII, which is shown as a question mark. *)
Definition unsupported_format_character (code_point : N) (index : nat)
  : string :=
  "unsupported format character '?' (" ++ HexString.of_N code_point
  ++ ") at index " ++ Str.of_nat index.

(** [fmt % n] for the format strings of the client: literal text around
    one conversion [%<0 flags><width>d], or a conversion whose character
    is outside ASCII, for which the operator raises.  [pos] counts the
    characters read so far.  Any other format string is answered [None];
    the client builds none. *)
Fixpoint py_format_from (pos : nat) (fmt : string) (n : Z)
  : option (result string) :=
  match fmt with
  | EmptyString => None
  | String c r =>
      if Ascii.eqb c "%" then
        let (zero, r1) := skip_zero_flags r in
        let pos1 := (S pos + (String.length r - String.length r1))%nat in
        match read_width_d EmptyString pos1 r1 with
        | Some (Decimal w rest) =>
            if Str.contains_char "%" rest then None
            else
              Some (Ok (format_d zero (N.to_nat (digits_value 0%N w)) n
                        ++ rest))
        | Some (Unsupported cp index) =>
            Some (Raise (ValueError (unsupported_format_character cp index)))
        | None => None
        end
      else
        let is_trail :=
          ((128 <=? N_of_ascii c) && (N_of_ascii c <? 192))%N in
        match py_format_from (if is_trail then pos else S pos) r n with
        | Some (Ok out) => Some (Ok (String c out))
        | other => other
        end
  end.

Definition py_format (fmt : string) (n : Z) : option (result string) :=
  py_format_from 0 fmt n.

(* ================================================================== *)
(** * Utility options and the output sequencer *)

Definition bytes : Type := list byte.

(** The [util_opts] dictionary.  Its four keys are fixed and [argparse]
    fixes the type of each value; a key that is absent is [None]. *)
Record UtilOpts : Type := {
  server_url : option string;
  output : option string;
  output_begin_idx : option Z;
  verbose : option bool
}.

(** The loop of [save_images] from index [i] on: the files written, in
    order, each with its content.  [has_spec] says whether the file name
    holds a placeholder. *)
Fixpoint save_loop (has_spec : bool) (output dirname : string)
    (fmt_pref fmt_spec fmt_suf : string) (start_idx : Z)
    (i : nat) (image_list : list bytes) : result (list (string * bytes)) :=
  match image_list with
  | [] => Ok []
  | img_bytes :: rest =>
      filepath <-
        (if negb has_spec && (i =? 0)%nat then Ok output
         else
           match py_format fmt_spec (Z.of_nat i + start_idx) with
           | Some (Ok num) =>
               let fmt_file := fmt_pref ++ num ++ fmt_suf in
               Ok (posixpath.join dirname fmt_file)
           | Some (Raise e) => Raise e
           | None => Raise (ValueError "unsupported format character")
           end) ;;
      written <- save_loop has_spec output dirname fmt_pref fmt_spec fmt_suf
                   start_idx (S i) rest ;;
      Ok ((filepath, img_bytes) :: written)
  end.

(** [save_images(image_list, util_opts)]: the sequence of files it opens
    and the bytes it writes to each.  Creating the directory and the
    message printed per file in verbose mode are left out. *)
Definition save_images (image_list : list bytes) (util_opts : UtilOpts)
  : result (list (string * bytes)) :=
  let output :=
    match output util_opts with Some o => o | None => "./output.png" end in
  let output_begin_idx := output_begin_idx util_opts in
  let (dirname, filename) := posixpath.split output in
  let format_specifier := re_search_placeholder filename in
  let '(start_idx, fmt_pref, fmt_spec, fmt_suf) :=
    match format_specifier with
    | Some m => (0, m_before m, m_group m, m_after m)
    | None =>
        let (stem, ext) := posixpath.splitext filename in
        (1, stem, "_%d", ext)
    end in
  let start_idx :=
    match output_begin_idx with
    | Some idx => idx
    | None => start_idx
    end in
  save_loop (match format_specifier with Some _ => true | None => false end)
    output dirname fmt_pref fmt_spec fmt_suf start_idx 0 image_list.

(** The paths of an output plan. *)
Definition paths (plan : list (string * bytes)) : list string :=
  map fst plan.

(* ================================================================== *)
(** * Python values and dictionaries *)

(** The values [argparse] hands to the client: [None] for a flag that was
    not given, booleans, integers, floats, strings and the integer lists of
    the layer options. *)
Inductive pyval : Type :=
| VNone
| VBool (b : bool)
| VInt (z : Z)
| VFloat (repr : string)
| VStr (s : string)
| VInts (l : list Z).

Definition dict (V : Type) : Type := list (string * V).

Section Dict.
Context {V : Type}.

(** [d[k]], when [k in d]. *)
Fixpoint dict_get (d : dict V) (k : string) : option V :=
  match d with
  | [] => None
  | (k', v) :: r => if String.eqb k' k then Some v else dict_get r k
  end.

(** [d[k] = v]: the value is replaced where the key stands, and a new
    key is added at the end. *)
Fixpoint dict_set (d : dict V) (k : string) (v : V) : dict V :=
  match d with
  | [] => [(k, v)]
  | (k', v') :: r =>
      if String.eqb k' k then (k', v) :: r else (k', v') :: dict_set r k v
  end.

Definition dict_has (d : dict V) (k : string) : bool :=
  match dict_get d k with Some _ => true | None => false end.

Definition dict_keys (d : dict V) : list string := map fst d.

End Dict.

(** The digits of a decimal text, split from what follows them. *)
Fixpoint span_digits (s : string) : string * string :=
  match s with
  | String c r =>
      if Str.is_digit c then
        let (ds, rest) := span_digits r in (String c ds, rest)
      else (EmptyString, s)
  | EmptyString => (EmptyString, EmptyString)
  end.

(** Whether the decimal text [-?digits(.digits)?([eE][-+]?digits)?]
    denotes a float equal to zero: the number [D * 10^e] it spells is
    rounded to the nearest double, which is zero exactly when
    [D * 10^e <= 2^-1075].  Any other text ([nan], [inf], ...) is not
    zero. *)
Definition float_is_zero (text : string) : bool :=
  let unsigned := match text with String "-" r => r | _ => text end in
  let (int_digits, r1) := span_digits unsigned in
  let (frac_digits, r2) :=
    match r1 with
    | String "." r => span_digits r
    | _ => (EmptyString, r1)
    end in
  let exponent : option Z :=
    match r2 with
    | EmptyString => Some 0
    | String c r =>
        if Ascii.eqb c "e" || Ascii.eqb c "E" then
          match r with
          | String "-" ds =>
              if Str.is_empty ds || negb (Str.is_empty (snd (span_digits ds)))
              then None else Some (- Z.of_N (digits_value 0%N ds))
          | String "+" ds =>
              if Str.is_empty ds || negb (Str.is_empty (snd (span_digits ds)))
              then None else Some (Z.of_N (digits_value 0%N ds))
          | ds =>
              if Str.is_empty ds || negb (Str.is_empty (snd (span_digits ds)))
              then None else Some (Z.of_N (digits_value 0%N ds))
          end
        else None
    end in
  match exponent with
  | None => false
  | Some e =>
      if Str.is_empty int_digits then false
      else
        let D := Z.of_N (digits_value 0%N (int_digits ++ frac_digits)) in
        let e10 := e - Z.of_nat (String.length frac_digits) in
        (D =? 0) || ((e10 <? 0) && (D * 2 ^ 1075 <=? 10 ^ (- e10)))
  end.

(** Truth value of a value ([bool(v)]). *)
Definition py_truthy (v : pyval) : bool :=
  match v with
  | VNone => false
  | VBool b => b
  | VInt z => negb (z =? 0)
  | VFloat r => negb (float_is_zero r)
  | VStr s => negb (Str.is_empty s)
  | VInts l => match l with [] => false | _ => true end
  end.

Definition is_not_none (v : pyval) : bool :=
  match v with VNone => false | _ => true end.

(** [sep.join(l)]. *)
Fixpoint str_join (sep : string) (l : list string) : string :=
  match l with
  | [] => EmptyString
  | [x] => x
  | x :: r => x ++ sep ++ str_join sep r
  end.

(** [str(v)], which an f-string applies to the value it embeds. *)
Definition py_str (v : pyval) : string :=
  match v with
  | VNone => "None"
  | VBool true => "True"
  | VBool false => "False"
  | VInt z => Str.of_Z z
  | VFloat r => r
  | VStr s => s
  | VInts l => "[" ++ str_join ", " (map Str.of_Z l) ++ "]"
  end.

(** [d.get(k)]: [None] when the key is absent. *)
Definition py_get (d : dict pyval) (k : string) : pyval :=
  match dict_get d k with Some v => v | None => VNone end.

(** [d.get(k, default)]. *)
Definition py_get_default (d : dict pyval) (k : string) (default : pyval)
  : pyval :=
  match dict_get d k with Some v => v | None => default end.

(* ================================================================== *)
(** * json.dumps *)

Module json_encoder.

Definition hex_digit (n : N) : ascii :=
  if (n <? 10)%N then ascii_of_N (48 + n) else ascii_of_N (87 + n).

(** ['\\u{0:04x}'.format(n)] *)
Definition uescape (n : N) : string :=
  String "\" (String "u"
    (String (hex_digit (N.shiftr n 12 mod 16))
    (String (hex_digit (N.shiftr n 8 mod 16))
    (String (hex_digit (N.shiftr n 4 mod 16))
    (String (hex_digit (n mod 16)) EmptyString))))).

(** The replacement of one code point outside [' '..'~'], or of a quote
    or a backslash (the function [replace] of [py_encode_basestring_ascii]). *)
Definition escape_code_point (n : N) : string :=
  if (n =? 34)%N then String "\" (String Str.dquote EmptyString)
  else if (n =? 92)%N then "\\"
  else if (n =? 10)%N then "\n"
  else if (n =? 13)%N then "\r"
  else if (n =? 9)%N then "\t"
  else if (n =? 12)%N then "\f"
  else if (n =? 8)%N then "\b"
  else if (n <? 65536)%N then uescape n
  else
    let m := (n - 65536)%N in
    uescape (N.lor 55296 (N.land (N.shiftr m 10) 1023))
    ++ uescape (N.lor 56320 (N.land m 1023)).

Definition needs_escape (n : N) : bool :=
  (n <? 32)%N || (126 <? n)%N || (n =? 34)%N || (n =? 92)%N.

(** The payload bits of a continuation byte. *)
Definition cont (c : ascii) : N := N.land (N_of_ascii c) 63.

(** The body of [encode_basestring_ascii]: every code point of the
    text (one to four bytes) is copied or replaced. *)
Fixpoint escape_ascii (s : string) : string :=
  match s with
  | EmptyString => EmptyString
  | String c r =>
      let n := N_of_ascii c in
      if (n <? 128)%N then
        (if needs_escape n then escape_code_point n else String c EmptyString)
        ++ escape_ascii r
      else if (n <? 192)%N then escape_code_point n ++ escape_ascii r
      else if (n <? 224)%N then
        match r with
        | String c1 r1 =>
            escape_code_point (N.land n 31 * 64 + cont c1) ++ escape_ascii r1
        | _ => escape_code_point n ++ escape_ascii r
        end
      else if (n <? 240)%N then
        match r with
        | String c1 (String c2 r2) =>
            escape_code_point (N.land n 15 * 4096 + cont c1 * 64 + cont c2)
            ++ escape_ascii r2
        | _ => escape_code_point n ++ escape_ascii r
        end
      else
        match r with
        | String c1 (String c2 (String c3 r3)) =>
            escape_code_point
              (N.land n 7 * 262144 + cont c1 * 4096 + cont c2 * 64 + cont c3)
            ++ escape_ascii r3
        | _ => escape_code_point n ++ escape_ascii r
        end
  end.

(** [json.dumps(s)] for a string. *)
Definition dumps_str (s : string) : string :=
  String Str.dquote (escape_ascii s ++ String Str.dquote EmptyString).

(** [floatstr]: the [repr] of the float, but for the three values JSON
    has no literal for. *)
Definition dumps_float (r : string) : string :=
  if String.eqb r "nan" then "NaN"
  else if String.eqb r "inf" then "Infinity"
  else if String.eqb r "-inf" then "-Infinity"
  else r.

Definition dumps_val (v : pyval) : string :=
  match v with
  | VNone => "null"
  | VBool true => "true"
  | VBool false => "false"
  | VInt z => Str.of_Z z
  | VFloat r => dumps_float r
  | VStr s => dumps_str s
  | VInts l => "[" ++ str_join ", " (map Str.of_Z l) ++ "]"
  end.

Definition dumps_item (kv : string * pyval) : string :=
  dumps_str (fst kv) ++ ": " ++ dumps_val (snd kv).

(** [json.dumps(d)] for a dictionary with string keys. *)
Definition dumps (d : dict pyval) : string :=
  "{" ++ str_join ", " (map dumps_item d) ++ "}".

End json_encoder.

(* ================================================================== *)
(** * The option resolver *)

(** The command line as [argparse] leaves it in [args_dict], once the two
    layer lists are converted: the utility values, and the dictionary of
    all generation options, where a flag that was not given stands as
    [None]. *)
Record CommandLine : Type := {
  cl_server_url : option string;
  cl_output : option string;
  cl_output_begin_idx : option Z;
  cl_verbose : bool;
  cl_generation : dict pyval
}.

(** The inference of the output format (lines 102 to 105). *)
Definition infer_output_format (output : string) : string :=
  let output_ext := Str.lower (snd (posixpath.splitext output)) in
  if String.eqb output_ext ".jpg" || String.eqb output_ext ".jpeg"
     || String.eqb output_ext ".jpe"
  then "jpeg" else "png".

(** [parse_arguments()], from the parsed command line on: the default of
    [--output], the inferred output format and the partition into utility
    and generation options, neither of which keeps a [None]. *)
Definition parse_arguments (cl : CommandLine) : UtilOpts * dict pyval :=
  let output :=
    match cl_output cl with Some o => o | None => "./output.png" end in
  let args_generation :=
    if negb (Str.is_empty output)
    then dict_set (cl_generation cl) "output_format"
           (VStr (infer_output_format output))
    else cl_generation cl in
  let util_opts :=
    {| server_url := cl_server_url cl;
       output := Some output;
       output_begin_idx := cl_output_begin_idx cl;
       verbose := Some (cl_verbose cl) |} in
  let gen_opts := filter (fun kv => is_not_none (snd kv)) args_generation in
  (util_opts, gen_opts).

(* ================================================================== *)
(** * The payload encoder *)

Definition extension_keys : list string :=
  [ "negative_prompt"; "seed"; "video_frames"; "fps";
    "cfg_scale"; "img_cfg_scale"; "guidance"; "strength";
    "steps"; "sample_method"; "scheduler";
    "high_noise_steps"; "high_noise_sample_method";
    "clip_skip"; "upscale_repeats"; "moe_boundary";
    "control_strength"; "pm_style_strength"; "vace_strength";
    "cache_mode"; "cache_option"; "cache_preset"; "scm_mask";
    "increase_ref_index"; "auto_resize_ref_image";
    "skip_layers"; "high_noise_skip_layers" ].

Definition open_tag : string := "<sd_cpp_extra_args>".
Definition close_tag : string := "</sd_cpp_extra_args>".

(** The loop over [extension_keys] (lines 132 to 134). *)
Definition copy_extension_keys (gen_opts : dict pyval) : dict pyval :=
  fold_left
    (fun extension_data key =>
       if is_not_none (py_get gen_opts key)
       then dict_set extension_data key (py_get gen_opts key)
       else extension_data)
    extension_keys [].

(** [api_data] and [extension_data] when the prompt is about to be
    computed (line 150). *)
Definition payload_parts (gen_opts : dict pyval) : dict pyval * dict pyval :=
  let extension_data := copy_extension_keys gen_opts in
  let api_data : dict pyval := [] in
  let width := py_get gen_opts "width" in
  let height := py_get gen_opts "height" in
  let '(api_data, extension_data) :=
    if py_truthy width && py_truthy height then
      (dict_set api_data "size" (VStr (py_str width ++ "x" ++ py_str height)),
       extension_data)
    else if py_truthy width then
      (api_data, dict_set extension_data "width" width)
    else if py_truthy height then
      (api_data, dict_set extension_data "height" height)
    else (api_data, extension_data) in
  let api_data :=
    if py_truthy (py_get gen_opts "output_format")
    then dict_set api_data "output_format" (py_get gen_opts "output_format")
    else api_data in
  let api_data :=
    if py_truthy (py_get gen_opts "batch_count")
    then dict_set api_data "n" (py_get gen_opts "batch_count")
    else api_data in
  (api_data, extension_data).

(** The extension object that is serialized into the prompt. *)
Definition extension_data (gen_opts : dict pyval) : dict pyval :=
  snd (payload_parts gen_opts).

(** [build_openai_payload(gen_opts, util_opts)]. *)
Definition build_openai_payload (gen_opts : dict pyval) (util_opts : UtilOpts)
  : dict pyval :=
  let (api_data, extension_data) := payload_parts gen_opts in
  let prompt := py_get_default gen_opts "prompt" (VStr "") in
  let json_payload := json_encoder.dumps extension_data in
  dict_set api_data "prompt"
    (VStr (py_str prompt ++ open_tag ++ json_payload ++ close_tag)).

(* ================================================================== *)
(** * json.loads *)

#[local] Set Warnings "-register-all".

(** What [json.loads] returns: [None], a [bool], an [int], a [float]
    (kept as its literal), a [str], a [list] or a [dict]. *)
Inductive json : Type :=
| JNull
| JBool (b : bool)
| JInt (z : Z)
| JFloat (text : string)
| JStr (s : string)
| JList (l : list json)
| JDict (d : list (string * json)).

Module json_decoder.

Definition is_ws (c : ascii) : bool :=
  Ascii.eqb c " " || (N_of_ascii c =? 9)%N || (N_of_ascii c =? 10)%N
  || (N_of_ascii c =? 13)%N.

(** [WHITESPACE.match(s, end).end()] *)
Fixpoint skip_ws (s : string) : string :=
  match s with
  | String c r => if is_ws c then skip_ws r else s
  | EmptyString => EmptyString
  end.

Definition hex_value (c : ascii) : option N :=
  let n := N_of_ascii c in
  if ((48 <=? n) && (n <=? 57))%N then Some (n - 48)%N
  else if ((97 <=? n) && (n <=? 102))%N then Some (n - 87)%N
  else if ((65 <=? n) && (n <=? 70))%N then Some (n - 55)%N
  else None.

Definition hex4 (a b c d : ascii) : option N :=
  match hex_value a, hex_value b, hex_value c, hex_value d with
  | Some x, Some y, Some z, Some w => Some (((x * 16 + y) * 16 + z) * 16 + w)%N
  | _, _, _, _ => None
  end.

(** The UTF-8 bytes of [chr(n)]. *)
Definition chr (n : N) : string :=
  if (n <? 128)%N then String (ascii_of_N n) EmptyString
  else if (n <? 2048)%N then
    String (ascii_of_N (192 + n / 64))
      (String (ascii_of_N (128 + n mod 64)) EmptyString)
  else if (n <? 65536)%N then
    String (ascii_of_N (224 + n / 4096))
      (String (ascii_of_N (128 + (n / 64) mod 64))
        (String (ascii_of_N (128 + n mod 64)) EmptyString))
  else
    String (ascii_of_N (240 + n / 262144))
      (String (ascii_of_N (128 + (n / 4096) mod 64))
        (String (ascii_of_N (128 + (n / 64) mod 64))
          (String (ascii_of_N (128 + n mod 64)) EmptyString))).

(** The escape [\uXXXX] that completes a high surrogate [hi]: the code
    point of the pair and the text after the escape. *)
Definition low_surrogate (hi : N) (s : string) : option (N * string) :=
  match s with
  | String b (String u (String g1 (String g2 (String g3 (String g4 r))))) =>
      if Ascii.eqb b "\" && Ascii.eqb u "u" then
        match hex4 g1 g2 g3 g4 with
        | Some lo =>
            if ((56320 <=? lo) && (lo <=? 57343))%N
            then Some (65536 + ((hi - 55296) * 1024 + (lo - 56320)), r)%N
            else None
        | None => None
        end
      else None
  | _ => None
  end.

(** The letter of a one-letter escape (the table [BACKSLASH]). *)
Definition backslash (c : ascii) : option ascii :=
  if Ascii.eqb c Str.dquote then Some Str.dquote
  else if Ascii.eqb c "\" then Some "\"%char
  else if Ascii.eqb c "/" then Some "/"%char
  else if Ascii.eqb c "b" then Some (ascii_of_N 8)
  else if Ascii.eqb c "f" then Some (ascii_of_N 12)
  else if Ascii.eqb c "n" then Some (ascii_of_N 10)
  else if Ascii.eqb c "r" then Some (ascii_of_N 13)
  else if Ascii.eqb c "t" then Some (ascii_of_N 9)
  else None.

(** [scanstring(s, end, strict=True)], from the character after the
    opening quote: the string and the text after its closing quote. *)
Fixpoint scanstring (s : string) : option (string * string) :=
  match s with
  | EmptyString => None
  | String c r =>
      if Ascii.eqb c Str.dquote then Some (EmptyString, r)
      else if Ascii.eqb c "\" then
        match r with
        | EmptyString => None
        | String e r1 =>
            if Ascii.eqb e "u" then
              match r1 with
              | String h1 (String h2 (String h3 (String h4 r2))) =>
                  match hex4 h1 h2 h3 h4 with
                  | None => None
                  | Some uni =>
                      match
                        (if ((55296 <=? uni) && (uni <=? 56319))%N
                         then low_surrogate uni r2 else None)
                      with
                      | Some (joined, _) =>
                          (* the text after the six characters of the second escape *)
                          match r2 with
                          | String _ (String _ (String _ (String _
                              (String _ (String _ r3'))))) =>
                              match scanstring r3' with
                              | Some (str, rest) => Some (chr joined ++ str, rest)
                              | None => None
                              end
                          | _ => None
                          end
                      | None =>
                          match scanstring r2 with
                          | Some (str, rest) => Some (chr uni ++ str, rest)
                          | None => None
                          end
                      end
                  end
              | _ => None
              end
            else
              match backslash e with
              | None => None
              | Some a =>
                  match scanstring r1 with
                  | Some (str, rest) => Some (String a str, rest)
                  | None => None
                  end
              end
        end
      else if (N_of_ascii c <? 32)%N then None
      else
        match scanstring r with
        | Some (str, rest) => Some (String c str, rest)
        | None => None
        end
  end.

(** The integer part of a number: an optional minus sign, then a single
    zero or a run of digits that starts with a digit from 1 to 9. *)
Definition match_integer (s : string) : option (string * string) :=
  let (sign, s1) :=
    match s with
    | String c r => if Ascii.eqb c "-" then ("-", r) else (EmptyString, s)
    | EmptyString => (EmptyString, s)
    end in
  match s1 with
  | String c r =>
      if Ascii.eqb c "0" then Some (sign ++ "0", r)
      else if Str.is_digit c then
        let (ds, rest) := span_digits s1 in Some (sign ++ ds, rest)
      else None
  | EmptyString => None
  end.

(** The optional fraction: a dot and at least one digit. *)
Definition match_frac (s : string) : string * string :=
  match s with
  | String c r =>
      if Ascii.eqb c "." then
        let (ds, rest) := span_digits r in
        if Str.is_empty ds then (EmptyString, s) else (String "." ds, rest)
      else (EmptyString, s)
  | EmptyString => (EmptyString, s)
  end.

(** The optional exponent: [e] or [E], an optional sign and at least one
    digit. *)
Definition match_exp (s : string) : string * string :=
  match s with
  | String e r =>
      if Ascii.eqb e "e" || Ascii.eqb e "E" then
        let (sign, r1) :=
          match r with
          | String c r' =>
              if Ascii.eqb c "-" then ("-", r')
              else if Ascii.eqb c "+" then ("+", r')
              else (EmptyString, r)
          | EmptyString => (EmptyString, r)
          end in
        let (ds, rest) := span_digits r1 in
        if Str.is_empty ds then (EmptyString, s)
        else (String e (sign ++ ds), rest)
      else (EmptyString, s)
  | EmptyString => (EmptyString, s)
  end.

(** [int(text)] for the text of an integer part. *)
Definition int_of_text (text : string) : Z :=
  match NilEmpty.int_of_string text with
  | Some d => Z.of_int d
  | None => 0
  end.

(** [match_number]: an integer, or a float when a fraction or an
    exponent follows. *)
Definition scan_number (s : string) : option (json * string) :=
  match match_integer s with
  | None => None
  | Some (integer, r1) =>
      let (frac, r2) := match_frac r1 in
      let (exp, r3) := match_exp r2 in
      if Str.is_empty frac && Str.is_empty exp
      then Some (JInt (int_of_text integer), r3)
      else Some (JFloat (integer ++ frac ++ exp), r3)
  end.

Definition scan_literal (lit : string) (v : json) (s : string)
  : option (json * string) :=
  match Str.strip_prefix lit s with
  | Some rest => Some (v, rest)
  | None => None
  end.

(** The scalar cases of [scan_once]. *)
Definition scan_atom (s : string) : option (json * string) :=
  match scan_literal "null" JNull s with
  | Some x => Some x
  | None =>
  match scan_literal "true" (JBool true) s with
  | Some x => Some x
  | None =>
  match scan_literal "false" (JBool false) s with
  | Some x => Some x
  | None =>
  match scan_number s with
  | Some x => Some x
  | None =>
  match scan_literal "NaN" (JFloat "NaN") s with
  | Some x => Some x
  | None =>
  match scan_literal "Infinity" (JFloat "Infinity") s with
  | Some x => Some x
  | None => scan_literal "-Infinity" (JFloat "-Infinity") s
  end end end end end end.

(** [dict(pairs)]: a repeated key keeps its place and takes the last
    value. *)
Definition dict_of_pairs (pairs : list (string * json)) : dict json :=
  fold_left (fun d kv => dict_set d (fst kv) (snd kv)) pairs [].

(** [scan_once], with the loops of [JSONArray] and [JSONObject].
    [fuel] bounds the depth of the calls. *)
Fixpoint scan_once (fuel : nat) (s : string) : option (json * string) :=
  match fuel with
  | O => None
  | S f =>
      match s with
      | EmptyString => None
      | String c r =>
          if Ascii.eqb c Str.dquote then
            match scanstring r with
            | Some (str, rest) => Some (JStr str, rest)
            | None => None
            end
          else if Ascii.eqb c "{" then
            match skip_ws r with
            | String c1 r1 =>
                if Ascii.eqb c1 "}" then Some (JDict [], r1)
                else if Ascii.eqb c1 Str.dquote then object_loop f r1 []
                else None
            | EmptyString => None
            end
          else if Ascii.eqb c "[" then
            match skip_ws r with
            | String c1 r1 =>
                if Ascii.eqb c1 "]" then Some (JList [], r1)
                else array_loop f (String c1 r1) []
            | EmptyString => None
            end
          else scan_atom s
      end
  end

with array_loop (fuel : nat) (s : string) (values : list json)
  : option (json * string) :=
  match fuel with
  | O => None
  | S f =>
      match scan_once f s with
      | None => None
      | Some (value, r) =>
          match skip_ws r with
          | String c r1 =>
              if Ascii.eqb c "]" then Some (JList (rev (value :: values)), r1)
              else if Ascii.eqb c ","
              then array_loop f (skip_ws r1) (value :: values)
              else None
          | EmptyString => None
          end
      end
  end

with object_loop (fuel : nat) (s : string) (pairs : list (string * json))
  : option (json * string) :=
  match fuel with
  | O => None
  | S f =>
      match scanstring s with
      | None => None
      | Some (key, r) =>
          match skip_ws r with
          | String colon r1 =>
              if negb (Ascii.eqb colon ":") then None else
              match scan_once f (skip_ws r1) with
              | None => None
              | Some (value, r2) =>
                  match skip_ws r2 with
                  | String c r3 =>
                      if Ascii.eqb c "}" then
                        Some (JDict (dict_of_pairs (rev ((key, value) :: pairs))),
                              r3)
                      else if Ascii.eqb c "," then
                        match skip_ws r3 with
                        | String q r4 =>
                            if Ascii.eqb q Str.dquote
                            then object_loop f r4 ((key, value) :: pairs)
                            else None
                        | EmptyString => None
                        end
                      else None
                  | EmptyString => None
                  end
              end
          | EmptyString => None
          end
      end
  end.

(** [json.loads(s)]: one value, with white space around it and nothing
    else.  Two units of fuel per character are enough for any text
    (theorem [loads_iff]). *)
Definition loads (s : string) : result json :=
  match scan_once (2 * String.length s + 2) (skip_ws s) with
  | Some (obj, rest) =>
      match skip_ws rest with
      | EmptyString => Ok obj
      | _ => Raise JSONDecodeError
      end
  | None => Raise JSONDecodeError
  end.

End json_decoder.

(* ================================================================== *)
(** * base64.b64decode *)

Module base64.

(** [table_a2b_base64]: the six bits of a character of the alphabet;
    [None] stands for the entries that are not below 64. *)
Definition table_a2b_base64 (c : ascii) : option N :=
  let n := N_of_ascii c in
  if ((65 <=? n) && (n <=? 90))%N then Some (n - 65)%N
  else if ((97 <=? n) && (n <=? 122))%N then Some (n - 71)%N
  else if ((48 <=? n) && (n <=? 57))%N then Some (n + 4)%N
  else if (n =? 43)%N then Some 62%N
  else if (n =? 47)%N then Some 63%N
  else None.

(** A value stored into an [unsigned char]. *)
Definition to_byte (n : N) : byte := byte_of_ascii (ascii_of_N (n mod 256)).

(** The loop of [binascii.a2b_base64] without [strict_mode], and the
    check that follows it.  [bin_data] holds the bytes written so far,
    last first. *)
Fixpoint a2b_loop (ascii_data : string) (quad_pos : N) (leftchar : N)
    (pads : N) (bin_data : list byte) : result bytes :=
  match ascii_data with
  | EmptyString =>
      if (quad_pos =? 0)%N then Ok (rev bin_data)
      else if (quad_pos =? 1)%N then
        Raise (BinasciiError
          ("Invalid base64-encoded string: number of data characters ("
           ++ Str.of_Z (Z.of_nat (List.length bin_data) / 3 * 4 + 1)
           ++ ") cannot be 1 more than a multiple of 4"))
      else Raise (BinasciiError "Incorrect padding")
  | String this_ch rest =>
      if Ascii.eqb this_ch "=" then
        if (2 <=? quad_pos)%N then
          if (4 <=? quad_pos + (pads + 1))%N then Ok (rev bin_data)
          else a2b_loop rest quad_pos leftchar (pads + 1)%N bin_data
        else a2b_loop rest quad_pos leftchar pads bin_data
      else
        match table_a2b_base64 this_ch with
        | None => a2b_loop rest quad_pos leftchar pads bin_data
        | Some v =>
            if (quad_pos =? 0)%N then a2b_loop rest 1%N v 0%N bin_data
            else if (quad_pos =? 1)%N then
              a2b_loop rest 2%N (N.land v 15) 0%N
                (to_byte (N.lor (N.shiftl leftchar 2) (N.shiftr v 4))
                 :: bin_data)
            else if (quad_pos =? 2)%N then
              a2b_loop rest 3%N (N.land v 3) 0%N
                (to_byte (N.lor (N.shiftl leftchar 4) (N.shiftr v 2))
                 :: bin_data)
            else
              a2b_loop rest 0%N 0%N 0%N
                (to_byte (N.lor (N.shiftl leftchar 6) v) :: bin_data)
        end
  end.

Definition a2b_base64 (data : string) : result bytes :=
  a2b_loop data 0%N 0%N 0%N [].

Fixpoint is_ascii (s : string) : bool :=
  match s with
  | EmptyString => true
  | String c r => (N_of_ascii c <? 128)%N && is_ascii r
  end.

(** [base64.b64decode(s)] for a string. *)
Definition b64decode (s : string) : result bytes :=
  if is_ascii s then a2b_base64 s
  else Raise (ValueError "string argument should contain only ASCII characters").

End base64.

(* ================================================================== *)
(** * The response decoder *)

(** [bool(v)] *)
Definition json_truthy (v : json) : bool :=
  match v with
  | JNull => false
  | JBool b => b
  | JInt z => negb (z =? 0)
  | JFloat text => negb (float_is_zero text)
  | JStr s => negb (Str.is_empty s)
  | JList l => match l with [] => false | _ => true end
  | JDict d => match d with [] => false | _ => true end
  end.

Definition is_str (k : string) (v : json) : bool :=
  match v with JStr s => String.eqb s k | _ => false end.

(** [k in data] *)
Definition py_in (k : string) (data : json) : result bool :=
  match data with
  | JDict d => Ok (dict_has d k)
  | JList l => Ok (existsb (is_str k) l)
  | JStr s => Ok (Str.contains k s)
  | _ => Raise TypeError
  end.

(** [data[k]] for a string [k] that is [in data] *)
Definition py_getitem (data : json) (k : string) : result json :=
  match data with
  | JDict d =>
      match dict_get d k with
      | Some v => Ok v
      | None => Raise (KeyError k)
      end
  | _ => Raise TypeError
  end.

Fixpoint chars (s : string) : list json :=
  match s with
  | EmptyString => []
  | String c r => JStr (String c EmptyString) :: chars r
  end.

(** The items [enumerate(images)] runs through: the elements of a list,
    the keys of a dictionary, the characters of a string. *)
Definition py_iter (images : json) : result (list json) :=
  match images with
  | JList l => Ok l
  | JDict d => Ok (map (fun kv => JStr (fst kv)) d)
  | JStr s => Ok (chars s)
  | _ => Raise TypeError
  end.

(** [img_data.get(k)] *)
Definition py_dict_get (img_data : json) (k : string) : result json :=
  match img_data with
  | JDict d =>
      match dict_get d k with
      | Some v => Ok v
      | None => Ok JNull
      end
  | _ => Raise AttributeError
  end.

(** [base64.b64decode(v)]: a value that is no string is no bytes-like
    object either. *)
Definition b64decode_value (v : json) : result bytes :=
  match v with
  | JStr s => base64.b64decode s
  | _ => Raise TypeError
  end.

(** The body of the loop of [decode_openai_response] for item [i]. *)
Definition decode_item (i : nat) (img_data : json) : result bytes :=
  b64_data <- py_dict_get img_data "b64_json" ;;
  if negb (json_truthy b64_data) then
    Raise (ValueError ("No image data found for item " ++ Str.of_nat i))
  else
    match b64decode_value b64_data with
    | Raise (BinasciiError e) =>
        Raise (ValueError ("Failed to decode base64 data for item "
                           ++ Str.of_nat i ++ ": " ++ e))
    | r => r
    end.

Fixpoint decode_loop (i : nat) (images : list json) : result (list bytes) :=
  match images with
  | [] => Ok []
  | img_data :: rest =>
      decoded <- decode_item i img_data ;;
      decoded_images <- decode_loop (S i) rest ;;
      Ok (decoded :: decoded_images)
  end.

(** [decode_openai_response(response_body)].  The diagnostic of the JSON
    parser, which the first message ends with, is not modelled. *)
Definition decode_openai_response (response_body : string)
  : result (list bytes) :=
  data <-
    match json_decoder.loads response_body with
    | Raise JSONDecodeError => Raise (ValueError "Invalid JSON response: ")
    | r => r
    end ;;
  has_data <- py_in "data" data ;;
  if negb has_data then
    Raise (ValueError "Unexpected response format (no 'data' key)")
  else
    images <- py_getitem data "data" ;;
    items <- py_iter images ;;
    decode_loop 0 items.

(* ================================================================== *)
(** * Reading the extension object back *)



(** The JSON value that equals a Python value. *)
Definition to_json (v : pyval) : json :=
  match v with
  | VNone => JNull
  | VBool b => JBool b
  | VInt z => JInt z
  | VFloat r => JFloat (json_encoder.dumps_float r)
  | VStr s => JStr s
  | VInts l => JList (map JInt l)
  end.

Definition dict_to_json (d : dict pyval) : json :=
  JDict (map (fun kv => (fst kv, to_json (snd kv))) d).


(* ================================================================== *)
(** * Definitions used to state and prove the properties *)

(** The number of characters of [s] other than [c]. *)
Fixpoint count_other (c : ascii) (s : string) : nat :=
  match s with
  | EmptyString => 0%nat
  | String a r => ((if Ascii.eqb a c then 0 else 1) + count_other c r)%nat
  end.

(** The path [save_images] gives to image [i]: [f] is the conversion of
    the index. *)
Definition path_of (has_spec : bool) (output dirname : string)
    (fmt_pref : string) (f : Z -> string) (fmt_suf : string) (start_idx : Z)
    (i : nat) : string :=
  if negb has_spec && (i =? 0)%nat then output
  else posixpath.join dirname (fmt_pref ++ f (Z.of_nat i + start_idx) ++ fmt_suf).

(** The utility options with an output path and a starting index only. *)
Definition util (o : option string) (idx : option Z) : UtilOpts :=
  {| server_url := None; output := o; output_begin_idx := idx;
     verbose := None |}.

(** The output path [save_images] works with. *)
Definition output_path (util_opts : UtilOpts) : string :=
  match output util_opts with Some o => o | None => "./output.png" end.

Fixpoint all_digits (s : string) : bool :=
  match s with
  | EmptyString => true
  | String c r => Str.is_digit c && all_digits r
  end.

(** A text of decimal digits, ASCII or not, as [\d*] matches it. *)
Fixpoint unicode_digits (s : string) : bool :=
  match s with
  | EmptyString => true
  | String c r =>
      let n := N_of_ascii c in
      if (n <? 128)%N then Str.is_digit c && unicode_digits r
      else if (n <? 194)%N then false
      else if (n <? 224)%N then
        match r with
        | String c1 r1 =>
            is_decimal_digit (code_point_2 c c1) && unicode_digits r1
        | _ => false
        end
      else if (n <? 240)%N then
        match r with
        | String c1 (String c2 r2) =>
            is_decimal_digit (code_point_3 c c1 c2) && unicode_digits r2
        | _ => false
        end
      else
        match r with
        | String c1 (String c2 (String c3 r3)) =>
            is_decimal_digit (code_point_4 c c1 c2 c3) && unicode_digits r3
        | _ => false
        end
  end.

(** Whether the placeholder of a match is written with ASCII digits. *)
Definition ascii_placeholder (m : re_match) : bool :=
  base64.is_ascii (m_group m).

(** U+0663 ARABIC-INDIC DIGIT THREE, a decimal digit outside ASCII. *)
Definition arabic_three : string :=
  String (ascii_of_N 217) (String (ascii_of_N 163) EmptyString).

(** The number a run of decimal digits spells, if it is one. *)
Definition decimal_value (s : string) : option N :=
  option_map N.of_uint (NilEmpty.uint_of_string s).

(** [s.lstrip(' ')] *)
Fixpoint lstrip_spaces (s : string) : string :=
  match s with
  | String " " r => lstrip_spaces r
  | _ => s
  end.

(** The text of the user prompt in the payload: [gen_opts.get('prompt', '')]
    as the f-string renders it. *)
Definition user_prompt (gen_opts : dict pyval) : string :=
  py_str (py_get_default gen_opts "prompt" (VStr "")).


(** The output path [parse_arguments] works with. *)
Definition cl_output_path (cl : CommandLine) : string :=
  match cl_output cl with Some o => o | None => "./output.png" end.

(** A command line with an output path and generation options only. *)
Definition command_line (o : option string) (generation : dict pyval)
  : CommandLine :=
  {| cl_server_url := None; cl_output := o; cl_output_begin_idx := None;
     cl_verbose := false; cl_generation := generation |}.

(** One turn of the loop over [extension_keys]. *)
Definition copy_step (gen_opts : dict pyval) (extension_data : dict pyval)
    (key : string) : dict pyval :=
  if is_not_none (py_get gen_opts key)
  then dict_set extension_data key (py_get gen_opts key)
  else extension_data.


(** Well-formed texts.  A Python string without surrogates is valid UTF-8
    once encoded (no stray or missing continuation byte, no overlong form,
    no surrogate, nothing above U+10FFFF). *)
Definition is_cont (c : ascii) : bool :=
  ((128 <=? N_of_ascii c) && (N_of_ascii c <? 192))%N.

Fixpoint utf8_valid (s : string) : bool :=
  match s with
  | EmptyString => true
  | String c r =>
      let n := N_of_ascii c in
      if (n <? 128)%N then utf8_valid r
      else if (n <? 194)%N then false
      else if (n <? 224)%N then
        match r with
        | String c1 r1 => is_cont c1 && utf8_valid r1
        | _ => false
        end
      else if (n <? 240)%N then
        match r with
        | String c1 (String c2 r2) =>
            is_cont c1 && is_cont c2
            && (if (n =? 224)%N then (160 <=? N_of_ascii c1)%N else true)
            && (if (n =? 237)%N then (N_of_ascii c1 <? 160)%N else true)
            && utf8_valid r2
        | _ => false
        end
      else if (n <? 245)%N then
        match r with
        | String c1 (String c2 (String c3 r3)) =>
            is_cont c1 && is_cont c2 && is_cont c3
            && (if (n =? 240)%N then (144 <=? N_of_ascii c1)%N else true)
            && (if (n =? 244)%N then (N_of_ascii c1 <? 144)%N else true)
            && utf8_valid r3
        | _ => false
        end
      else false
  end.

(** The [repr] of a float: [nan], [inf], [-inf], or a decimal text with a
    fraction or an exponent, which is a number of JSON as it stands. *)
Definition float_repr_ok (r : string) : bool :=
  String.eqb r "nan" || String.eqb r "inf" || String.eqb r "-inf"
  || match json_decoder.scan_number r with
     | Some (JFloat text, EmptyString) => String.eqb text r
     | _ => false
     end.

Definition value_ok (v : pyval) : bool :=
  match v with
  | VStr s => utf8_valid s
  | VFloat r => float_repr_ok r
  | _ => true
  end.


(** A text that follows a value in a JSON document: it starts with a
    comma or with a closing bracket. *)
Definition starts_with_delimiter (s : string) : bool :=
  match s with
  | String c _ => Ascii.eqb c "," || Ascii.eqb c "}" || Ascii.eqb c "]"
  | EmptyString => false
  end.

(** The result of [scanstring] once the text [head] has been read before
    what [rest] reads. *)
Definition scan_more (head : string) (rest : option (string * string))
  : option (string * string) :=
  match rest with
  | Some (str, tail) => Some (head ++ str, tail)
  | None => None
  end.

(** What [json.dumps] writes after the value of an item: the items that
    follow and the closing brace, then [R]. *)
Fixpoint object_tail (d : dict pyval) (R : string) : string :=
  match d with
  | [] => String "}" R
  | (k, v) :: d' =>
      ", " ++ String Str.dquote
        (json_encoder.escape_ascii k
         ++ String Str.dquote (": " ++ json_encoder.dumps_val v
                               ++ object_tail d' R))
  end.

(** The standard base64 encoding (RFC 4648), as [base64.b64encode]
    writes it: the texts the servers send.  Three bytes give four
    characters of six bits each; a last group of one or two bytes is
    completed with [=]. *)
Definition b2a_char (v : N) : ascii :=
  if (v <? 26)%N then ascii_of_N (65 + v)
  else if (v <? 52)%N then ascii_of_N (71 + v)
  else if (v <? 62)%N then ascii_of_N (v - 4)
  else if (v =? 62)%N then "+"%char
  else "/"%char.

Definition byte_N (b : byte) : N := N_of_ascii (ascii_of_byte b).

Definition sextet_1 (b0 : N) : N := N.shiftr b0 2.
Definition sextet_2 (b0 b1 : N) : N :=
  N.lor (N.shiftl (N.land b0 3) 4) (N.shiftr b1 4).
Definition sextet_3 (b1 b2 : N) : N :=
  N.lor (N.shiftl (N.land b1 15) 2) (N.shiftr b2 6).
Definition sextet_4 (b2 : N) : N := N.land b2 63.

Fixpoint b64encode (data : bytes) : string :=
  match data with
  | [] => EmptyString
  | [b0] =>
      String (b2a_char (sextet_1 (byte_N b0)))
        (String (b2a_char (sextet_2 (byte_N b0) 0)) "==")
  | [b0; b1] =>
      String (b2a_char (sextet_1 (byte_N b0)))
        (String (b2a_char (sextet_2 (byte_N b0) (byte_N b1)))
           (String (b2a_char (sextet_3 (byte_N b1) 0)) "="))
  | b0 :: b1 :: b2 :: rest =>
      String (b2a_char (sextet_1 (byte_N b0)))
        (String (b2a_char (sextet_2 (byte_N b0) (byte_N b1)))
           (String (b2a_char (sextet_3 (byte_N b1) (byte_N b2)))
              (String (b2a_char (sextet_4 (byte_N b2))) (b64encode rest))))
  end.

(** The checks of one six-bit value and of one pair of bytes, run on all
    of them in the proofs. *)
Definition sextet_check (v : N) : bool :=
  match base64.table_a2b_base64 (b2a_char v) with
  | Some w =>
      (w =? v)%N && negb (Ascii.eqb (b2a_char v) "=")
      && (N_of_ascii (b2a_char v) <? 128)%N
  | None => false
  end.

Definition pair_check (x y : N) : bool :=
  (sextet_1 x <? 64)%N && (sextet_2 x y <? 64)%N
  && (sextet_3 x y <? 64)%N && (sextet_4 x <? 64)%N
  && (N.lor (N.shiftl (sextet_1 x) 2) (N.shiftr (sextet_2 x y) 4) mod 256
      =? x)%N
  && (N.land (sextet_2 x y) 15 =? N.shiftr y 4)%N
  && (N.lor (N.shiftl (N.shiftr x 4) 4) (N.shiftr (sextet_3 x y) 2) mod 256
      =? x)%N
  && (N.land (sextet_3 x y) 3 =? N.shiftr y 6)%N
  && (N.lor (N.shiftl (N.shiftr x 6) 6) (sextet_4 x) mod 256 =? x)%N.

Definition pairs_check (x : N) : bool :=
  forallb (pair_check x) (map N.of_nat (seq 0 256)).

(** Whether the placeholder of a file name, if it has one, is written
    with ASCII digits. *)
Definition ascii_template (filename : string) : bool :=
  match re_search_placeholder filename with
  | Some m => ascii_placeholder m
  | None => true
  end.

(** The JSON decoder without its extension: [json.loads] with a
    [parse_constant] that raises.  It reads the texts of the JSON grammar
    (RFC 8259) and no other: the constants [NaN], [Infinity] and
    [-Infinity], which [json.loads] accepts and [json.dumps] writes for
    the floats that are no numbers, are no JSON. *)
Module json_strict.

(** The scalar cases of [scan_once], without the three constants. *)
Definition scan_atom (s : string) : option (json * string) :=
  match json_decoder.scan_literal "null" JNull s with
  | Some x => Some x
  | None =>
  match json_decoder.scan_literal "true" (JBool true) s with
  | Some x => Some x
  | None =>
  match json_decoder.scan_literal "false" (JBool false) s with
  | Some x => Some x
  | None => json_decoder.scan_number s
  end end end.

Fixpoint scan_once (fuel : nat) (s : string) : option (json * string) :=
  match fuel with
  | O => None
  | S f =>
      match s with
      | EmptyString => None
      | String c r =>
          if Ascii.eqb c Str.dquote then
            match json_decoder.scanstring r with
            | Some (str, rest) => Some (JStr str, rest)
            | None => None
            end
          else if Ascii.eqb c "{" then
            match json_decoder.skip_ws r with
            | String c1 r1 =>
                if Ascii.eqb c1 "}" then Some (JDict [], r1)
                else if Ascii.eqb c1 Str.dquote then object_loop f r1 []
                else None
            | EmptyString => None
            end
          else if Ascii.eqb c "[" then
            match json_decoder.skip_ws r with
            | String c1 r1 =>
                if Ascii.eqb c1 "]" then Some (JList [], r1)
                else array_loop f (String c1 r1) []
            | EmptyString => None
            end
          else scan_atom s
      end
  end

with array_loop (fuel : nat) (s : string) (values : list json)
  : option (json * string) :=
  match fuel with
  | O => None
  | S f =>
      match scan_once f s with
      | None => None
      | Some (value, r) =>
          match json_decoder.skip_ws r with
          | String c r1 =>
              if Ascii.eqb c "]" then Some (JList (rev (value :: values)), r1)
              else if Ascii.eqb c ","
              then array_loop f (json_decoder.skip_ws r1) (value :: values)
              else None
          | EmptyString => None
          end
      end
  end

with object_loop (fuel : nat) (s : string) (pairs : list (string * json))
  : option (json * string) :=
  match fuel with
  | O => None
  | S f =>
      match json_decoder.scanstring s with
      | None => None
      | Some (key, r) =>
          match json_decoder.skip_ws r with
          | String colon r1 =>
              if negb (Ascii.eqb colon ":") then None else
              match scan_once f (json_decoder.skip_ws r1) with
              | None => None
              | Some (value, r2) =>
                  match json_decoder.skip_ws r2 with
                  | String c r3 =>
                      if Ascii.eqb c "}" then
                        Some (JDict (json_decoder.dict_of_pairs (rev ((key, value) :: pairs))),
                              r3)
                      else if Ascii.eqb c "," then
                        match json_decoder.skip_ws r3 with
                        | String q r4 =>
                            if Ascii.eqb q Str.dquote
                            then object_loop f r4 ((key, value) :: pairs)
                            else None
                        | EmptyString => None
                        end
                      else None
                  | EmptyString => None
                  end
              end
          | EmptyString => None
          end
      end
  end.

(** One value, with white space around it and nothing else. *)
Definition loads (s : string) : result json :=
  match scan_once (2 * String.length s + 2) (json_decoder.skip_ws s) with
  | Some (obj, rest) =>
      match json_decoder.skip_ws rest with
      | EmptyString => Ok obj
      | _ => Raise JSONDecodeError
      end
  | None => Raise JSONDecodeError
  end.


End json_strict.

(** Valid JSON: a text the decoder without extension reads. *)
Definition valid_json (s : string) : bool :=
  match json_strict.loads s with
  | Ok _ => true
  | Raise _ => false
  end.

(** A value that is not one of the floats JSON has no literal for. *)
Definition finite_value (v : pyval) : bool :=
  match v with
  | VFloat r =>
      negb (String.eqb r "nan" || String.eqb r "inf" || String.eqb r "-inf")
  | _ => true
  end.


(* ================================================================== *)
(** * The layer lists of the option resolver *)

(** [s.split(sep)] for a separator of one character: the texts between
    the separators, of which there is always one at least. *)
Fixpoint py_split (sep : ascii) (s : string) : list string :=
  match s with
  | EmptyString => [EmptyString]
  | String c r =>
      if Ascii.eqb c sep then EmptyString :: py_split sep r
      else
        match py_split sep r with
        | x :: l => String c x :: l
        | [] => [String c EmptyString]
        end
  end.

(** The first [n] characters of [s] ([s[:n]]). *)
Fixpoint py_take (n : nat) (s : string) : string :=
  match n, s with
  | S m, String c r => String c (py_take m r)
  | _, _ => EmptyString
  end.

(** [repr(s)] for a text of ASCII characters: between apostrophes, or
    between double quotes when the text holds an apostrophe and no double
    quote; the quote, the backslash and the characters that do not print
    are escaped. *)
Definition repr_char (quote : ascii) (c : ascii) : string :=
  let n := N_of_ascii c in
  if Ascii.eqb c quote || Ascii.eqb c "\" then String "\" (String c EmptyString)
  else if (n =? 9)%N then "\t"
  else if (n =? 10)%N then "\n"
  else if (n =? 13)%N then "\r"
  else if (n <? 32)%N || (n =? 127)%N then
    String "\" (String "x"
      (String (json_encoder.hex_digit (n / 16))
         (String (json_encoder.hex_digit (n mod 16)) EmptyString)))
  else String c EmptyString.

Fixpoint repr_body (quote : ascii) (s : string) : string :=
  match s with
  | EmptyString => EmptyString
  | String c r => repr_char quote c ++ repr_body quote r
  end.

Definition py_repr (s : string) : string :=
  let quote :=
    if Str.contains_char "'" s && negb (Str.contains_char Str.dquote s)
    then Str.dquote else "'"%char in
  String quote (repr_body quote s ++ String quote EmptyString).

(** The white space [int] skips around an ASCII literal ([Py_ISSPACE]). *)
Definition is_space (c : ascii) : bool :=
  let n := N_of_ascii c in
  (n =? 32)%N || ((9 <=? n) && (n <=? 13))%N.

Fixpoint lstrip_space (s : string) : string :=
  match s with
  | String c r => if is_space c then lstrip_space r else s
  | EmptyString => EmptyString
  end.

Fixpoint all_space (s : string) : bool :=
  match s with
  | String c r => is_space c && all_space r
  | EmptyString => true
  end.

(** The digits and underscores at the head of [s], and what follows. *)
Fixpoint span_int_body (s : string) : string * string :=
  match s with
  | String c r =>
      if Str.is_digit c || Ascii.eqb c "_" then
        let (body, rest) := span_int_body r in (String c body, rest)
      else (EmptyString, s)
  | EmptyString => (EmptyString, EmptyString)
  end.

(** The underscores of a literal stand alone and between digits:
    [prev] says whether the character before was an underscore (or the
    start of the literal). *)
Fixpoint underscores_ok (prev : bool) (body : string) : bool :=
  match body with
  | EmptyString => negb prev
  | String c r =>
      if Ascii.eqb c "_" then negb prev && underscores_ok true r
      else underscores_ok false r
  end.

Fixpoint drop_underscores (body : string) : string :=
  match body with
  | EmptyString => EmptyString
  | String c r =>
      if Ascii.eqb c "_" then drop_underscores r
      else String c (drop_underscores r)
  end.

Definition invalid_literal (x : string) : exn :=
  ValueError ("invalid literal for int() with base 10: "
              ++ py_take 200 (py_repr x)).

(** [int(x)] for a text [x] of ASCII characters: white space, a sign, and
    decimal digits that single underscores may separate.  A text with
    other characters is answered [None]: there [int] consults the Unicode
    tables of digits and spaces, which are not modelled. *)
Definition py_int (x : string) : option (result Z) :=
  if negb (base64.is_ascii x) then None
  else
    let s := lstrip_space x in
    let (negative, s1) :=
      match s with
      | String "+" r => (false, r)
      | String "-" r => (true, r)
      | _ => (false, s)
      end in
    let (body, rest) := span_int_body s1 in
    if underscores_ok true body && all_space rest then
      let n := Z.of_N (digits_value 0%N (drop_underscores body)) in
      Some (Ok (if negative then - n else n))
    else Some (Raise (invalid_literal x)).

(** [[int(x) for x in l]]: the first text that is no integer raises. *)
Fixpoint ints_of (l : list string) : option (result (list Z)) :=
  match l with
  | [] => Some (Ok [])
  | x :: r =>
      match py_int x with
      | None => None
      | Some (Raise e) => Some (Raise e)
      | Some (Ok z) =>
          match ints_of r with
          | None => None
          | Some (Raise e) => Some (Raise e)
          | Some (Ok zs) => Some (Ok (z :: zs))
          end
      end
  end.

(** [[int(x) for x in s.split(',')]] (line 99). *)
Definition convert_layers (s : string) : option (result (list Z)) :=
  ints_of (py_split "," s).

(** The loop of lines 97 to 99 on [args_dict], where the two layer
    options are the texts of the command line.  A value that is no text
    has no [split]. *)
Definition convert_layer_option (args_dict : dict pyval) (arg : string)
  : option (result (dict pyval)) :=
  match py_get args_dict arg with
  | VNone => Some (Ok args_dict)
  | VStr s =>
      match convert_layers s with
      | None => None
      | Some (Raise e) => Some (Raise e)
      | Some (Ok l) => Some (Ok (dict_set args_dict arg (VInts l)))
      end
  | _ => Some (Raise AttributeError)
  end.

Definition convert_layer_options (args_dict : dict pyval)
  : option (result (dict pyval)) :=
  match convert_layer_option args_dict "skip_layers" with
  | None => None
  | Some (Raise e) => Some (Raise e)
  | Some (Ok args_dict) =>
      convert_layer_option args_dict "high_noise_skip_layers"
  end.


(* ================================================================== *)
(** * The program: one request, one response, the files written *)

(** [json.dumps(d, indent=2)]: one member per line, indented by two
    spaces; the elements of a list, one level deeper, by four.  An empty
    list and an empty object stay on one line. *)
Definition newline : string := String (ascii_of_nat 10) EmptyString.

Definition dumps_val_indent (v : pyval) : string :=
  match v with
  | VInts [] => "[]"
  | VInts l =>
      "[" ++ newline ++ "    "
      ++ str_join ("," ++ newline ++ "    ") (map Str.of_Z l)
      ++ newline ++ "  ]"
  | _ => json_encoder.dumps_val v
  end.

Definition dumps_item_indent (kv : string * pyval) : string :=
  json_encoder.dumps_str (fst kv) ++ ": " ++ dumps_val_indent (snd kv).

Definition dumps_indent (d : dict pyval) : string :=
  match d with
  | [] => "{}"
  | _ =>
      "{" ++ newline ++ "  "
      ++ str_join ("," ++ newline ++ "  ") (map dumps_item_indent d)
      ++ newline ++ "}"
  end.

(** What a run of the program does that can be seen from outside, in
    order: the texts it prints, the call of [urlopen] with the URL and the
    body of the request, and the files it writes. *)
Inductive stream : Type := Stdout | Stderr.

Inductive event : Type :=
| Print (file : stream) (text : string)
| Urlopen (endpoint : string) (req_data : string)
| Write (filepath : string) (img_bytes : bytes).

(** What the network answers to a request, told apart as [main] tells it
    apart: the constructor [Request] raises (outside of the [try]); the
    body is read and decoded; or the [try] block raises an [HTTPError]
    (with [e.code] and the text of [e.reason]), another [URLError] (with
    the text of [e.reason]), or any other [Exception] (with its text). *)
Inductive transport : Type :=
| RequestRaises (e : exn)
| Response (response_body : string)
| HTTPError (code : Z) (reason : string)
| URLError (reason : string)
| OtherException (text : string).

(** How a run ends: [main] returns, [sys.exit(code)] is called, or an
    exception leaves [main]. *)
Inductive status : Type :=
| Returned
| Exit (code : Z)
| Uncaught (e : exn).

(** The files [save_images] writes and, in verbose mode, the line it
    prints after each. *)
Definition save_events (verbose : bool) (plan : list (string * bytes))
  : list event :=
  flat_map
    (fun file =>
       Write (fst file) (snd file)
       :: (if verbose
           then [Print Stdout ("Saved image to " ++ fst file)]
           else []))
    plan.

(** The URL of the request (lines 233 to 235). *)
Definition endpoint_of (server_url : string) : string :=
  let server_url :=
    if negb (Str.ends_with_char "/" server_url)
    then server_url ++ "/" else server_url in
  server_url ++ "v1/images/generations".

(** [main()], from the parsed command line on, against a network that
    answers [urlopen endpoint req_data] to the one request.  The warnings
    of [parse_arguments] about unknown arguments, the directory
    [save_images] creates and the errors of the file system are left
    out. *)
Definition main (cl : CommandLine) (urlopen : string -> string -> transport)
  : list event * status :=
  let (util_opts, gen_opts) := parse_arguments cl in
  let verbose :=
    match verbose util_opts with Some b => b | None => false end in
  let server_url :=
    match server_url util_opts with Some u => u | None => EmptyString end in
  if Str.is_empty server_url then
    ([Print Stderr
        "Error: --server-url not provided and SD_SERVER_URL env var not found."],
     Exit 1)
  else
    let endpoint := endpoint_of server_url in
    let api_payload := build_openai_payload gen_opts util_opts in
    let log :=
      if verbose then
        [Print Stdout ("Sending request to: " ++ endpoint);
         Print Stdout ("Payload: " ++ dumps_indent api_payload)]
      else [] in
    let req_data := json_encoder.dumps api_payload in
    match urlopen endpoint req_data with
    | RequestRaises e => (log, Uncaught e)
    | HTTPError code reason =>
        ((log ++ [Urlopen endpoint req_data;
                  Print Stdout
                    ("HTTP Error " ++ Str.of_Z code ++ ": " ++ reason)])%list,
         Exit 1)
    | URLError reason =>
        ((log ++ [Urlopen endpoint req_data;
                  Print Stdout ("URL Error: " ++ reason)])%list,
         Exit 1)
    | OtherException text =>
        ((log ++ [Urlopen endpoint req_data;
                  Print Stdout ("Request Error: " ++ text)])%list,
         Exit 1)
    | Response response_body =>
        match decode_openai_response response_body with
        | Raise (ValueError e) =>
            ((log ++ [Urlopen endpoint req_data;
                      Print Stdout ("Error decoding response: " ++ e)])%list,
             Exit 1)
        | Raise e => ((log ++ [Urlopen endpoint req_data])%list, Uncaught e)
        | Ok images =>
            match save_images images util_opts with
            | Ok plan =>
                ((log ++ Urlopen endpoint req_data
                      :: save_events verbose plan)%list,
                 Returned)
            | Raise e => ((log ++ [Urlopen endpoint req_data])%list, Uncaught e)
            end
        end
    end.

(* ================================================================== *)
(** * More definitions used to state the properties *)

(** The number of occurrences of [c] in [s]. *)
Fixpoint count_char (c : ascii) (s : string) : nat :=
  match s with
  | EmptyString => 0%nat
  | String a r => ((if Ascii.eqb a c then 1 else 0) + count_char c r)%nat
  end.

Fixpoint has_digit (s : string) : bool :=
  match s with
  | EmptyString => false
  | String c r => Str.is_digit c || has_digit r
  end.

(** What a record is when an image comes out of it. *)
Definition image_record (record : json) (image : bytes) : Prop :=
  exists rd s,
    record = JDict rd /\
    dict_get rd "b64_json" = Some (JStr s) /\
    s <> "" /\
    base64.b64decode s = Ok image.

(** The characters the base64 decoder looks at: those of the alphabet and
    the padding character; and a text without the others. *)
Definition b64_significant (c : ascii) : bool :=
  Ascii.eqb c "="
  || match base64.table_a2b_base64 c with Some _ => true | None => false end.

Fixpoint b64_filter (s : string) : string :=
  match s with
  | EmptyString => EmptyString
  | String c r =>
      if b64_significant c then String c (b64_filter r) else b64_filter r
  end.


(* ================================================================== *)
(** * Facts about strings *)

Section StringFacts.

Lemma append_nil_r (s : string) : s ++ "" = s.
Proof. induction s; simpl; congruence. Qed.

Lemma append_assoc (a b c : string) : (a ++ b) ++ c = a ++ (b ++ c).
Proof. induction a; simpl; congruence. Qed.

Lemma length_append (a b : string) :
  String.length (a ++ b) = (String.length a + String.length b)%nat.
Proof. induction a; simpl; congruence. Qed.

Lemma append_inv_head (a b c : string) : a ++ b = a ++ c -> b = c.
Proof. induction a; simpl; intros H; [assumption | injection H; auto]. Qed.

Lemma append_inv_tail (a b c : string) : a ++ c = b ++ c -> a = b.
Proof.
  revert b.
  induction a as [|x a IH]; intros [|y b] H; simpl in *.
  - reflexivity.
  - apply (f_equal String.length) in H. simpl in H.
    rewrite length_append in H. lia.
  - apply (f_equal String.length) in H. simpl in H.
    rewrite length_append in H. lia.
  - injection H as -> H. f_equal. auto.
Qed.

Lemma contains_char_append (c : ascii) (a b : string) :
  Str.contains_char c (a ++ b)
  = Str.contains_char c a || Str.contains_char c b.
Proof.
  induction a; simpl; [reflexivity|].
  rewrite IHa. apply orb_assoc.
Qed.

Lemma starts_with_char_append (c : ascii) (a b : string) :
  a <> "" -> Str.contains_char c a = false ->
  Str.starts_with_char c (a ++ b) = false.
Proof.
  destruct a; [congruence|]. simpl. intros _ H.
  apply orb_false_iff in H. tauto.
Qed.

Lemma rpartition_Some (c : ascii) (s b t : string) :
  Str.rpartition c s = Some (b, t) ->
  s = b ++ String c t /\ Str.contains_char c t = false.
Proof.
  revert b t.
  induction s as [|a s IH]; simpl; intros b t H; [discriminate|].
  destruct (Str.rpartition c s) as [[b' t']|] eqn:E.
  - injection H as <- <-. destruct (IH _ _ eq_refl) as [-> Ht].
    split; [reflexivity | assumption].
  - destruct (Ascii.eqb_spec a c) as [->|]; [|discriminate].
    injection H as <- <-. split; [reflexivity|].
    clear IH. revert E.
    induction s as [|x s IHs]; simpl; [reflexivity|].
    destruct (Str.rpartition c s) as [[? ?]|]; [discriminate|].
    destruct (Ascii.eqb x c); [discriminate|]. intros _. auto.
Qed.

Lemma rpartition_None (c : ascii) (s : string) :
  Str.rpartition c s = None -> Str.contains_char c s = false.
Proof.
  induction s as [|x s IHs]; simpl; [reflexivity|].
  destruct (Str.rpartition c s) as [[? ?]|]; [discriminate|].
  destruct (Ascii.eqb x c); [discriminate|]. intros _. auto.
Qed.

Lemma count_other_append (c : ascii) (a b : string) :
  count_other c (a ++ b) = (count_other c a + count_other c b)%nat.
Proof. induction a; simpl; [reflexivity | rewrite IHa; lia]. Qed.

Lemma count_other_rstrip (c : ascii) (s : string) :
  count_other c (Str.rstrip c s) = count_other c s.
Proof.
  induction s as [|a s IH]; simpl; [reflexivity|].
  destruct (Str.rstrip c s) eqn:E.
  - simpl in IH. rewrite <- IH.
    destruct (Ascii.eqb a c) eqn:Ea; simpl; rewrite ?Ea; reflexivity.
  - simpl in *. rewrite IH. reflexivity.
Qed.

Lemma count_other_length (c : ascii) (s : string) :
  Str.contains_char c s = false -> count_other c s = String.length s.
Proof.
  induction s as [|a s IH]; simpl; [reflexivity|].
  intros H. apply orb_false_iff in H. destruct H as [-> H]. auto.
Qed.

End StringFacts.

(* ================================================================== *)
(** * The placeholder and its conversion *)

Section Placeholder.

(** Induction on a text by steps of one to four bytes, as the UTF-8
    sequences are read. *)
Lemma string_ind4 (P : string -> Prop) :
  P EmptyString ->
  (forall c r,
      P r ->
      (forall c1 r1, r = String c1 r1 -> P r1) ->
      (forall c1 c2 r2, r = String c1 (String c2 r2) -> P r2) ->
      (forall c1 c2 c3 r3,
          r = String c1 (String c2 (String c3 r3)) -> P r3) ->
      P (String c r)) ->
  forall s, P s.
Proof.
  intros H0 H s.
  assert (Hn : forall n s, (String.length s <= n)%nat -> P s).
  { clear s. induction n as [|n IH]; intros s Hs.
    - destruct s; [exact H0|simpl in Hs; lia].
    - destruct s as [|c r]; [exact H0|]. simpl in Hs.
      apply H.
      + apply IH. lia.
      + intros c1 r1 ->. apply IH. simpl in Hs. lia.
      + intros c1 c2 r2 ->. apply IH. simpl in Hs. lia.
      + intros c1 c2 c3 r3 ->. apply IH. simpl in Hs. lia. }
  apply (Hn (String.length s)). lia.
Qed.

Lemma is_digit_ascii (c : ascii) :
  Str.is_digit c = true -> (N_of_ascii c <? 128)%N = true.
Proof.
  destruct c as [[] [] [] [] [] [] [] []]; cbv; intros H;
    first [reflexivity | discriminate H].
Qed.

Lemma all_digits_unicode (ds : string) :
  all_digits ds = true -> unicode_digits ds = true.
Proof.
  induction ds as [|c ds IH]; [reflexivity|].
  cbn [all_digits unicode_digits]. intros H.
  apply andb_prop in H. destruct H as [Hc Hd].
  rewrite (is_digit_ascii c Hc), Hc. exact (IH Hd).
Qed.

Lemma match_digits_d_spec (s : string) :
  forall ds rest,
    match_digits_d s = Some (ds, rest) ->
    s = ds ++ String "d" rest /\ unicode_digits ds = true.
Proof.
  induction s as [|c r IH0 IH1 IH2 IH3] using string_ind4;
    intros ds rest; cbn [match_digits_d]; [discriminate|].
  destruct (N_of_ascii c <? 128)%N eqn:E1.
  - destruct (Str.is_digit c) eqn:Ec.
    + destruct (match_digits_d r) as [[ds' rest']|]; [|discriminate].
      intros H. injection H as <- <-.
      destruct (IH0 _ _ eq_refl) as [-> Hd].
      cbn [append unicode_digits]. rewrite E1, Ec. auto.
    + destruct (Ascii.eqb_spec c "d") as [->|]; [|discriminate].
      intros H. injection H as <- <-. auto.
  - destruct (N_of_ascii c <? 194)%N eqn:E2; [discriminate|].
    destruct (N_of_ascii c <? 224)%N eqn:E3;
      [|destruct (N_of_ascii c <? 240)%N eqn:E4].
    + destruct r as [|c1 r1]; [discriminate|].
      destruct (is_decimal_digit (code_point_2 c c1)) eqn:Ed;
        [|discriminate].
      destruct (match_digits_d r1) as [[ds' rest']|] eqn:Em;
        [|discriminate].
      intros H. injection H as <- <-.
      destruct (IH1 c1 r1 eq_refl _ _ Em) as [-> Hd].
      cbn [append unicode_digits]. rewrite E1, E2, E3, Ed. auto.
    + destruct r as [|c1 [|c2 r2]]; try discriminate.
      destruct (is_decimal_digit (code_point_3 c c1 c2)) eqn:Ed;
        [|discriminate].
      destruct (match_digits_d r2) as [[ds' rest']|] eqn:Em;
        [|discriminate].
      intros H. injection H as <- <-.
      destruct (IH2 c1 c2 r2 eq_refl _ _ Em) as [-> Hd].
      cbn [append unicode_digits]. rewrite E1, E2, E3, E4, Ed. auto.
    + destruct r as [|c1 [|c2 [|c3 r3]]]; try discriminate.
      destruct (is_decimal_digit (code_point_4 c c1 c2 c3)) eqn:Ed;
        [|discriminate].
      destruct (match_digits_d r3) as [[ds' rest']|] eqn:Em;
        [|discriminate].
      intros H. injection H as <- <-.
      destruct (IH3 c1 c2 c3 r3 eq_refl _ _ Em) as [-> Hd].
      cbn [append unicode_digits]. rewrite E1, E2, E3, E4, Ed. auto.
Qed.

Lemma match_digits_d_complete (ds : string) :
  forall rest,
    unicode_digits ds = true ->
    match_digits_d (ds ++ String "d" rest) = Some (ds, rest).
Proof.
  induction ds as [|c r IH0 IH1 IH2 IH3] using string_ind4;
    intros rest; [reflexivity|].
  cbn [unicode_digits append match_digits_d].
  destruct (N_of_ascii c <? 128)%N eqn:E1.
  - intros H. apply andb_prop in H. destruct H as [Hc Hd].
    rewrite Hc, (IH0 rest Hd). reflexivity.
  - destruct (N_of_ascii c <? 194)%N eqn:E2; [discriminate|].
    destruct (N_of_ascii c <? 224)%N eqn:E3;
      [|destruct (N_of_ascii c <? 240)%N eqn:E4].
    + destruct r as [|c1 r1]; [discriminate|]. intros H.
      apply andb_prop in H. destruct H as [Hc Hd].
      cbn [append]. rewrite Hc, (IH1 c1 r1 eq_refl rest Hd). reflexivity.
    + destruct r as [|c1 [|c2 r2]]; try discriminate. intros H.
      apply andb_prop in H. destruct H as [Hc Hd].
      cbn [append]. rewrite Hc, (IH2 c1 c2 r2 eq_refl rest Hd).
      reflexivity.
    + destruct r as [|c1 [|c2 [|c3 r3]]]; try discriminate. intros H.
      apply andb_prop in H. destruct H as [Hc Hd].
      cbn [append]. rewrite Hc, (IH3 c1 c2 c3 r3 eq_refl rest Hd).
      reflexivity.
Qed.

(** What [re.search] returns is an occurrence of the pattern: the file
    name is cut into the text before, a group [%<digits>d] and the text
    after. *)
Lemma re_search_placeholder_sound (s : string) (m : re_match) :
  re_search_placeholder s = Some m ->
  s = m_before m ++ m_group m ++ m_after m /\
  exists ds, m_group m = String "%" (ds ++ "d")
             /\ unicode_digits ds = true.
Proof.
  revert m. induction s as [|c s IH]; intros m;
    cbn [re_search_placeholder match_placeholder].
  - discriminate.
  - destruct (Ascii.eqb_spec c "%") as [->|Hc].
    + destruct (match_digits_d s) as [[ds rest]|] eqn:E.
      * intros H. injection H as <-. simpl.
        destruct (match_digits_d_spec _ _ _ E) as [-> Hd].
        split.
        -- rewrite append_assoc. reflexivity.
        -- exists ds. auto.
      * destruct (re_search_placeholder s) as [m'|]; [|discriminate].
        intros H. injection H as <-. simpl.
        destruct (IH _ eq_refl) as [-> Hg]. auto.
    + destruct (re_search_placeholder s) as [m'|]; [|discriminate].
      intros H. injection H as <-. simpl.
      destruct (IH _ eq_refl) as [-> Hg]. auto.
Qed.

(** A file name that holds an occurrence of the pattern is matched. *)
Lemma re_search_placeholder_complete (a ds b : string) :
  unicode_digits ds = true ->
  re_search_placeholder (a ++ String "%" (ds ++ String "d" b)) <> None.
Proof.
  intros Hd. induction a as [|c a IH];
    cbn [append re_search_placeholder match_placeholder].
  - rewrite Ascii.eqb_refl, (match_digits_d_complete _ _ Hd). discriminate.
  - destruct (if Ascii.eqb c "%" then _ else _) as [[? ?]|];
      [discriminate|].
    destruct (re_search_placeholder _); [discriminate | contradiction].
Qed.

(** The match is the leftmost one: no occurrence of the pattern starts
    in the text before it. *)
Lemma re_search_placeholder_leftmost (s : string) (m : re_match) :
  re_search_placeholder s = Some m ->
  forall a b, m_before m = a ++ b -> b <> "" ->
  match_placeholder (b ++ m_group m ++ m_after m) = None.
Proof.
  revert m. induction s as [|c s IH]; intros m H a b Hab Hb.
  - discriminate.
  - cbn [re_search_placeholder] in H.
    destruct (match_placeholder (String c s)) as [[g rest]|] eqn:E.
    + injection H as <-. simpl in Hab.
      destruct a; destruct b; simpl in Hab; congruence.
    + destruct (re_search_placeholder s) as [m'|] eqn:E'; [|discriminate].
      injection H as <-. simpl in *.
      destruct a as [|x a]; simpl in Hab.
      * subst b. simpl.
        destruct (re_search_placeholder_sound _ _ E') as [Hs _].
        rewrite <- Hs. exact E.
      * injection Hab as -> Hab. eapply IH; eauto.
Qed.

Lemma not_ascii_facts (c : ascii) :
  (N_of_ascii c <? 128)%N = false ->
  Str.is_digit c = false /\ Ascii.eqb c "d" = false.
Proof.
  intros H. split.
  - destruct (Str.is_digit c) eqn:E; [|reflexivity].
    rewrite (is_digit_ascii c E) in H. discriminate H.
  - destruct (Ascii.eqb_spec c "d") as [->|]; [discriminate H|reflexivity].
Qed.

Lemma is_digit_not_d (c : ascii) :
  Str.is_digit c = true -> Ascii.eqb c "d" = false.
Proof.
  destruct (Ascii.eqb_spec c "d") as [->|]; [discriminate | reflexivity].
Qed.

Lemma skip_zero_flags_other (c : ascii) (r : string) :
  c <> "0"%char -> skip_zero_flags (String c r) = (false, String c r).
Proof.
  intros H. destruct c as [[] [] [] [] [] [] [] []]; try reflexivity.
  contradiction H; reflexivity.
Qed.

(** The zeros at the head of the digits are flags; the digits that are
    left spell the same number. *)
Lemma skip_zero_flags_spec (ds tail : string) :
  unicode_digits ds = true ->
  exists ds',
    skip_zero_flags (ds ++ String "d" tail)
    = (Str.starts_with_char "0" ds, ds' ++ String "d" tail)
    /\ unicode_digits ds' = true
    /\ all_digits ds' = all_digits ds
    /\ digits_value 0%N ds' = digits_value 0%N ds.
Proof.
  assert (Hsnd : forall ds, unicode_digits ds = true ->
            exists ds',
              snd (skip_zero_flags (ds ++ String "d" tail))
              = ds' ++ String "d" tail
              /\ unicode_digits ds' = true
              /\ all_digits ds' = all_digits ds
              /\ digits_value 0%N ds' = digits_value 0%N ds).
  { clear ds. induction ds as [|c ds IH]; intros H.
    - exists EmptyString. repeat split.
    - destruct (Ascii.eqb_spec c "0") as [->|Hn].
      + cbn [unicode_digits] in H. cbn in H.
        destruct (IH H) as [ds' [E [U [A V]]]].
        exists ds'. cbn [append skip_zero_flags snd].
        repeat split; assumption.
      + exists (String c ds). cbn [append].
        rewrite (skip_zero_flags_other c _ Hn). repeat split. exact H. }
  intros H. destruct ds as [|c ds].
  - exists EmptyString. repeat split.
  - destruct (Ascii.eqb_spec c "0") as [->|Hn].
    + destruct (Hsnd (String "0" ds) H) as [ds' [E R]].
      exists ds'. split; [|exact R].
      cbn [append skip_zero_flags snd] in *. rewrite E. reflexivity.
    + exists (String c ds). cbn [append Str.starts_with_char].
      rewrite (skip_zero_flags_other c _ Hn).
      apply Ascii.eqb_neq in Hn. rewrite Hn. repeat split. exact H.
Qed.

Lemma read_width_d_digits (ds acc tail : string) (pos : nat) :
  all_digits ds = true ->
  read_width_d acc pos (ds ++ String "d" tail)
  = Some (Decimal (acc ++ ds) tail).
Proof.
  revert acc pos. induction ds as [|c ds IH]; intros acc pos H;
    cbn [append read_width_d].
  - rewrite append_nil_r. reflexivity.
  - cbn [all_digits] in H. apply andb_true_iff in H. destruct H as [Hc Hd].
    rewrite Hc, (IH _ _ Hd), append_assoc. reflexivity.
Qed.

(** A digit outside ASCII ends the width and is taken for the
    conversion character. *)
Lemma read_width_d_unicode (ds : string) :
  forall (acc tail : string) (pos : nat),
    unicode_digits ds = true -> all_digits ds = false ->
    exists cp index,
      read_width_d acc pos (ds ++ String "d" tail)
      = Some (Unsupported cp index)
      /\ is_decimal_digit cp = true.
Proof.
  induction ds as [|c r IH0 IH1 IH2 IH3] using string_ind4;
    intros acc tail pos; [discriminate|].
  cbn [unicode_digits all_digits append read_width_d].
  destruct (N_of_ascii c <? 128)%N eqn:E1.
  - intros H A. apply andb_prop in H. destruct H as [Hc Hd].
    rewrite Hc in *. cbn [andb] in A. exact (IH0 _ _ _ Hd A).
  - destruct (not_ascii_facts c E1) as [-> ->]. cbv zeta.
    destruct (N_of_ascii c <? 194)%N eqn:E2; [discriminate|].
    destruct (N_of_ascii c <? 224)%N eqn:E3;
      [|destruct (N_of_ascii c <? 240)%N eqn:E4].
    + destruct r as [|c1 r1]; [discriminate|]. intros H _.
      apply andb_prop in H. destruct H as [H _]. cbn [append].
      exists (code_point_2 c c1), pos. split; [reflexivity|exact H].
    + destruct r as [|c1 [|c2 r2]]; try discriminate. intros H _.
      apply andb_prop in H. destruct H as [H _]. cbn [append].
      exists (code_point_3 c c1 c2), pos. split; [reflexivity|exact H].
    + destruct r as [|c1 [|c2 [|c3 r3]]]; try discriminate. intros H _.
      apply andb_prop in H. destruct H as [H _]. cbn [append].
      exists (code_point_4 c c1 c2 c3), pos.
      split; [reflexivity|exact H].
Qed.

(** The [%] operator on a placeholder written with ASCII digits: a
    zero at the head of the digits asks for zeros, and the digits are
    the width. *)
Lemma py_format_placeholder (ds : string) (n : Z) :
  all_digits ds = true ->
  py_format (String "%" (ds ++ "d")) n
  = Some (Ok (format_d (Str.starts_with_char "0" ds)
                (N.to_nat (digits_value 0%N ds)) n)).
Proof.
  intros Hd. unfold py_format. cbn [py_format_from].
  rewrite Ascii.eqb_refl.
  destruct (skip_zero_flags_spec ds "" (all_digits_unicode ds Hd))
    as [ds' [E [_ [A V]]]].
  rewrite E. rewrite Hd in A.
  rewrite (read_width_d_digits ds' "" "" _ A).
  cbn [Str.contains_char append]. rewrite V, append_nil_r. reflexivity.
Qed.

(** The [%] operator on a placeholder with a digit outside ASCII
    raises. *)
Lemma py_format_unicode (ds : string) :
  unicode_digits ds = true -> all_digits ds = false ->
  exists cp index,
    is_decimal_digit cp = true /\
    forall n, py_format (String "%" (ds ++ "d")) n
              = Some (Raise (ValueError
                               (unsupported_format_character cp index))).
Proof.
  intros U A. unfold py_format. cbn [py_format_from].
  rewrite Ascii.eqb_refl.
  destruct (skip_zero_flags_spec ds "" U) as [ds' [E [U' [A' _]]]].
  rewrite E. rewrite A in A'.
  destruct (read_width_d_unicode ds' "" ""
              (1 + (String.length (ds ++ "d")
                    - String.length (ds' ++ "d"))) U' A')
    as [cp [index [R D]]].
  exists cp, index. split; [exact D|]. intros n.
  cbv zeta. rewrite R. reflexivity.
Qed.

Lemma format_d_plain (n : Z) : format_d false 0 n = Str.of_Z n.
Proof. destruct n; reflexivity. Qed.

Lemma py_format_suffix (n : Z) :
  py_format "_%d" n = Some (Ok (String "_" (Str.of_Z n))).
Proof.
  change (py_format "_%d" n)
    with (Some (Ok (String "_" (format_d false 0 n ++ "")))).
  rewrite append_nil_r, format_d_plain. reflexivity.
Qed.

Lemma is_ascii_append (a b : string) :
  base64.is_ascii (a ++ b) = base64.is_ascii a && base64.is_ascii b.
Proof.
  induction a as [|c a IH]; [reflexivity|].
  cbn [append base64.is_ascii]. rewrite IH, andb_assoc. reflexivity.
Qed.

(** Among the texts of digits, those of ASCII characters are the texts
    of ASCII digits. *)
Lemma unicode_digits_ascii (ds : string) :
  unicode_digits ds = true -> base64.is_ascii ds = all_digits ds.
Proof.
  induction ds as [|c r IH0 IH1 IH2 IH3] using string_ind4;
    [reflexivity|].
  cbn [unicode_digits base64.is_ascii all_digits].
  destruct (N_of_ascii c <? 128)%N eqn:E1.
  - intros H. apply andb_prop in H. destruct H as [Hc Hd].
    rewrite Hc, (IH0 Hd). reflexivity.
  - intros _. destruct (not_ascii_facts c E1) as [-> _]. reflexivity.
Qed.

Lemma ascii_placeholder_digits (m : re_match) (ds : string) :
  m_group m = String "%" (ds ++ "d") -> unicode_digits ds = true ->
  ascii_placeholder m = all_digits ds.
Proof.
  intros Hg Hd. unfold ascii_placeholder. rewrite Hg.
  cbn [base64.is_ascii]. rewrite is_ascii_append.
  rewrite (unicode_digits_ascii ds Hd).
  cbn. rewrite andb_true_r. reflexivity.
Qed.

End Placeholder.


(* ================================================================== *)
(** * The conversion of the index is injective *)

Section FormatFacts.

Lemma of_Z_inj (a b : Z) : Str.of_Z a = Str.of_Z b -> a = b.
Proof.
  unfold Str.of_Z. intros H.
  apply (f_equal NilEmpty.int_of_string) in H.
  rewrite !NilEmpty.isi in H. injection H as H.
  apply DecimalZ.to_int_inj. exact H.
Qed.

Lemma decimal_value_zeros (p : nat) (d : Decimal.uint) :
  decimal_value (Str.repeat "0" p ++ NilEmpty.string_of_uint d)
  = Some (N.of_uint d).
Proof.
  unfold decimal_value.
  induction p as [|p IH]; simpl.
  - rewrite NilEmpty.usu. reflexivity.
  - destruct (NilEmpty.uint_of_string _); simpl in *; [|discriminate].
    exact IH.
Qed.

Lemma decimal_value_digits (n : N) (p : nat) :
  decimal_value (Str.repeat "0" p ++ NilEmpty.string_of_uint (N.to_uint n))
  = Some n.
Proof. rewrite decimal_value_zeros, DecimalN.Unsigned.of_to. reflexivity. Qed.

Lemma decimal_value_minus (s : string) : decimal_value (String "-" s) = None.
Proof.
  unfold decimal_value. simpl.
  destruct (NilEmpty.uint_of_string s); reflexivity.
Qed.

Lemma lstrip_spaces_repeat (p : nat) (s : string) :
  Str.starts_with_char " " s = false ->
  lstrip_spaces (Str.repeat " " p ++ s) = s.
Proof.
  intros H. induction p as [|p IH]; simpl; [|exact IH].
  destruct s as [|c s]; [reflexivity|]. simpl in H.
  destruct (Ascii.eqb_spec c " ") as [->|Hc]; [discriminate|].
  destruct c as [[] [] [] [] [] [] [] []]; try reflexivity.
  contradiction Hc; reflexivity.
Qed.

Lemma string_of_uint_first (d : Decimal.uint) (c : ascii) (s : string) :
  NilEmpty.string_of_uint d = String c s -> Str.is_digit c = true.
Proof.
  destruct d; simpl; intros H; try discriminate;
    injection H as <- _; reflexivity.
Qed.

Lemma string_of_uint_nonempty (n : N) :
  NilEmpty.string_of_uint (N.to_uint n) <> "".
Proof.
  destruct n as [|p]; simpl; [discriminate|].
  intros H. apply (f_equal NilEmpty.uint_of_string) in H.
  rewrite NilEmpty.usu in H. cbn [NilEmpty.uint_of_string] in H.
  assert (E : N.of_uint (N.to_uint (N.pos p)) = N.of_uint Decimal.Nil)
    by (cbn [N.to_uint]; congruence).
  rewrite DecimalN.Unsigned.of_to in E. discriminate.
Qed.

Lemma of_Z_sign_digits (n : Z) :
  Str.of_Z n
  = (if n <? 0 then "-" else "")
    ++ NilEmpty.string_of_uint (N.to_uint (Z.abs_N n)).
Proof. destruct n; reflexivity. Qed.

Lemma of_Z_no_leading_space (n : Z) :
  Str.starts_with_char " " (Str.of_Z n) = false.
Proof.
  rewrite of_Z_sign_digits. destruct (n <? 0); [reflexivity|]. simpl.
  destruct (NilEmpty.string_of_uint _) as [|c s] eqn:E; [reflexivity|].
  simpl. apply string_of_uint_first in E.
  destruct (Ascii.eqb_spec c " ") as [->|]; [discriminate | reflexivity].
Qed.

Lemma format_d_spaces (width : nat) (n : Z) :
  exists p, format_d false width n = Str.repeat " " p ++ Str.of_Z n.
Proof.
  unfold format_d. eexists. rewrite of_Z_sign_digits. reflexivity.
Qed.

Lemma format_d_inj (zero : bool) (width : nat) (a b : Z) :
  format_d zero width a = format_d zero width b -> a = b.
Proof.
  destruct zero.
  - unfold format_d.
    set (pa := (width - _)%nat). set (pb := (width - _)%nat).
    clearbody pa pb. intros H.
    destruct (Z.ltb_spec a 0) as [Ha|Ha], (Z.ltb_spec b 0) as [Hb|Hb];
      simpl in H.
    + injection H as H. apply (f_equal decimal_value) in H.
      rewrite !decimal_value_digits in H. injection H as H. lia.
    + apply (f_equal decimal_value) in H.
      rewrite decimal_value_minus, decimal_value_digits in H. discriminate.
    + apply (f_equal decimal_value) in H.
      rewrite decimal_value_minus, decimal_value_digits in H. discriminate.
    + apply (f_equal decimal_value) in H.
      rewrite !decimal_value_digits in H. injection H as H. lia.
  - destruct (format_d_spaces width a) as [pa ->].
    destruct (format_d_spaces width b) as [pb ->].
    intros H. apply (f_equal lstrip_spaces) in H.
    rewrite !lstrip_spaces_repeat in H by apply of_Z_no_leading_space.
    apply of_Z_inj. exact H.
Qed.

Lemma contains_char_repeat (c x : ascii) (p : nat) :
  Ascii.eqb x c = false -> Str.contains_char c (Str.repeat x p) = false.
Proof. intros H. induction p; simpl; [reflexivity | rewrite H; exact IHp]. Qed.

Lemma string_of_uint_no_sep (d : Decimal.uint) :
  Str.contains_char posixpath.sep (NilEmpty.string_of_uint d) = false.
Proof. induction d; simpl; auto. Qed.

Lemma of_Z_no_sep (n : Z) :
  Str.contains_char posixpath.sep (Str.of_Z n) = false.
Proof.
  rewrite of_Z_sign_digits, contains_char_append, string_of_uint_no_sep.
  destruct (n <? 0); reflexivity.
Qed.

Lemma of_Z_nonempty (n : Z) : Str.of_Z n <> "".
Proof.
  rewrite of_Z_sign_digits. destruct (n <? 0); [discriminate|].
  simpl. apply string_of_uint_nonempty.
Qed.

Lemma format_d_no_sep (zero : bool) (width : nat) (n : Z) :
  Str.contains_char posixpath.sep (format_d zero width n) = false.
Proof.
  unfold format_d.
  destruct zero; rewrite !contains_char_append, string_of_uint_no_sep,
    contains_char_repeat by reflexivity;
    destruct (n <? 0); reflexivity.
Qed.

Lemma format_d_nonempty (zero : bool) (width : nat) (n : Z) :
  format_d zero width n <> "".
Proof.
  unfold format_d. intros H. apply (f_equal String.length) in H.
  pose proof (string_of_uint_nonempty (Z.abs_N n)) as Hd.
  destruct (NilEmpty.string_of_uint _); [congruence|].
  destruct zero; rewrite !length_append in H; simpl in H; lia.
Qed.

End FormatFacts.


(* ================================================================== *)
(** * Paths *)

Section PathFacts.

Lemma split_spec (p dirname filename : string) :
  posixpath.split p = (dirname, filename) ->
  Str.contains_char posixpath.sep filename = false /\
  count_other posixpath.sep p
  = (count_other posixpath.sep dirname
     + count_other posixpath.sep filename)%nat.
Proof.
  unfold posixpath.split.
  destruct (Str.rpartition posixpath.sep p) as [[b t]|] eqn:E.
  - apply rpartition_Some in E. destruct E as [-> Ht].
    intros H. injection H as <- <-. split; [assumption|].
    destruct (Str.all_eq posixpath.sep _);
      rewrite ?count_other_rstrip, !count_other_append; simpl; lia.
  - apply rpartition_None in E. intros H. injection H as <- <-.
    split; [assumption | reflexivity].
Qed.

Lemma splitext_base_spec (base stem ext : string) :
  posixpath.splitext_base base = Some (stem, ext) -> base = stem ++ ext.
Proof.
  unfold posixpath.splitext_base.
  destruct (Str.rpartition posixpath.extsep base) as [[s e]|] eqn:E;
    [|discriminate].
  apply rpartition_Some in E. destruct E as [-> _].
  destruct (Str.all_eq posixpath.extsep s); [discriminate|].
  intros H. injection H as <- <-. reflexivity.
Qed.

Lemma splitext_spec (p stem ext : string) :
  posixpath.splitext p = (stem, ext) -> p = stem ++ ext.
Proof.
  unfold posixpath.splitext.
  destruct (Str.rpartition posixpath.sep p) as [[b base]|] eqn:E.
  - apply rpartition_Some in E. destruct E as [-> _].
    destruct (posixpath.splitext_base base) as [[s e]|] eqn:Eb.
    + apply splitext_base_spec in Eb. subst base.
      intros H. injection H as <- <-.
      rewrite append_assoc. reflexivity.
    + intros H. injection H as <- <-. rewrite append_nil_r. reflexivity.
  - destruct (posixpath.splitext_base p) as [[s e]|] eqn:Eb.
    + apply splitext_base_spec in Eb. intros H. injection H as <- <-.
      assumption.
    + intros H. injection H as <- <-. rewrite append_nil_r. reflexivity.
Qed.

Lemma join_cases (a b : string) :
  Str.starts_with_char posixpath.sep b = false ->
  posixpath.join a b = a ++ b \/
  posixpath.join a b = a ++ String posixpath.sep b.
Proof.
  unfold posixpath.join. intros ->.
  destruct (Str.is_empty a || Str.ends_with_char posixpath.sep a); auto.
Qed.

Lemma join_inj (a b c : string) :
  Str.starts_with_char posixpath.sep b = false ->
  Str.starts_with_char posixpath.sep c = false ->
  posixpath.join a b = posixpath.join a c -> b = c.
Proof.
  unfold posixpath.join. intros -> ->.
  destruct (Str.is_empty a || Str.ends_with_char posixpath.sep a);
    intros H; apply append_inv_head in H; congruence.
Qed.

Lemma count_other_join (a b : string) :
  Str.starts_with_char posixpath.sep b = false ->
  count_other posixpath.sep (posixpath.join a b)
  = (count_other posixpath.sep a + count_other posixpath.sep b)%nat.
Proof.
  intros H. destruct (join_cases a b H) as [-> | ->];
    rewrite count_other_append; [reflexivity|].
  simpl. reflexivity.
Qed.

(** A name built around a converted index does not start with a
    separator, when the text before the index holds none. *)
Lemma built_name_no_leading_sep (pref num suf : string) :
  Str.contains_char posixpath.sep pref = false ->
  Str.contains_char posixpath.sep num = false ->
  num <> "" ->
  Str.starts_with_char posixpath.sep (pref ++ num ++ suf) = false.
Proof.
  intros Hp Hn Hne. rewrite <- append_assoc.
  apply starts_with_char_append.
  - destruct pref; simpl; [assumption | discriminate].
  - rewrite contains_char_append, Hp, Hn. reflexivity.
Qed.

End PathFacts.

(* ================================================================== *)
(** * The output sequencer *)

Section Sequencer.

Lemma save_loop_eq (has_spec : bool) (output dirname : string)
    (pref spec suf : string) (f : Z -> string) (start : Z)
    (image_list : list bytes) (i : nat) :
  (forall n, py_format spec n = Some (Ok (f n))) ->
  save_loop has_spec output dirname pref spec suf start i image_list
  = Ok (combine
          (map (path_of has_spec output dirname pref f suf start)
             (seq i (List.length image_list)))
          image_list).
Proof.
  intros Hf. revert i.
  induction image_list as [|img rest IH]; intros i; simpl; [reflexivity|].
  rewrite IH, Hf. unfold path_of at 2.
  destruct (negb has_spec && (i =? 0)%nat); reflexivity.
Qed.

(** When the conversion raises, the loop raises at its first image:
    under a placeholder every file name is computed with it. *)
Lemma save_loop_raise (output dirname : string)
    (pref spec suf : string) (e : exn) (start : Z)
    (image_list : list bytes) (i : nat) :
  (forall n, py_format spec n = Some (Raise e)) ->
  image_list <> [] ->
  save_loop true output dirname pref spec suf start i image_list = Raise e.
Proof.
  intros Hf Hne. destruct image_list as [|img rest]; [congruence|].
  cbn [save_loop negb andb]. rewrite Hf. reflexivity.
Qed.

Lemma paths_combine (l : list string) (image_list : list bytes) :
  List.length l = List.length image_list ->
  paths (combine l image_list) = l /\
  map snd (combine l image_list) = image_list.
Proof.
  revert image_list.
  induction l as [|x l IH]; intros [|y r] H; simpl in *; try lia; auto.
  destruct (IH r) as [H1 H2]; [lia|]. unfold paths in *.
  rewrite H1, H2. auto.
Qed.

End Sequencer.


Section SequencerClaims.

Lemma save_images_unfold (image_list : list bytes) (util_opts : UtilOpts)
    (dirname filename : string) :
  posixpath.split (output_path util_opts) = (dirname, filename) ->
  save_images image_list util_opts
  = match re_search_placeholder filename with
    | Some m =>
        save_loop true (output_path util_opts) dirname
          (m_before m) (m_group m) (m_after m)
          (match output_begin_idx util_opts with
           | Some idx => idx | None => 0 end)
          0 image_list
    | None =>
        save_loop false (output_path util_opts) dirname
          (fst (posixpath.splitext filename)) "_%d"
          (snd (posixpath.splitext filename))
          (match output_begin_idx util_opts with
           | Some idx => idx | None => 1 end)
          0 image_list
    end.
Proof.
  intros Hs. unfold save_images.
  change (match output util_opts with
          | Some o => o | None => "./output.png" end)
    with (output_path util_opts).
  rewrite Hs.
  destruct (re_search_placeholder filename) as [m|]; [reflexivity|].
  destruct (posixpath.splitext filename). reflexivity.
Qed.

(** C2, as the code has it.  When the file name of the output path
    holds a placeholder [%<digits>d] (the leftmost match of the pattern,
    whose digits are any decimal digits of Unicode), the file name is the
    text before the placeholder, the placeholder and the text after it.
    If the placeholder is written with ASCII digits, the [N] images are
    written, in the order of the response, to the paths whose file names
    are the text before the placeholder, the placeholder applied to
    [s + k] and the text after it, for [k = 0 .. N-1], where [s] is the
    starting index given, and [0] when none is given; the placeholder
    pads the number to the width its digits spell, with zeros when the
    digits start with a zero.  If the placeholder holds a digit outside
    ASCII, the [%] operator takes that digit for a conversion character
    and raises [ValueError] at the first image: nothing is written. *)
Theorem save_images_placeholder (image_list : list bytes)
    (util_opts : UtilOpts) (dirname filename : string) (m : re_match) :
  posixpath.split (output_path util_opts) = (dirname, filename) ->
  re_search_placeholder filename = Some m ->
  let s := match output_begin_idx util_opts with
           | Some idx => idx | None => 0 end in
  exists ds,
    filename = m_before m ++ m_group m ++ m_after m /\
    m_group m = String "%" (ds ++ "d") /\
    (ascii_placeholder m = true ->
     let zero := Str.starts_with_char "0" ds in
     let width := N.to_nat (digits_value 0%N ds) in
     (forall n, py_format (m_group m) n = Some (Ok (format_d zero width n)))
     /\ save_images image_list util_opts
        = Ok (combine
                (map (fun k =>
                        posixpath.join dirname
                          (m_before m
                           ++ format_d zero width (Z.of_nat k + s)
                           ++ m_after m))
                   (seq 0 (List.length image_list)))
                image_list)) /\
    (ascii_placeholder m = false -> image_list <> [] ->
     exists cp index,
       is_decimal_digit cp = true /\
       save_images image_list util_opts
       = Raise (ValueError (unsupported_format_character cp index))).
Proof.
  intros Hs Hm s.
  destruct (re_search_placeholder_sound _ _ Hm) as [Hname [ds [Hg Hd]]].
  exists ds. split; [exact Hname|]. split; [exact Hg|].
  rewrite (ascii_placeholder_digits m ds Hg Hd). split.
  - intros Ha. cbv zeta.
    assert (Hf : forall n,
              py_format (m_group m) n
              = Some (Ok (format_d (Str.starts_with_char "0" ds)
                            (N.to_nat (digits_value 0%N ds)) n))).
    { intros n. rewrite Hg. apply py_format_placeholder. exact Ha. }
    split; [exact Hf|].
    rewrite (save_images_unfold _ _ _ _ Hs), Hm.
    rewrite (save_loop_eq _ _ _ _ _ _ _ _ _ _ Hf). reflexivity.
  - intros Ha Hne.
    destruct (py_format_unicode ds Hd Ha) as [cp [index [Hcp Hf]]].
    exists cp, index. split; [exact Hcp|].
    rewrite (save_images_unfold _ _ _ _ Hs), Hm, Hg.
    apply save_loop_raise; assumption.
Qed.

(** The claim C2 on [out_%03d.png] with three images. *)
Lemma save_images_placeholder_witness :
  save_images [[x01%byte]; [x02%byte]; [x03%byte]]
    (util (Some "out_%03d.png") None)
  = Ok [("out_000.png", [x01%byte]); ("out_001.png", [x02%byte]);
        ("out_002.png", [x03%byte])].
Proof.
  destruct (save_images_placeholder
              [[x01%byte]; [x02%byte]; [x03%byte]]
              (util (Some "out_%03d.png") None) "" "out_%03d.png"
              {| m_before := "out_"; m_group := "%03d"; m_after := ".png" |}
              eq_refl eq_refl) as [ds [_ [Hg [Hok _]]]].
  cbn [m_group] in Hg. injection Hg as Hg.
  apply (append_inv_tail "03" ds "d") in Hg. subst ds.
  exact (proj2 (Hok eq_refl)).
Defined.

Example save_images_out_03d (a b c : bytes) :
  save_images [a; b; c] (util (Some "out_%03d.png") None)
  = Ok [("out_000.png", a); ("out_001.png", b); ("out_002.png", c)].
Proof. reflexivity. Qed.

(** C2 as stated fails: in [a%<U+0663>d_%d.png] the leftmost match of
    the pattern is [%<U+0663>d], whose digit is the Arabic-Indic three;
    the [%] operator does not know it and raises for the first image. *)
Lemma save_images_arabic_digit_placeholder :
  re_search_placeholder ("a%" ++ arabic_three ++ "d_%d.png")
  = Some {| m_before := "a";
            m_group := "%" ++ arabic_three ++ "d";
            m_after := "_%d.png" |}
  /\ save_images [[]] (util (Some ("a%" ++ arabic_three ++ "d_%d.png")) None)
     = Raise (ValueError
                "unsupported format character '?' (0x663) at index 1").
Proof. split; reflexivity. Qed.

(** C1, as the code has it.  When the file name of the output path holds
    no placeholder (no match of the pattern, whose digits are any decimal
    digits of Unicode), the first image is written to the output path as it
    is given, and image [i], for [1 <= i <= N-1], to the name
    [stem_<i + s>.ext] in the directory of the output path, where [s] is
    the starting index given, and [1] when none is given: the numbers of
    the suffixed images then run [2, 3, ..., N]. *)
Theorem save_images_no_placeholder (image_list : list bytes)
    (util_opts : UtilOpts) (dirname filename stem ext : string) :
  posixpath.split (output_path util_opts) = (dirname, filename) ->
  re_search_placeholder filename = None ->
  posixpath.splitext filename = (stem, ext) ->
  let s := match output_begin_idx util_opts with
           | Some idx => idx | None => 1 end in
  save_images image_list util_opts
  = Ok (combine
          (output_path util_opts
           :: map (fun i =>
                     posixpath.join dirname
                       (stem ++ "_" ++ Str.of_Z (Z.of_nat i + s) ++ ext))
                (seq 1 (List.length image_list - 1)))
          image_list).
Proof.
  intros Hs Hm He s.
  rewrite (save_images_unfold _ _ _ _ Hs), Hm, He. simpl fst. simpl snd.
  rewrite (save_loop_eq _ _ _ _ _ _ (fun n => String "_" (Str.of_Z n)))
    by apply py_format_suffix.
  destruct image_list as [|img rest]; [reflexivity|].
  simpl List.length.
  replace (S (List.length rest) - 1)%nat with (List.length rest) by lia.
  cbn [seq map combine]. f_equal. f_equal. f_equal.
  apply map_ext_in. intros i Hi. apply in_seq in Hi.
  unfold path_of. destruct i; [lia | reflexivity].
Qed.

Lemma save_images_no_placeholder_witness :
  save_images [[]; []] (util (Some "out.png") None)
  = Ok (combine
          ("out.png"
           :: map (fun i =>
                     posixpath.join ""
                       ("out" ++ "_" ++ Str.of_Z (Z.of_nat i + 1) ++ ".png"))
                (seq 1 (2 - 1)))
          [[]; []]).
Proof.
  exact (save_images_no_placeholder [[]; []] (util (Some "out.png") None)
           "" "out.png" "out" ".png" eq_refl eq_refl eq_refl).
Defined.

(** C1 as stated fails: with the output path [out.png], no starting
    index and two images, the second image goes to [out_2.png], not to
    [out_1.png]. *)
Lemma save_images_out_png_two_images (a b : bytes) :
  save_images [a; b] (util (Some "out.png") None)
  = Ok [("out.png", a); ("out_2.png", b)].
Proof. reflexivity. Qed.

Lemma save_images_second_is_not_out_1 :
  exists plan,
    save_images [[]; []] (util (Some "out.png") None) = Ok plan /\
    paths plan = ["out.png"; "out_2.png"] /\
    paths plan <> ["out.png"; "out_1.png"].
Proof.
  eexists. split; [reflexivity|]. split; [reflexivity | discriminate].
Qed.

(** The paths of a run are pairwise distinct when the conversion of the
    index is injective and yields a text without separator. *)
Lemma path_of_inj (has_spec : bool) (o dirname filename : string)
    (pref suf : string) (f : Z -> string) (start : Z) (i j : nat) :
  posixpath.split o = (dirname, filename) ->
  (has_spec = false ->
   exists mid, filename = pref ++ suf /\ forall n, f n = mid ++ Str.of_Z n) ->
  Str.contains_char posixpath.sep pref = false ->
  (forall n, Str.contains_char posixpath.sep (f n) = false) ->
  (forall n, f n <> "") ->
  (forall a b, f a = f b -> a = b) ->
  path_of has_spec o dirname pref f suf start i
  = path_of has_spec o dirname pref f suf start j ->
  i = j.
Proof.
  intros Hs Hplain Hpref Hsep Hne Hinj.
  assert (Hlead : forall n,
    Str.starts_with_char posixpath.sep (pref ++ f n ++ suf) = false)
    by (intros n; apply built_name_no_leading_sep; auto).
  assert (Hjoin : forall a b,
    posixpath.join dirname (pref ++ f (Z.of_nat a + start) ++ suf)
    = posixpath.join dirname (pref ++ f (Z.of_nat b + start) ++ suf) ->
    a = b).
  { intros a b H. apply join_inj in H; auto.
    apply append_inv_head, append_inv_tail, Hinj in H. lia. }
  assert (Hfirst : forall a,
    o <> posixpath.join dirname (pref ++ f (Z.of_nat a + start) ++ suf)
    \/ has_spec = true).
  { intros a. destruct has_spec; [auto|]. left.
    destruct (Hplain eq_refl) as [mid [Hfile Hmid]].
    destruct (split_spec _ _ _ Hs) as [_ Hcount].
    intros H. apply (f_equal (count_other posixpath.sep)) in H.
    rewrite count_other_join in H by apply Hlead.
    rewrite Hcount, Hfile, !count_other_append in H.
    pose proof (Hne (Z.of_nat a + start)) as Hn.
    pose proof (Hsep (Z.of_nat a + start)) as Hc.
    apply count_other_length in Hc.
    destruct (f (Z.of_nat a + start)); [congruence|].
    simpl String.length in Hc. lia. }
  unfold path_of. destruct has_spec; cbn [negb andb].
  - apply Hjoin.
  - destruct i as [|i], j as [|j]; cbn [Nat.eqb]; intros H.
    + reflexivity.
    + destruct (Hfirst (S j)); congruence.
    + destruct (Hfirst (S i)); congruence.
    + apply Hjoin. exact H.
Qed.

(** The plan of a loop whose conversion never raises. *)
Lemma save_loop_plan (image_list : list bytes) (o dirname filename : string)
    (has_spec : bool) (pref spec suf : string) (f : Z -> string)
    (start : Z) :
  posixpath.split o = (dirname, filename) ->
  (forall n, py_format spec n = Some (Ok (f n))) ->
  (has_spec = false ->
   exists mid, filename = pref ++ suf /\
               forall n, f n = mid ++ Str.of_Z n) ->
  Str.contains_char posixpath.sep pref = false ->
  (forall n, Str.contains_char posixpath.sep (f n) = false) ->
  (forall n, f n <> "") ->
  (forall a b, f a = f b -> a = b) ->
  exists plan,
    save_loop has_spec o dirname pref spec suf start 0 image_list
    = Ok plan /\
    List.length plan = List.length image_list /\
    map snd plan = image_list /\
    NoDup (paths plan).
Proof.
  intros Hs Hf Hplain Hpref Hsep Hne Hinj.
  rewrite (save_loop_eq _ _ _ _ _ _ _ _ _ _ Hf).
  eexists. split; [reflexivity|].
  destruct (paths_combine
              (map (path_of has_spec o dirname pref f suf start)
                 (seq 0 (List.length image_list)))
              image_list) as [Hp Hd].
  { rewrite length_map, length_seq. reflexivity. }
  rewrite Hp, Hd. split; [|split; [reflexivity|]].
  - rewrite length_combine, length_map, length_seq. lia.
  - apply NoDup_map_NoDup_ForallPairs; [|apply seq_NoDup].
    intros i j _ _. eapply path_of_inj; eauto.
Qed.

(** Under a placeholder of ASCII digits, or without placeholder, the
    images are all written, to paths that differ. *)
Lemma save_images_plan (image_list : list bytes) (util_opts : UtilOpts)
    (dirname filename : string) :
  posixpath.split (output_path util_opts) = (dirname, filename) ->
  ascii_template filename = true ->
  exists plan,
    save_images image_list util_opts = Ok plan /\
    List.length plan = List.length image_list /\
    map snd plan = image_list /\
    NoDup (paths plan).
Proof.
  intros Hs Ha. unfold ascii_template in Ha.
  rewrite (save_images_unfold _ _ _ _ Hs).
  destruct (split_spec _ _ _ Hs) as [Hfile _].
  destruct (re_search_placeholder filename) as [m|] eqn:Hm.
  - destruct (re_search_placeholder_sound _ _ Hm) as [Hname [ds [Hg Hd]]].
    rewrite (ascii_placeholder_digits m ds Hg Hd) in Ha.
    apply (save_loop_plan image_list _ _ filename true _ _ _
             (format_d (Str.starts_with_char "0" ds)
                (N.to_nat (digits_value 0%N ds)))); auto.
    + intros n. rewrite Hg. apply py_format_placeholder. exact Ha.
    + discriminate.
    + rewrite Hname, contains_char_append in Hfile.
      apply orb_false_iff in Hfile. tauto.
    + apply format_d_no_sep.
    + apply format_d_nonempty.
    + apply format_d_inj.
  - destruct (posixpath.splitext filename) as [stem ext] eqn:He.
    apply splitext_spec in He. simpl fst. simpl snd.
    apply (save_loop_plan image_list _ _ filename false _ _ _
             (fun n => String "_" (Str.of_Z n))); auto.
    + apply py_format_suffix.
    + intros _. exists "_". auto.
    + rewrite He, contains_char_append in Hfile.
      apply orb_false_iff in Hfile. tauto.
    + intros n. simpl. apply of_Z_no_sep.
    + discriminate.
    + intros a b H. injection H as H. apply of_Z_inj. exact H.
Qed.

(** Under a placeholder with a digit outside ASCII nothing is written. *)
Lemma save_images_raise (image_list : list bytes) (util_opts : UtilOpts)
    (dirname filename : string) :
  posixpath.split (output_path util_opts) = (dirname, filename) ->
  ascii_template filename = false ->
  (image_list = [] -> save_images image_list util_opts = Ok []) /\
  (image_list <> [] ->
   exists cp index,
     is_decimal_digit cp = true /\
     save_images image_list util_opts
     = Raise (ValueError (unsupported_format_character cp index))).
Proof.
  intros Hs Ha. unfold ascii_template in Ha.
  rewrite (save_images_unfold _ _ _ _ Hs).
  destruct (re_search_placeholder filename) as [m|] eqn:Hm;
    [|discriminate].
  split; [intros ->; reflexivity|]. intros Hne.
  destruct (re_search_placeholder_sound _ _ Hm) as [_ [ds [Hg Hd]]].
  rewrite (ascii_placeholder_digits m ds Hg Hd) in Ha.
  destruct (py_format_unicode ds Hd Ha) as [cp [index [Hcp Hf]]].
  exists cp, index. split; [exact Hcp|]. rewrite Hg.
  apply save_loop_raise; assumption.
Qed.

(** C9, as the code has it.  Whatever the images and the starting
    index: when the file name of the output path has no placeholder, or
    one that is written with ASCII digits, [save_images] writes each
    image once, in order, and no two of the paths it writes to are equal.
    When the placeholder holds a decimal digit outside ASCII, no path is
    computed: with one image or more the [%] operator raises
    [ValueError] for the first image, before any file is written. *)
Theorem save_images_distinct_paths (image_list : list bytes)
    (util_opts : UtilOpts) (dirname filename : string) :
  posixpath.split (output_path util_opts) = (dirname, filename) ->
  (ascii_template filename = true ->
   exists plan,
     save_images image_list util_opts = Ok plan /\
     List.length plan = List.length image_list /\
     map snd plan = image_list /\
     NoDup (paths plan)) /\
  (ascii_template filename = false ->
   (image_list = [] -> save_images image_list util_opts = Ok []) /\
   (image_list <> [] ->
    exists cp index,
      is_decimal_digit cp = true /\
      save_images image_list util_opts
      = Raise (ValueError (unsupported_format_character cp index)))).
Proof.
  intros Hs. split.
  - exact (save_images_plan image_list util_opts dirname filename Hs).
  - exact (save_images_raise image_list util_opts dirname filename Hs).
Qed.

Lemma save_images_distinct_paths_witness :
  exists plan,
    save_images [[x01%byte]; [x02%byte]] (util (Some "out/img.png") None)
    = Ok plan /\
    List.length plan = 2%nat /\
    map snd plan = [[x01%byte]; [x02%byte]] /\
    NoDup (paths plan).
Proof.
  exact (proj1 (save_images_distinct_paths
                  [[x01%byte]; [x02%byte]]
                  (util (Some "out/img.png") None) "out" "img.png" eq_refl)
           eq_refl).
Defined.

(** C9 as stated fails: for the output path [out_%<U+0663>d.png] and
    one image no plan is computed; the first image raises. *)
Lemma save_images_arabic_digit_no_plan :
  save_images [[]] (util (Some ("out_%" ++ arabic_three ++ "d.png")) None)
  = Raise (ValueError
             "unsupported format character '?' (0x663) at index 1")
  /\ ~ exists plan,
        save_images [[]]
          (util (Some ("out_%" ++ arabic_three ++ "d.png")) None) = Ok plan.
Proof.
  split; [reflexivity|]. intros [plan H]. discriminate H.
Qed.

End SequencerClaims.


(* ================================================================== *)
(** * Dictionaries *)

Section DictFacts.
Context {V : Type}.

Lemma dict_get_set_same (d : dict V) (k : string) (v : V) :
  dict_get (dict_set d k v) k = Some v.
Proof.
  induction d as [|[k' v'] d IH]; simpl.
  - rewrite String.eqb_refl. reflexivity.
  - destruct (String.eqb k' k) eqn:E; simpl; rewrite E; auto.
Qed.

Lemma dict_get_set_other (d : dict V) (k k' : string) (v : V) :
  k <> k' -> dict_get (dict_set d k v) k' = dict_get d k'.
Proof.
  intros Hk. induction d as [|[k0 v0] d IH]; simpl.
  - apply String.eqb_neq in Hk. rewrite Hk. reflexivity.
  - destruct (String.eqb_spec k0 k) as [->|]; simpl.
    + apply String.eqb_neq in Hk. rewrite Hk. reflexivity.
    + rewrite IH. reflexivity.
Qed.

Lemma dict_keys_set (d : dict V) (k : string) (v : V) :
  dict_keys (dict_set d k v)
  = if dict_has d k then dict_keys d else (dict_keys d ++ [k])%list.
Proof.
  unfold dict_has, dict_keys.
  induction d as [|[k0 v0] d IH]; simpl; [reflexivity|].
  destruct (String.eqb_spec k0 k) as [->|]; simpl; [reflexivity|].
  rewrite IH. destruct (dict_get d k); reflexivity.
Qed.

Lemma dict_has_In (d : dict V) (k : string) :
  dict_has d k = true <-> In k (dict_keys d).
Proof.
  unfold dict_has, dict_keys.
  induction d as [|[k0 v0] d IH]; simpl.
  - split; [discriminate | contradiction].
  - destruct (String.eqb_spec k0 k) as [->|Hn].
    + split; auto.
    + rewrite IH. split; [auto | intros [?|?]; [contradiction | auto]].
Qed.

(** Assignments keep the keys of a dictionary distinct. *)
Lemma dict_set_NoDup (d : dict V) (k : string) (v : V) :
  NoDup (dict_keys d) -> NoDup (dict_keys (dict_set d k v)).
Proof.
  intros H. rewrite dict_keys_set.
  destruct (dict_has d k) eqn:E; [assumption|].
  apply NoDup_app; [assumption | repeat constructor; auto |].
  intros x Hx [<-|[]]. apply dict_has_In in Hx. congruence.
Qed.

End DictFacts.

(* ================================================================== *)
(** * The payload encoder *)

Section Payload.

Lemma copy_fold_get (gen_opts : dict pyval) (keys : list string)
    (acc : dict pyval) (k : string) :
  dict_get (fold_left (copy_step gen_opts) keys acc) k
  = if existsb (String.eqb k) keys && is_not_none (py_get gen_opts k)
    then Some (py_get gen_opts k)
    else dict_get acc k.
Proof.
  revert acc. induction keys as [|key keys IH]; intros acc; simpl.
  - reflexivity.
  - rewrite IH. unfold copy_step.
    destruct (String.eqb_spec k key) as [->|Hk]; simpl.
    + destruct (is_not_none (py_get gen_opts key)) eqn:E.
      * rewrite dict_get_set_same. rewrite andb_true_r.
        destruct (existsb _ keys); reflexivity.
      * rewrite andb_false_r. reflexivity.
    + destruct (existsb (String.eqb k) keys && _); [reflexivity|].
      destruct (is_not_none (py_get gen_opts key)); [|reflexivity].
      apply dict_get_set_other. congruence.
Qed.

Lemma copy_fold_NoDup (gen_opts : dict pyval) (keys : list string)
    (acc : dict pyval) :
  NoDup (dict_keys acc) ->
  NoDup (dict_keys (fold_left (copy_step gen_opts) keys acc)).
Proof.
  revert acc. induction keys as [|key keys IH]; intros acc H; simpl.
  - assumption.
  - apply IH. unfold copy_step.
    destruct (is_not_none _); [apply dict_set_NoDup|]; assumption.
Qed.

(** The loop copies exactly the keys of the list whose value is not
    [None]. *)
Lemma copy_extension_keys_get (gen_opts : dict pyval) (k : string) :
  dict_get (copy_extension_keys gen_opts) k
  = if existsb (String.eqb k) extension_keys
       && is_not_none (py_get gen_opts k)
    then Some (py_get gen_opts k)
    else None.
Proof. apply (copy_fold_get gen_opts extension_keys []). Qed.

Lemma extension_data_NoDup (gen_opts : dict pyval) :
  NoDup (dict_keys (extension_data gen_opts)).
Proof.
  unfold extension_data, payload_parts.
  assert (H : NoDup (dict_keys (copy_extension_keys gen_opts)))
    by (apply (copy_fold_NoDup gen_opts extension_keys []); constructor).
  destruct (py_truthy (py_get gen_opts "width")
            && py_truthy (py_get gen_opts "height")); [exact H|].
  destruct (py_truthy (py_get gen_opts "width"));
    [apply dict_set_NoDup; exact H|].
  destruct (py_truthy (py_get gen_opts "height"));
    [apply dict_set_NoDup; exact H | exact H].
Qed.

Lemma build_openai_payload_get (gen_opts : dict pyval)
    (util_opts : UtilOpts) (k : string) :
  k <> "prompt" ->
  dict_get (build_openai_payload gen_opts util_opts) k
  = dict_get (fst (payload_parts gen_opts)) k.
Proof.
  intros Hk. unfold build_openai_payload.
  destruct (payload_parts gen_opts) as [api ext]. simpl.
  apply dict_get_set_other. congruence.
Qed.

(** C4, as the code has it.  When width and height are both given and
    neither is zero, the payload has the field [size] with the text
    [<width>x<height>] and the extension object has neither key; when
    only the width is other than zero (the height being absent or zero),
    there is no [size] and the extension object has the width; when only
    the height is other than zero, there is no [size] and the extension
    object has the height; when neither is, no field speaks of the size. *)
Theorem width_height_folding (gen_opts : dict pyval)
    (util_opts : UtilOpts) :
  let width := py_get gen_opts "width" in
  let height := py_get gen_opts "height" in
  let api_data := build_openai_payload gen_opts util_opts in
  let ext := extension_data gen_opts in
  (py_truthy width = true -> py_truthy height = true ->
     dict_get api_data "size"
     = Some (VStr (py_str width ++ "x" ++ py_str height)) /\
     dict_get ext "width" = None /\ dict_get ext "height" = None) /\
  (py_truthy width = true -> py_truthy height = false ->
     dict_get api_data "size" = None /\
     dict_get ext "width" = Some width /\ dict_get ext "height" = None) /\
  (py_truthy width = false -> py_truthy height = true ->
     dict_get api_data "size" = None /\
     dict_get ext "width" = None /\ dict_get ext "height" = Some height) /\
  (py_truthy width = false -> py_truthy height = false ->
     dict_get api_data "size" = None /\
     dict_get ext "width" = None /\ dict_get ext "height" = None).
Proof.
  intros width height api_data ext.
  assert (Hw : dict_get (copy_extension_keys gen_opts) "width" = None)
    by (rewrite copy_extension_keys_get; reflexivity).
  assert (Hh : dict_get (copy_extension_keys gen_opts) "height" = None)
    by (rewrite copy_extension_keys_get; reflexivity).
  subst api_data ext.
  rewrite build_openai_payload_get by discriminate.
  unfold extension_data, payload_parts.
  fold width height.
  destruct (py_truthy width) eqn:Ew, (py_truthy height) eqn:Eh;
    cbn [andb fst snd];
    destruct (py_truthy (py_get gen_opts "output_format"));
    destruct (py_truthy (py_get gen_opts "batch_count"));
    repeat split; intros; try discriminate;
    rewrite ?dict_get_set_same;
    rewrite ?dict_get_set_other by discriminate;
    rewrite ?dict_get_set_same;
    auto.
Qed.

Lemma width_height_folding_witness :
  dict_get (build_openai_payload [("width", VInt 768); ("height", VInt 512)]
              (util None None)) "size"
  = Some (VStr "768x512") /\
  dict_get (extension_data [("width", VInt 768); ("height", VInt 512)])
    "width" = None /\
  dict_get (extension_data [("width", VInt 768); ("height", VInt 512)])
    "height" = None.
Proof.
  exact (proj1 (width_height_folding
                  [("width", VInt 768); ("height", VInt 512)]
                  (util None None)) eq_refl eq_refl).
Defined.

Example width_alone :
  build_openai_payload [("width", VInt 768)] (util None None)
  = [("prompt",
      VStr ("<sd_cpp_extra_args>" ++ Str.quoted "{'width': 768}"
            ++ "</sd_cpp_extra_args>"))].
Proof. reflexivity. Qed.

(** C4 as stated fails: a width of zero given with a height of 512
    yields no [size]; the height goes to the extension object. *)
Lemma zero_width_is_not_folded :
  let gen_opts := [("width", VInt 0); ("height", VInt 512)] in
  dict_get gen_opts "width" = Some (VInt 0) /\
  dict_get gen_opts "height" = Some (VInt 512) /\
  dict_get (build_openai_payload gen_opts (util None None)) "size" = None /\
  dict_get (extension_data gen_opts) "height" = Some (VInt 512).
Proof. repeat split. Qed.

End Payload.


(* ================================================================== *)
(** * The output format *)

Section OutputFormat.

Lemma filter_not_none_set (d : dict pyval) (k : string) (v : pyval) :
  is_not_none v = true ->
  dict_get (filter (fun kv => is_not_none (snd kv)) (dict_set d k v)) k
  = Some v.
Proof.
  intros Hv. induction d as [|[k0 v0] d IH]; simpl.
  - rewrite Hv. simpl. rewrite String.eqb_refl. reflexivity.
  - destruct (String.eqb k0 k) eqn:E; simpl.
    + rewrite Hv. simpl. rewrite E. reflexivity.
    + destruct (is_not_none v0); simpl; rewrite ?E; exact IH.
Qed.

Lemma payload_output_format (gen_opts : dict pyval) (util_opts : UtilOpts)
    (v : pyval) :
  dict_get gen_opts "output_format" = Some v ->
  py_truthy v = true ->
  dict_get (build_openai_payload gen_opts util_opts) "output_format"
  = Some v.
Proof.
  intros Hv Ht. rewrite build_openai_payload_get by discriminate.
  assert (E : py_get gen_opts "output_format" = v)
    by (unfold py_get; rewrite Hv; reflexivity).
  unfold payload_parts. rewrite E, Ht.
  destruct (py_truthy (py_get gen_opts "width")
            && py_truthy (py_get gen_opts "height"));
    [|destruct (py_truthy (py_get gen_opts "width"));
      [|destruct (py_truthy (py_get gen_opts "height"))]];
    destruct (py_truthy (py_get gen_opts "batch_count"));
    cbn [fst];
    rewrite ?dict_get_set_other by discriminate;
    apply dict_get_set_same.
Qed.

(** C10, as the code has it.  Whenever the output path is not the empty
    text (and it is [./output.png] when the option is not given), the
    generation options hold the key [output_format] and the payload
    carries the field [output_format]: [jpeg] when the lowercased
    extension of the output path is [.jpg], [.jpeg] or [.jpe], and [png]
    for every other extension. *)
Theorem output_format_field (cl : CommandLine) :
  cl_output_path cl <> "" ->
  let util_opts := fst (parse_arguments cl) in
  let gen_opts := snd (parse_arguments cl) in
  let api_data := build_openai_payload gen_opts util_opts in
  let ext := Str.lower (snd (posixpath.splitext (cl_output_path cl))) in
  exists fmt,
    dict_get gen_opts "output_format" = Some (VStr fmt) /\
    dict_get api_data "output_format" = Some (VStr fmt) /\
    ((ext = ".jpg" \/ ext = ".jpeg" \/ ext = ".jpe") /\ fmt = "jpeg" \/
     (ext <> ".jpg" /\ ext <> ".jpeg" /\ ext <> ".jpe") /\ fmt = "png").
Proof.
  intros Ho util_opts gen_opts api_data ext.
  exists (infer_output_format (cl_output_path cl)).
  assert (Hg : dict_get gen_opts "output_format"
               = Some (VStr (infer_output_format (cl_output_path cl)))).
  { subst gen_opts. unfold parse_arguments.
    change (match cl_output cl with
            | Some o => o | None => "./output.png" end)
      with (cl_output_path cl).
    destruct (cl_output_path cl) as [|c o]; [congruence|].
    cbn [Str.is_empty negb snd]. apply filter_not_none_set. reflexivity. }
  split; [exact Hg|]. split.
  - apply payload_output_format; [exact Hg|].
    unfold infer_output_format.
    destruct (_ || _); reflexivity.
  - unfold infer_output_format. fold ext.
    destruct (String.eqb_spec ext ".jpg"); [auto|].
    destruct (String.eqb_spec ext ".jpeg"); [auto|].
    destruct (String.eqb_spec ext ".jpe"); [auto|].
    right. auto.
Qed.

Lemma output_format_field_witness :
  exists fmt,
    dict_get (snd (parse_arguments (command_line None [("prompt", VStr "")])))
      "output_format" = Some (VStr fmt) /\
    dict_get
      (build_openai_payload
         (snd (parse_arguments (command_line None [("prompt", VStr "")])))
         (fst (parse_arguments (command_line None [("prompt", VStr "")]))))
      "output_format" = Some (VStr fmt) /\
    ((".png" = ".jpg" \/ ".png" = ".jpeg" \/ ".png" = ".jpe")
     /\ fmt = "jpeg" \/
     (".png" <> ".jpg" /\ ".png" <> ".jpeg" /\ ".png" <> ".jpe")
     /\ fmt = "png").
Proof.
  apply (output_format_field (command_line None [("prompt", VStr "")])).
  discriminate.
Defined.

Example output_format_jpeg :
  build_openai_payload
    (snd (parse_arguments (command_line (Some "shots/cat.JPG") [])))
    (util None None)
  = [("output_format", VStr "jpeg");
     ("prompt", VStr "<sd_cpp_extra_args>{}</sd_cpp_extra_args>")].
Proof. reflexivity. Qed.

(** C10 as stated fails: with the output path given as the empty text
    the inference does not run, and neither the generation options nor
    the payload has an output format. *)
Lemma empty_output_has_no_format :
  let cl := command_line (Some "") [("prompt", VStr "a cat")] in
  dict_get (snd (parse_arguments cl)) "output_format" = None /\
  dict_get (build_openai_payload (snd (parse_arguments cl))
              (fst (parse_arguments cl))) "output_format" = None.
Proof. split; reflexivity. Qed.

End OutputFormat.


(* ================================================================== *)
(** * The response decoder *)

Section Decoder.

Lemma a2b_loop_raises (s : string) (quad_pos leftchar pads : N)
    (bin_data : list byte) (e : exn) :
  base64.a2b_loop s quad_pos leftchar pads bin_data = Raise e ->
  exists msg, e = BinasciiError msg.
Proof.
  revert quad_pos leftchar pads bin_data.
  induction s as [|c s IH]; intros quad_pos leftchar pads bin_data; simpl.
  - destruct (quad_pos =? 0)%N; [discriminate|].
    destruct (quad_pos =? 1)%N; intros H; injection H as <-; eauto.
  - destruct (Ascii.eqb c "=").
    + destruct (2 <=? quad_pos)%N; [|apply IH].
      destruct (4 <=? quad_pos + (pads + 1))%N; [discriminate | apply IH].
    + destruct (base64.table_a2b_base64 c); [|apply IH].
      destruct (quad_pos =? 0)%N; [apply IH|].
      destruct (quad_pos =? 1)%N; [apply IH|].
      destruct (quad_pos =? 2)%N; apply IH.
Qed.

(** What [b64decode] raises on a string: the error of [binascii], or a
    plain [ValueError] for a character that is not ASCII. *)
Lemma b64decode_raises (s : string) (e : exn) :
  base64.b64decode s = Raise e ->
  (exists msg, e = BinasciiError msg) \/
  e = ValueError "string argument should contain only ASCII characters".
Proof.
  unfold base64.b64decode, base64.a2b_base64.
  destruct (base64.is_ascii s).
  - intros H. left. eapply a2b_loop_raises; eauto.
  - intros H. injection H as <-. auto.
Qed.

Lemma decode_loop_app (pre rest : list json) (i : nat)
    (images : list bytes) :
  decode_loop i pre = Ok images ->
  decode_loop i (pre ++ rest)
  = (decoded <- decode_loop (i + List.length pre) rest ;;
     Ok (images ++ decoded)%list).
Proof.
  revert i images.
  induction pre as [|r pre IH]; intros i images; simpl.
  - intros H. injection H as <-. rewrite Nat.add_0_r.
    destruct (decode_loop i rest); reflexivity.
  - destruct (decode_item i r) as [img|]; simpl; [|discriminate].
    destruct (decode_loop (S i) pre) as [imgs|] eqn:E; simpl;
      [|discriminate].
    intros H. injection H as <-.
    rewrite (IH (S i) imgs E).
    replace (S i + List.length pre)%nat
      with (i + S (List.length pre))%nat by lia.
    destruct (decode_loop _ rest); reflexivity.
Qed.


(** The decoder on a body that is a JSON object with an array under
    [data]. *)
Lemma decode_openai_response_records (body : string) (d : dict json)
    (records : list json) :
  json_decoder.loads body = Ok (JDict d) ->
  dict_get d "data" = Some (JList records) ->
  decode_openai_response body = decode_loop 0 records.
Proof.
  intros Hl Hd. unfold decode_openai_response. rewrite Hl. simpl.
  unfold dict_has. rewrite Hd. simpl. reflexivity.
Qed.

(** A record that carries a non-empty string the base64 decoder
    accepts. *)
Lemma decode_item_valid (i : nat) (rd : dict json) (s : string)
    (image : bytes) :
  dict_get rd "b64_json" = Some (JStr s) ->
  s <> "" ->
  base64.b64decode s = Ok image ->
  decode_item i (JDict rd) = Ok image.
Proof.
  intros Hg Hs Hb. unfold decode_item. simpl. rewrite Hg. simpl.
  destruct s; [congruence|]. simpl. rewrite Hb. reflexivity.
Qed.

(** C6.  For a body that is a JSON object whose [data] is an array of
    objects, each with a non-empty string under [b64_json] that the
    base64 decoder accepts, the decoder returns one buffer per record, in
    the order of the records, each the base64 decoding of the string of
    its record. *)
Theorem decode_valid_response (body : string) (d : dict json)
    (records : list json) (images : list bytes) :
  json_decoder.loads body = Ok (JDict d) ->
  dict_get d "data" = Some (JList records) ->
  Forall2
    (fun record image =>
       exists rd s,
         record = JDict rd /\
         dict_get rd "b64_json" = Some (JStr s) /\
         s <> "" /\
         base64.b64decode s = Ok image)
    records images ->
  decode_openai_response body = Ok images.
Proof.
  intros Hl Hd Hall.
  rewrite (decode_openai_response_records _ _ _ Hl Hd).
  clear Hl Hd. generalize 0%nat.
  induction Hall as [|r img records images Hr _ IH]; intros i.
  - reflexivity.
  - destruct Hr as [rd [s [-> [Hg [Hs Hb]]]]].
    cbn [decode_loop]. rewrite (decode_item_valid _ _ _ _ Hg Hs Hb).
    simpl. rewrite IH. reflexivity.
Qed.

(** The claim C6 on the body [{"data":[{"b64_json":"aGVsbG8="}]}]: one
    image, the bytes [hello]. *)
Lemma decode_valid_response_witness :
  decode_openai_response (Str.quoted "{'data':[{'b64_json':'aGVsbG8='}]}")
  = Ok [list_byte_of_string "hello"].
Proof.
  apply (decode_valid_response _
           [("data", JList [JDict [("b64_json", JStr "aGVsbG8=")]])]
           [JDict [("b64_json", JStr "aGVsbG8=")]]);
    [reflexivity | reflexivity |].
  repeat constructor.
  exists [("b64_json", JStr "aGVsbG8=")], "aGVsbG8=".
  repeat split; [discriminate].
Defined.

(** C5, as the code has it.  When the string of a record is rejected by
    the base64 decoder, and the records before it decode, the decoder
    fails with the bad-encoding error that names the index of the
    record. *)
Theorem decode_rejected_base64 (body : string) (d rd : dict json)
    (pre post : list json) (images : list bytes) (s msg : string) :
  json_decoder.loads body = Ok (JDict d) ->
  dict_get d "data" = Some (JList (pre ++ JDict rd :: post)) ->
  decode_loop 0 pre = Ok images ->
  dict_get rd "b64_json" = Some (JStr s) ->
  base64.b64decode s = Raise (BinasciiError msg) ->
  decode_openai_response body
  = Raise (ValueError ("Failed to decode base64 data for item "
                       ++ Str.of_nat (List.length pre) ++ ": " ++ msg)).
Proof.
  intros Hl Hd Hpre Hg Hb.
  rewrite (decode_openai_response_records _ _ _ Hl Hd).
  rewrite (decode_loop_app _ _ _ _ Hpre). cbn [decode_loop Nat.add].
  unfold decode_item. simpl py_dict_get. rewrite Hg. cbn [bind].
  destruct s as [|c s]; [discriminate|].
  cbn [json_truthy Str.is_empty negb b64decode_value].
  rewrite Hb. reflexivity.
Qed.

Lemma decode_rejected_base64_witness :
  decode_openai_response
    (Str.quoted "{'data':[{'b64_json':'aGVsbG8='},{'b64_json':'aGVsbG8'}]}")
  = Raise (ValueError ("Failed to decode base64 data for item "
                       ++ Str.of_nat 1 ++ ": " ++ "Incorrect padding")).
Proof.
  apply (decode_rejected_base64 _
           [("data", JList [JDict [("b64_json", JStr "aGVsbG8=")];
                            JDict [("b64_json", JStr "aGVsbG8")]])]
           [("b64_json", JStr "aGVsbG8")]
           [JDict [("b64_json", JStr "aGVsbG8=")]] []
           [list_byte_of_string "hello"] "aGVsbG8");
    reflexivity.
Defined.

(** C5 as stated fails: the three exclamation marks are outside the
    alphabet, the decoder drops them, and the body decodes to one image
    of no bytes. *)
Lemma decode_exclamation_marks :
  decode_openai_response (Str.quoted "{'data':[{'b64_json':'!!!'}]}")
  = Ok [[]].
Proof. reflexivity. Qed.

End Decoder.


Section DecoderDefects.




(** The decoder stops at the first record that fails. *)
Lemma decode_loop_first_failure (pre post : list json) (r : json)
    (images : list bytes) (e : exn) :
  decode_loop 0 pre = Ok images ->
  decode_item (List.length pre) r = Raise e ->
  decode_loop 0 (pre ++ r :: post) = Raise e.
Proof.
  intros Hpre Hr. rewrite (decode_loop_app _ _ _ _ Hpre).
  cbn [decode_loop Nat.add]. rewrite Hr. reflexivity.
Qed.



Example decode_malformed :
  decode_openai_response "{" = Raise (ValueError "Invalid JSON response: ").
Proof. reflexivity. Qed.

Example decode_empty_image_data :
  decode_openai_response
    (Str.quoted "{'data':[{'b64_json':'aGVsbG8='},{'b64_json':''}]}")
  = Raise (ValueError "No image data found for item 1").
Proof. reflexivity. Qed.


End DecoderDefects.


(* ================================================================== *)
(** * Strings written by [json.dumps] are read back by [json.loads] *)

Ltac div_lia := zify; Z.to_euclidean_division_equations; lia.

Section JsonStrings.

Local Open Scope N_scope.

(** A property checked on every number below a bound holds below it. *)
Lemma forall_below (k : nat) (P : N -> bool) :
  forallb P (map N.of_nat (seq 0 k)) = true ->
  forall n, n < N.of_nat k -> P n = true.
Proof.
  intros H n Hn. rewrite forallb_forall in H. apply H.
  apply in_map_iff. exists (N.to_nat n). split; [lia|].
  apply in_seq. lia.
Qed.

Lemma ascii_bounded (c : ascii) : N_of_ascii c < 256.
Proof.
  pose proof (nat_ascii_bounded c) as H. unfold nat_of_ascii in H. lia.
Qed.

Lemma hex_value_digit (d : N) :
  d < 16 -> json_decoder.hex_value (json_encoder.hex_digit d) = Some d.
Proof.
  intros H.
  apply (forall_below 16
           (fun d => match json_decoder.hex_value (json_encoder.hex_digit d)
                     with Some x => x =? d | None => false end)) in H;
    [|vm_compute; reflexivity].
  destruct (json_decoder.hex_value _); [|discriminate].
  apply N.eqb_eq in H. congruence.
Qed.

Lemma hex4_uescape (cp : N) :
  cp < 65536 ->
  json_decoder.hex4
    (json_encoder.hex_digit (N.shiftr cp 12 mod 16))
    (json_encoder.hex_digit (N.shiftr cp 8 mod 16))
    (json_encoder.hex_digit (N.shiftr cp 4 mod 16))
    (json_encoder.hex_digit (cp mod 16))
  = Some cp.
Proof.
  intros H. unfold json_decoder.hex4.
  rewrite !hex_value_digit by (apply N.mod_lt; discriminate).
  rewrite !N.shiftr_div_pow2. f_equal.
  change (2 ^ 12) with 4096. change (2 ^ 8) with 256.
  change (2 ^ 4) with 16. div_lia.
Qed.

Lemma scanstring_uescape (cp : N) (X : string) :
  cp < 65536 ->
  (cp < 55296 \/ 56320 <= cp) ->
  json_decoder.scanstring (json_encoder.uescape cp ++ X)
  = scan_more (json_decoder.chr cp) (json_decoder.scanstring X).
Proof.
  intros Hcp Hs. unfold json_encoder.uescape.
  cbn [append json_decoder.scanstring]. cbn [Ascii.eqb Bool.eqb].
  rewrite (hex4_uescape cp Hcp).
  replace ((55296 <=? cp) && (cp <=? 56319)) with false.
  - destruct (json_decoder.scanstring X) as [[str tail]|]; reflexivity.
  - symmetry. apply andb_false_iff.
    destruct Hs; [left; apply N.leb_gt | right; apply N.leb_gt]; lia.
Qed.

Lemma land_ones (a : N) :
  N.land a 31 = a mod 32 /\ N.land a 15 = a mod 16 /\
  N.land a 7 = a mod 8 /\ N.land a 63 = a mod 64 /\
  N.land a 1023 = a mod 1024.
Proof.
  repeat split;
    [apply (N.land_ones a 5) | apply (N.land_ones a 4)
    | apply (N.land_ones a 3) | apply (N.land_ones a 6)
    | apply (N.land_ones a 10)].
Qed.

Lemma lor_surrogate (x : N) :
  x < 1024 -> N.lor 55296 x = 55296 + x /\ N.lor 56320 x = 56320 + x.
Proof.
  intros H.
  apply (forall_below 1024
           (fun x => (N.lor 55296 x =? 55296 + x)
                     && (N.lor 56320 x =? 56320 + x))) in H;
    [|vm_compute; reflexivity].
  apply andb_true_iff in H. destruct H as [H1 H2].
  apply N.eqb_eq in H1, H2. auto.
Qed.

Lemma scanstring_surrogate_pair (cp : N) (X : string) :
  65536 <= cp < 1114112 ->
  let m := cp - 65536 in
  json_decoder.scanstring
    (json_encoder.uescape (N.lor 55296 (N.land (N.shiftr m 10) 1023))
     ++ json_encoder.uescape (N.lor 56320 (N.land m 1023)) ++ X)
  = scan_more (json_decoder.chr cp) (json_decoder.scanstring X).
Proof.
  intros Hcp m.
  destruct (land_ones m) as [_ [_ [_ [_ Hlo]]]].
  destruct (land_ones (N.shiftr m 10)) as [_ [_ [_ [_ Hhi]]]].
  rewrite Hlo, Hhi, N.shiftr_div_pow2. change (2 ^ 10) with 1024.
  destruct (lor_surrogate ((m / 1024) mod 1024)) as [-> _];
    [apply N.mod_lt; discriminate|].
  destruct (lor_surrogate (m mod 1024)) as [_ ->];
    [apply N.mod_lt; discriminate|].
  set (hi := 55296 + (m / 1024) mod 1024).
  set (lo := 56320 + m mod 1024).
  assert (Hhi' : 55296 <= hi <= 56319) by (subst hi m; div_lia).
  assert (Hlo' : 56320 <= lo <= 57343) by (subst lo m; div_lia).
  assert (Hj : 65536 + ((hi - 55296) * 1024 + (lo - 56320)) = cp)
    by (subst hi lo m; div_lia).
  unfold json_encoder.uescape.
  cbn [append json_decoder.scanstring]. cbn [Ascii.eqb Bool.eqb].
  rewrite (hex4_uescape hi) by lia.
  replace ((55296 <=? hi) && (hi <=? 56319)) with true
    by (symmetry; apply andb_true_iff; split; apply N.leb_le; lia).
  cbn [json_decoder.low_surrogate]. cbn [Ascii.eqb Bool.eqb andb].
  rewrite (hex4_uescape lo) by lia.
  replace ((56320 <=? lo) && (lo <=? 57343)) with true
    by (symmetry; apply andb_true_iff; split; apply N.leb_le; lia).
  rewrite Hj.
  destruct (json_decoder.scanstring X) as [[str tail]|]; reflexivity.
Qed.

(** Whatever replaces a code point is read back as that code point. *)
Lemma scanstring_escape_code_point (cp : N) (X : string) :
  cp < 1114112 ->
  (cp < 55296 \/ 57344 <= cp) ->
  json_decoder.scanstring (json_encoder.escape_code_point cp ++ X)
  = scan_more (json_decoder.chr cp) (json_decoder.scanstring X).
Proof.
  intros Hcp Hs. unfold json_encoder.escape_code_point.
  destruct (N.eqb_spec cp 34) as [->|_];
    [destruct (json_decoder.scanstring X) as [[? ?]|] eqn:E;
     cbn; rewrite E; reflexivity|].
  destruct (N.eqb_spec cp 92) as [->|_];
    [destruct (json_decoder.scanstring X) as [[? ?]|] eqn:E;
     cbn; rewrite E; reflexivity|].
  destruct (N.eqb_spec cp 10) as [->|_];
    [destruct (json_decoder.scanstring X) as [[? ?]|] eqn:E;
     cbn; rewrite E; reflexivity|].
  destruct (N.eqb_spec cp 13) as [->|_];
    [destruct (json_decoder.scanstring X) as [[? ?]|] eqn:E;
     cbn; rewrite E; reflexivity|].
  destruct (N.eqb_spec cp 9) as [->|_];
    [destruct (json_decoder.scanstring X) as [[? ?]|] eqn:E;
     cbn; rewrite E; reflexivity|].
  destruct (N.eqb_spec cp 12) as [->|_];
    [destruct (json_decoder.scanstring X) as [[? ?]|] eqn:E;
     cbn; rewrite E; reflexivity|].
  destruct (N.eqb_spec cp 8) as [->|_];
    [destruct (json_decoder.scanstring X) as [[? ?]|] eqn:E;
     cbn; rewrite E; reflexivity|].
  destruct (N.ltb_spec cp 65536) as [Hlt|Hge].
  - apply scanstring_uescape; [assumption | lia].
  - rewrite append_assoc. apply scanstring_surrogate_pair. lia.
Qed.

Lemma is_cont_spec (c : ascii) :
  is_cont c = true ->
  128 <= N_of_ascii c < 192 /\
  json_encoder.cont c = N_of_ascii c - 128.
Proof.
  unfold is_cont, json_encoder.cont. intros H.
  apply andb_true_iff in H. destruct H as [H1 H2].
  apply N.leb_le in H1. apply N.ltb_lt in H2.
  destruct (land_ones (N_of_ascii c)) as [_ [_ [_ [-> _]]]].
  split; [lia | div_lia].
Qed.

Lemma chr_2 (c c1 : ascii) :
  194 <= N_of_ascii c < 224 ->
  is_cont c1 = true ->
  let cp := N.land (N_of_ascii c) 31 * 64 + json_encoder.cont c1 in
  128 <= cp < 2048 /\
  json_decoder.chr cp = String c (String c1 EmptyString).
Proof.
  intros Hc H1 cp. apply is_cont_spec in H1. destruct H1 as [H1 E1].
  destruct (land_ones (N_of_ascii c)) as [E _].
  subst cp. rewrite E, E1. clear E E1.
  set (n := N_of_ascii c) in *. set (n1 := N_of_ascii c1) in *.
  set (cp := n mod 32 * 64 + (n1 - 128)).
  assert (Hd : cp / 64 = n - 192) by (subst cp; div_lia).
  assert (Hm : cp mod 64 = n1 - 128) by (subst cp; div_lia).
  assert (Hr : 128 <= cp < 2048) by (subst cp; div_lia).
  split; [exact Hr|].
  unfold json_decoder.chr.
  replace (cp <? 128) with false by (symmetry; apply N.ltb_ge; lia).
  replace (cp <? 2048) with true by (symmetry; apply N.ltb_lt; lia).
  rewrite Hd, Hm.
  replace (192 + (n - 192)) with n by lia.
  replace (128 + (n1 - 128)) with n1 by lia.
  subst n n1. rewrite !ascii_N_embedding. reflexivity.
Qed.

Lemma chr_3 (c c1 c2 : ascii) :
  224 <= N_of_ascii c < 240 ->
  is_cont c1 = true -> is_cont c2 = true ->
  (N_of_ascii c = 224 -> 160 <= N_of_ascii c1) ->
  (N_of_ascii c = 237 -> N_of_ascii c1 < 160) ->
  let cp := N.land (N_of_ascii c) 15 * 4096
            + json_encoder.cont c1 * 64 + json_encoder.cont c2 in
  2048 <= cp < 65536 /\ (cp < 55296 \/ 57344 <= cp) /\
  json_decoder.chr cp = String c (String c1 (String c2 EmptyString)).
Proof.
  intros Hc H1 H2 Ho Hs cp.
  apply is_cont_spec in H1. destruct H1 as [H1 E1].
  apply is_cont_spec in H2. destruct H2 as [H2 E2].
  destruct (land_ones (N_of_ascii c)) as [_ [E _]].
  subst cp. rewrite E, E1, E2. clear E E1 E2.
  set (n := N_of_ascii c) in *. set (n1 := N_of_ascii c1) in *.
  set (n2 := N_of_ascii c2) in *.
  assert (Hn : n mod 16 = n - 224) by div_lia. rewrite Hn.
  set (cp := (n - 224) * 4096 + (n1 - 128) * 64 + (n2 - 128)).
  assert (Hd : cp / 4096 = n - 224) by (subst cp; div_lia).
  assert (Hd1 : cp / 64 = (n - 224) * 64 + (n1 - 128))
    by (subst cp; div_lia).
  assert (Hm1 : (cp / 64) mod 64 = n1 - 128) by (rewrite Hd1; div_lia).
  assert (Hm : cp mod 64 = n2 - 128) by (subst cp; div_lia).
  assert (Hr : 2048 <= cp < 65536) by (subst cp; lia).
  assert (Hsur : cp < 55296 \/ 57344 <= cp) by (subst cp; lia).
  split; [exact Hr|]. split; [exact Hsur|].
  unfold json_decoder.chr.
  replace (cp <? 128) with false by (symmetry; apply N.ltb_ge; lia).
  replace (cp <? 2048) with false by (symmetry; apply N.ltb_ge; lia).
  replace (cp <? 65536) with true by (symmetry; apply N.ltb_lt; lia).
  rewrite Hd, Hm1, Hm.
  replace (224 + (n - 224)) with n by lia.
  replace (128 + (n1 - 128)) with n1 by lia.
  replace (128 + (n2 - 128)) with n2 by lia.
  subst n n1 n2. rewrite !ascii_N_embedding. reflexivity.
Qed.

Lemma chr_4 (c c1 c2 c3 : ascii) :
  240 <= N_of_ascii c < 245 ->
  is_cont c1 = true -> is_cont c2 = true -> is_cont c3 = true ->
  (N_of_ascii c = 240 -> 144 <= N_of_ascii c1) ->
  (N_of_ascii c = 244 -> N_of_ascii c1 < 144) ->
  let cp := N.land (N_of_ascii c) 7 * 262144
            + json_encoder.cont c1 * 4096
            + json_encoder.cont c2 * 64 + json_encoder.cont c3 in
  65536 <= cp < 1114112 /\
  json_decoder.chr cp
  = String c (String c1 (String c2 (String c3 EmptyString))).
Proof.
  intros Hc H1 H2 H3 Ho Hs cp.
  apply is_cont_spec in H1. destruct H1 as [H1 E1].
  apply is_cont_spec in H2. destruct H2 as [H2 E2].
  apply is_cont_spec in H3. destruct H3 as [H3 E3].
  destruct (land_ones (N_of_ascii c)) as [_ [_ [E _]]].
  subst cp. rewrite E, E1, E2, E3. clear E E1 E2 E3.
  set (n := N_of_ascii c) in *. set (n1 := N_of_ascii c1) in *.
  set (n2 := N_of_ascii c2) in *. set (n3 := N_of_ascii c3) in *.
  assert (Hn : n mod 8 = n - 240) by div_lia. rewrite Hn.
  set (cp := (n - 240) * 262144 + (n1 - 128) * 4096
             + (n2 - 128) * 64 + (n3 - 128)).
  assert (Hd : cp / 262144 = n - 240) by (subst cp; div_lia).
  assert (Hd1 : cp / 4096 = (n - 240) * 64 + (n1 - 128))
    by (subst cp; div_lia).
  assert (Hd2 : cp / 64 = (n - 240) * 4096 + (n1 - 128) * 64 + (n2 - 128))
    by (subst cp; div_lia).
  assert (Hm1 : (cp / 4096) mod 64 = n1 - 128) by (rewrite Hd1; div_lia).
  assert (Hm2 : (cp / 64) mod 64 = n2 - 128) by (rewrite Hd2; div_lia).
  assert (Hm : cp mod 64 = n3 - 128) by (subst cp; div_lia).
  assert (Hr : 65536 <= cp < 1114112) by (subst cp; lia).
  split; [exact Hr|].
  unfold json_decoder.chr.
  replace (cp <? 128) with false by (symmetry; apply N.ltb_ge; lia).
  replace (cp <? 2048) with false by (symmetry; apply N.ltb_ge; lia).
  replace (cp <? 65536) with false by (symmetry; apply N.ltb_ge; lia).
  rewrite Hd, Hm1, Hm2, Hm.
  replace (240 + (n - 240)) with n by lia.
  replace (128 + (n1 - 128)) with n1 by lia.
  replace (128 + (n2 - 128)) with n2 by lia.
  replace (128 + (n3 - 128)) with n3 by lia.
  subst n n1 n2 n3. rewrite !ascii_N_embedding. reflexivity.
Qed.

Lemma scanstring_plain_char (c : ascii) (X : string) :
  json_encoder.needs_escape (N_of_ascii c) = false ->
  json_decoder.scanstring (String c X)
  = scan_more (String c EmptyString) (json_decoder.scanstring X).
Proof.
  unfold json_encoder.needs_escape. intros H.
  apply orb_false_iff in H. destruct H as [H H92].
  apply orb_false_iff in H. destruct H as [H H34].
  apply orb_false_iff in H. destruct H as [H32 _].
  cbn [json_decoder.scanstring].
  destruct (Ascii.eqb_spec c Str.dquote) as [->|_]; [discriminate|].
  destruct (Ascii.eqb_spec c "\") as [->|_]; [discriminate|].
  rewrite H32.
  destruct (json_decoder.scanstring X) as [[str tail]|]; reflexivity.
Qed.

(** [scanstring] reads back what [encode_basestring_ascii] writes. *)
Lemma scanstring_escape_ascii (s tail : string) :
  utf8_valid s = true ->
  json_decoder.scanstring
    (json_encoder.escape_ascii s ++ String Str.dquote tail)
  = Some (s, tail).
Proof.
  remember (String.length s) as k eqn:Hk.
  assert (Hlen : (String.length s <= k)%nat) by lia. clear Hk.
  revert s Hlen. induction k as [|k IH]; intros s Hlen Hv.
  - destruct s; [|simpl in Hlen; lia].
    reflexivity.
  - destruct s as [|c r].
    + reflexivity.
    + cbn [utf8_valid] in Hv. cbn [json_encoder.escape_ascii].
      cbn zeta in *. simpl String.length in Hlen.
      destruct (N.ltb_spec (N_of_ascii c) 128) as [H128|H128].
      * (* one byte *)
        rewrite append_assoc.
        assert (E : json_decoder.scanstring
                      ((if json_encoder.needs_escape (N_of_ascii c)
                        then json_encoder.escape_code_point (N_of_ascii c)
                        else String c EmptyString)
                       ++ json_encoder.escape_ascii r
                       ++ String Str.dquote tail)
                    = scan_more (String c EmptyString)
                        (json_decoder.scanstring
                           (json_encoder.escape_ascii r
                            ++ String Str.dquote tail))).
        { destruct (json_encoder.needs_escape (N_of_ascii c)) eqn:En.
          - rewrite scanstring_escape_code_point by lia.
            unfold json_decoder.chr.
            replace (N_of_ascii c <? 128) with true
              by (symmetry; apply N.ltb_lt; lia).
            rewrite ascii_N_embedding. reflexivity.
          - apply scanstring_plain_char. exact En. }
        rewrite E, IH by (assumption || lia). reflexivity.
      * destruct (N.ltb_spec (N_of_ascii c) 194) as [H194|H194];
          [discriminate|].
        replace (N_of_ascii c <? 192) with false
          by (symmetry; apply N.ltb_ge; lia).
        destruct (N.ltb_spec (N_of_ascii c) 224) as [H224|H224].
        { (* two bytes *)
          destruct r as [|c1 r1]; [discriminate|].
          apply andb_true_iff in Hv. destruct Hv as [H1 Hv].
          destruct (chr_2 c c1) as [Hr Hc]; [lia | assumption|].
          rewrite append_assoc, scanstring_escape_code_point by lia.
          rewrite IH by (assumption || (simpl in Hlen; lia)).
          unfold scan_more. rewrite Hc. reflexivity. }
        destruct (N.ltb_spec (N_of_ascii c) 240) as [H240|H240].
        { (* three bytes *)
          destruct r as [|c1 [|c2 r2]]; try discriminate.
          apply andb_true_iff in Hv. destruct Hv as [Hv Hv2].
          apply andb_true_iff in Hv. destruct Hv as [Hv Hs].
          apply andb_true_iff in Hv. destruct Hv as [Hv Ho].
          apply andb_true_iff in Hv. destruct Hv as [H1 H2].
          destruct (chr_3 c c1 c2) as [Hr [Hsur Hc]];
            [lia | assumption | assumption | |  |].
          { intros E. apply N.eqb_eq in E. rewrite E in Ho.
            apply N.leb_le in Ho. exact Ho. }
          { intros E. apply N.eqb_eq in E. rewrite E in Hs.
            apply N.ltb_lt in Hs. exact Hs. }
          rewrite append_assoc, scanstring_escape_code_point by lia.
          rewrite IH by (assumption || (simpl in Hlen; lia)).
          unfold scan_more. rewrite Hc. reflexivity. }
        destruct (N.ltb_spec (N_of_ascii c) 245) as [H245|H245];
          [|discriminate].
        (* four bytes *)
        destruct r as [|c1 [|c2 [|c3 r3]]]; try discriminate.
        apply andb_true_iff in Hv. destruct Hv as [Hv Hv3].
        apply andb_true_iff in Hv. destruct Hv as [Hv Hs].
        apply andb_true_iff in Hv. destruct Hv as [Hv Ho].
        apply andb_true_iff in Hv. destruct Hv as [Hv H3].
        apply andb_true_iff in Hv. destruct Hv as [H1 H2].
        destruct (chr_4 c c1 c2 c3) as [Hr Hc];
          [lia | assumption | assumption | assumption | | |].
        { intros E. apply N.eqb_eq in E. rewrite E in Ho.
          apply N.leb_le in Ho. exact Ho. }
        { intros E. apply N.eqb_eq in E. rewrite E in Hs.
          apply N.ltb_lt in Hs. exact Hs. }
        rewrite append_assoc, scanstring_escape_code_point by lia.
        rewrite IH by (assumption || (simpl in Hlen; lia)).
        unfold scan_more. rewrite Hc. reflexivity.
Qed.

End JsonStrings.


(* ================================================================== *)
(** * Numbers and other scalars are read back *)

Section JsonNumbers.

Lemma all_digits_string_of_uint (d : Decimal.uint) :
  all_digits (NilEmpty.string_of_uint d) = true.
Proof. induction d; simpl; auto. Qed.

Lemma delimiter_not_digit (c : ascii) (r : string) :
  starts_with_delimiter (String c r) = true -> Str.is_digit c = false.
Proof.
  simpl. intros H.
  destruct (Ascii.eqb_spec c ",") as [->|_]; [reflexivity|].
  destruct (Ascii.eqb_spec c "}") as [->|_]; [reflexivity|].
  destruct (Ascii.eqb_spec c "]") as [->|_]; [reflexivity|].
  discriminate.
Qed.

(** A scanner that stops before the text [R] does not look beyond its
    first character. *)
Lemma span_digits_tail (s ds rest R : string) :
  starts_with_delimiter R = true ->
  span_digits s = (ds, rest) ->
  span_digits (s ++ R) = (ds, rest ++ R).
Proof.
  intros HR. revert ds rest.
  induction s as [|c s IH]; intros ds rest; simpl.
  - intros H. injection H as <- <-.
    destruct R as [|c r]; [discriminate|]. simpl.
    rewrite (delimiter_not_digit _ _ HR). reflexivity.
  - destruct (Str.is_digit c).
    + destruct (span_digits s) as [ds' rest'].
      intros H. injection H as <- <-.
      rewrite (IH _ _ eq_refl). reflexivity.
    + intros H. injection H as <- <-. reflexivity.
Qed.

Lemma span_digits_all (ds : string) :
  all_digits ds = true -> span_digits ds = (ds, EmptyString).
Proof.
  induction ds as [|c ds IH]; simpl; [reflexivity|].
  intros H. apply andb_true_iff in H. destruct H as [-> H].
  rewrite (IH H). reflexivity.
Qed.

Lemma match_integer_tail (s i rest R : string) :
  starts_with_delimiter R = true ->
  json_decoder.match_integer s = Some (i, rest) ->
  json_decoder.match_integer (s ++ R) = Some (i, rest ++ R).
Proof.
  intros HR. unfold json_decoder.match_integer.
  assert (Hbody : forall sign s1,
    match s1 with
    | String c r =>
        if Ascii.eqb c "0" then Some (sign ++ "0", r)
        else if Str.is_digit c
             then let (ds, rest0) := span_digits s1 in Some (sign ++ ds, rest0)
             else None
    | EmptyString => None
    end = Some (i, rest) ->
    match s1 ++ R with
    | String c r =>
        if Ascii.eqb c "0" then Some (sign ++ "0", r)
        else if Str.is_digit c
             then let (ds, rest0) := span_digits (s1 ++ R) in
                  Some (sign ++ ds, rest0)
             else None
    | EmptyString => None
    end = Some (i, rest ++ R)).
  { intros sign s1. destruct s1 as [|c r]; [discriminate|].
    cbn [append].
    destruct (Ascii.eqb c "0").
    - intros H. injection H as <- <-. reflexivity.
    - destruct (Str.is_digit c); [|discriminate].
      destruct (span_digits (String c r)) as [ds rest0] eqn:E.
      intros H. injection H as <- <-.
      change (String c (r ++ R)) with (String c r ++ R).
      rewrite (span_digits_tail _ _ _ _ HR E). reflexivity. }
  destruct s as [|c r].
  - discriminate.
  - cbn [append]. destruct (Ascii.eqb c "-").
    + apply Hbody.
    + apply (Hbody EmptyString (String c r)).
Qed.

Lemma match_frac_tail (s fr rest R : string) :
  starts_with_delimiter R = true ->
  json_decoder.match_frac s = (fr, rest) ->
  json_decoder.match_frac (s ++ R) = (fr, rest ++ R).
Proof.
  intros HR. unfold json_decoder.match_frac.
  destruct s as [|c r].
  - intros H. injection H as <- <-.
    destruct R as [|c r]; [discriminate|]. simpl in *.
    destruct (Ascii.eqb_spec c ".") as [->|_]; [discriminate|].
    reflexivity.
  - cbn [append]. destruct (Ascii.eqb c ".").
    + destruct (span_digits r) as [ds rest0] eqn:E.
      rewrite (span_digits_tail _ _ _ _ HR E).
      destruct (Str.is_empty ds); intros H; injection H as <- <-;
        reflexivity.
    + intros H. injection H as <- <-. reflexivity.
Qed.

Lemma match_exp_tail (s ex rest R : string) :
  starts_with_delimiter R = true ->
  json_decoder.match_exp s = (ex, rest) ->
  json_decoder.match_exp (s ++ R) = (ex, rest ++ R).
Proof.
  intros HR. unfold json_decoder.match_exp.
  destruct s as [|e r].
  - intros H. injection H as <- <-.
    destruct R as [|c r]; [discriminate|]. simpl in *.
    destruct (Ascii.eqb_spec c "e") as [->|_]; [discriminate|].
    destruct (Ascii.eqb_spec c "E") as [->|_]; [discriminate|].
    reflexivity.
  - cbn [append]. destruct (Ascii.eqb e "e" || Ascii.eqb e "E").
    + assert (Hsign : forall sign r1,
        (let (ds, rest0) := span_digits r1 in
         if Str.is_empty ds then (EmptyString, String e r)
         else (String e (sign ++ ds), rest0)) = (ex, rest) ->
        (let (ds, rest0) := span_digits (r1 ++ R) in
         if Str.is_empty ds then (EmptyString, String e (r ++ R))
         else (String e (sign ++ ds), rest0)) = (ex, rest ++ R)).
      { intros sign r1. destruct (span_digits r1) as [ds rest0] eqn:E.
        rewrite (span_digits_tail _ _ _ _ HR E).
        destruct (Str.is_empty ds); intros H; injection H as <- <-;
          reflexivity. }
      destruct r as [|c r'].
      * intros H. injection H as <- <-.
        destruct R as [|c r]; [discriminate|]. cbn [append].
        pose proof (delimiter_not_digit _ _ HR) as Hd.
        simpl in HR.
        destruct (Ascii.eqb_spec c "-") as [->|_]; [discriminate|].
        destruct (Ascii.eqb_spec c "+") as [->|_]; [discriminate|].
        cbn [span_digits]. rewrite Hd. reflexivity.
      * cbn [append].
        destruct (Ascii.eqb c "-"); [apply Hsign|].
        destruct (Ascii.eqb c "+"); [apply Hsign|].
        apply (Hsign EmptyString (String c r')).
    + intros H. injection H as <- <-. reflexivity.
Qed.

Lemma scan_number_tail (s rest R : string) (x : json) :
  starts_with_delimiter R = true ->
  json_decoder.scan_number s = Some (x, rest) ->
  json_decoder.scan_number (s ++ R) = Some (x, rest ++ R).
Proof.
  intros HR. unfold json_decoder.scan_number.
  destruct (json_decoder.match_integer s) as [[i r1]|] eqn:Ei;
    [|discriminate].
  rewrite (match_integer_tail _ _ _ _ HR Ei).
  destruct (json_decoder.match_frac r1) as [fr r2] eqn:Ef.
  rewrite (match_frac_tail _ _ _ _ HR Ef).
  destruct (json_decoder.match_exp r2) as [ex r3] eqn:Ee.
  rewrite (match_exp_tail _ _ _ _ HR Ee).
  destruct (Str.is_empty fr && Str.is_empty ex);
    intros H; injection H as <- <-; reflexivity.
Qed.

(** The first character of a number is a minus sign or a digit. *)
Lemma match_integer_first (s i rest : string) :
  json_decoder.match_integer s = Some (i, rest) ->
  exists c r, s = String c r /\ (c = "-"%char \/ Str.is_digit c = true).
Proof.
  unfold json_decoder.match_integer. destruct s as [|c r]; [discriminate|].
  intros H. exists c, r. split; [reflexivity|].
  destruct (Ascii.eqb_spec c "-") as [->|_]; [auto|].
  destruct (Ascii.eqb_spec c "0") as [->|_]; [auto|].
  destruct (Str.is_digit c); [auto | discriminate].
Qed.

Lemma scan_atom_number (s rest : string) (x : json) :
  json_decoder.scan_number s = Some (x, rest) ->
  json_decoder.scan_atom s = Some (x, rest).
Proof.
  intros H. unfold json_decoder.scan_atom, json_decoder.scan_literal.
  assert (Hi : exists i r, json_decoder.match_integer s = Some (i, r)).
  { unfold json_decoder.scan_number in H.
    destruct (json_decoder.match_integer s) as [[i r]|]; [eauto|].
    discriminate. }
  destruct Hi as [i [r Hi]].
  destruct (match_integer_first _ _ _ Hi) as [c [r' [-> Hc]]].
  assert (Hn : Ascii.eqb "n" c = false /\ Ascii.eqb "t" c = false
               /\ Ascii.eqb "f" c = false).
  { destruct Hc as [-> | Hc]; [auto|].
    repeat split; apply Ascii.eqb_neq; intros <-; discriminate. }
  destruct Hn as [Hn [Ht Hf]].
  cbn [Str.strip_prefix]. rewrite Hn, Ht, Hf, H. reflexivity.
Qed.

Lemma scan_once_number (f : nat) (s rest : string) (x : json) :
  json_decoder.scan_number s = Some (x, rest) ->
  json_decoder.scan_once (S f) s = Some (x, rest).
Proof.
  intros H. pose proof (scan_atom_number _ _ _ H) as Ha.
  unfold json_decoder.scan_number in H.
  destruct (json_decoder.match_integer s) as [[i r]|] eqn:Hi;
    [|discriminate].
  destruct (match_integer_first _ _ _ Hi) as [c [r' [-> Hc]]].
  cbn [json_decoder.scan_once].
  assert (Hq : Ascii.eqb c Str.dquote = false /\ Ascii.eqb c "{" = false
               /\ Ascii.eqb c "[" = false).
  { destruct Hc as [-> | Hc]; [auto|].
    repeat split; apply Ascii.eqb_neq; intros ->; discriminate. }
  destruct Hq as [-> [-> ->]]. exact Ha.
Qed.

Lemma to_uint_no_leading_zero (p : positive) (l : Decimal.uint) :
  Pos.to_uint p <> Decimal.D0 l.
Proof.
  intros H.
  assert (E : Decimal.unorm (Pos.to_uint p) = Pos.to_uint p).
  { change (Pos.to_uint p) with (N.to_uint (N.pos p)).
    rewrite <- DecimalN.Unsigned.to_of, DecimalN.Unsigned.of_to.
    reflexivity. }
  rewrite H in E. rewrite DecimalFacts.unorm_D0 in E.
  assert (Hl : l = Decimal.Nil \/ l <> Decimal.Nil)
    by (destruct l; [left; reflexivity | right; discriminate ..]).
  destruct Hl as [-> | Hl].
  - apply (DecimalPos.Unsigned.to_uint_nonzero p). exact H.
  - pose proof (DecimalFacts.nb_digits_unorm l Hl) as Hn.
    rewrite E in Hn. simpl in Hn. lia.
Qed.

Lemma match_integer_of_Z (z : Z) :
  json_decoder.match_integer (Str.of_Z z) = Some (Str.of_Z z, EmptyString).
Proof.
  assert (Hpos : forall p sign,
    match NilEmpty.string_of_uint (Pos.to_uint p) with
    | String c r =>
        if Ascii.eqb c "0" then Some (sign ++ "0", r)
        else if Str.is_digit c
             then let (ds, rest0) :=
                    span_digits (NilEmpty.string_of_uint (Pos.to_uint p)) in
                  Some (sign ++ ds, rest0)
             else None
    | EmptyString => None
    end = Some (sign ++ NilEmpty.string_of_uint (Pos.to_uint p),
                EmptyString)).
  { intros p sign.
    rewrite (span_digits_all _ (all_digits_string_of_uint _)).
    pose proof (to_uint_no_leading_zero p) as Hz.
    pose proof (DecimalPos.Unsigned.to_uint_nonnil p) as Hnil.
    destruct (Pos.to_uint p); try reflexivity; congruence. }
  destruct z as [|p|p].
  - reflexivity.
  - unfold Str.of_Z, json_decoder.match_integer.
    cbn [Z.to_int NilEmpty.string_of_int].
    pose proof (Hpos p EmptyString) as H.
    destruct (NilEmpty.string_of_uint (Pos.to_uint p)) as [|c r] eqn:E.
    + discriminate.
    + pose proof (string_of_uint_first _ _ _ E) as Hd.
      destruct (Ascii.eqb_spec c "-") as [->|_]; [discriminate|].
      exact H.
  - unfold Str.of_Z, json_decoder.match_integer.
    cbn [Z.to_int NilEmpty.string_of_int Ascii.eqb Bool.eqb].
    apply (Hpos p "-").
Qed.

Lemma int_of_text_of_Z (z : Z) : json_decoder.int_of_text (Str.of_Z z) = z.
Proof.
  unfold json_decoder.int_of_text, Str.of_Z.
  rewrite NilEmpty.isi. apply DecimalZ.of_to.
Qed.

(** An integer that [json.dumps] writes is read back as it was. *)
Lemma scan_number_of_Z (z : Z) (R : string) :
  starts_with_delimiter R = true ->
  json_decoder.scan_number (Str.of_Z z ++ R) = Some (JInt z, R).
Proof.
  intros HR.
  apply (scan_number_tail (Str.of_Z z) EmptyString R (JInt z) HR).
  unfold json_decoder.scan_number.
  rewrite match_integer_of_Z. cbn.
  rewrite int_of_text_of_Z. reflexivity.
Qed.

(** So is a float, from the text that denotes it. *)
Lemma scan_once_float (r R : string) (f : nat) :
  float_repr_ok r = true ->
  starts_with_delimiter R = true ->
  json_decoder.scan_once (S f) (json_encoder.dumps_float r ++ R)
  = Some (JFloat (json_encoder.dumps_float r), R).
Proof.
  intros Hr HR. unfold float_repr_ok in Hr. unfold json_encoder.dumps_float.
  destruct (String.eqb_spec r "nan") as [->|_]; [reflexivity|].
  destruct (String.eqb_spec r "inf") as [->|_]; [reflexivity|].
  destruct (String.eqb_spec r "-inf") as [->|_]; [reflexivity|].
  cbn [orb] in Hr.
  destruct (json_decoder.scan_number r) as [[x rest]|] eqn:E;
    [|discriminate].
  destruct x; try discriminate. destruct rest; [|discriminate].
  apply String.eqb_eq in Hr. subst text.
  apply scan_once_number.
  apply (scan_number_tail r EmptyString R _ HR E).
Qed.

End JsonNumbers.


(* ================================================================== *)
(** * [json.loads] reads back what [json.dumps] writes *)

Section JsonRoundTrip.

Lemma skip_ws_not_ws (c : ascii) (r : string) :
  json_decoder.is_ws c = false ->
  json_decoder.skip_ws (String c r) = String c r.
Proof. intros H. simpl. rewrite H. reflexivity. Qed.

Lemma digit_not_ws (c : ascii) :
  c = "-"%char \/ Str.is_digit c = true -> json_decoder.is_ws c = false.
Proof.
  intros [-> | H]; [reflexivity|].
  unfold json_decoder.is_ws.
  destruct (Ascii.eqb_spec c " ") as [->|_]; [discriminate|].
  unfold Str.is_digit in H. apply andb_true_iff in H. destruct H as [H _].
  apply Nat.leb_le in H.
  assert (E : N_of_ascii c = N.of_nat (nat_of_ascii c))
    by (unfold nat_of_ascii; lia).
  rewrite E.
  repeat (match goal with
          | |- context [(?a =? ?b)%N] =>
              destruct (N.eqb_spec a b); [lia|]
          end).
  reflexivity.
Qed.

Lemma of_Z_first (z : Z) :
  exists c r, Str.of_Z z = String c r
              /\ (c = "-"%char \/ Str.is_digit c = true).
Proof.
  pose proof (match_integer_of_Z z) as H.
  destruct (match_integer_first _ _ _ H) as [c [r [E Hc]]]. eauto.
Qed.

Lemma str_join_cons (sep x y : string) (l : list string) :
  str_join sep (x :: y :: l) = x ++ sep ++ str_join sep (y :: l).
Proof. reflexivity. Qed.

Lemma array_loop_step (f : nat) (s : string) (values : list json) :
  json_decoder.array_loop (S f) s values
  = match json_decoder.scan_once f s with
    | None => None
    | Some (value, r) =>
        match json_decoder.skip_ws r with
        | String c r1 =>
            if Ascii.eqb c "]" then Some (JList (rev (value :: values)), r1)
            else if Ascii.eqb c ","
            then json_decoder.array_loop f (json_decoder.skip_ws r1)
                   (value :: values)
            else None
        | EmptyString => None
        end
    end.
Proof. reflexivity. Qed.

Lemma object_loop_step (f : nat) (s : string)
    (pairs : list (string * json)) :
  json_decoder.object_loop (S f) s pairs
  = match json_decoder.scanstring s with
    | None => None
    | Some (key, r) =>
        match json_decoder.skip_ws r with
        | String colon r1 =>
            if negb (Ascii.eqb colon ":") then None else
            match json_decoder.scan_once f (json_decoder.skip_ws r1) with
            | None => None
            | Some (value, r2) =>
                match json_decoder.skip_ws r2 with
                | String c r3 =>
                    if Ascii.eqb c "}" then
                      Some (JDict (json_decoder.dict_of_pairs
                                     (rev ((key, value) :: pairs))), r3)
                    else if Ascii.eqb c "," then
                      match json_decoder.skip_ws r3 with
                      | String q r4 =>
                          if Ascii.eqb q Str.dquote
                          then json_decoder.object_loop f r4
                                 ((key, value) :: pairs)
                          else None
                      | EmptyString => None
                      end
                    else None
                | EmptyString => None
                end
            end
        | EmptyString => None
        end
    end.
Proof. reflexivity. Qed.

Lemma scan_once_step (f : nat) (c : ascii) (r : string) :
  json_decoder.scan_once (S f) (String c r)
  = if Ascii.eqb c Str.dquote then
      match json_decoder.scanstring r with
      | Some (str, rest) => Some (JStr str, rest)
      | None => None
      end
    else if Ascii.eqb c "{" then
      match json_decoder.skip_ws r with
      | String c1 r1 =>
          if Ascii.eqb c1 "}" then Some (JDict [], r1)
          else if Ascii.eqb c1 Str.dquote
          then json_decoder.object_loop f r1 []
          else None
      | EmptyString => None
      end
    else if Ascii.eqb c "[" then
      match json_decoder.skip_ws r with
      | String c1 r1 =>
          if Ascii.eqb c1 "]" then Some (JList [], r1)
          else json_decoder.array_loop f (String c1 r1) []
      | EmptyString => None
      end
    else json_decoder.scan_atom (String c r).
Proof. reflexivity. Qed.

(** The elements of a list of integers, from the first one to the
    closing bracket. *)
Lemma array_loop_ints (l : list Z) (z : Z) (values : list json)
    (R : string) (f : nat) :
  (2 * String.length (str_join ", " (map Str.of_Z (z :: l))
                      ++ String "]" R) + 1 <= f)%nat ->
  json_decoder.array_loop f
    (str_join ", " (map Str.of_Z (z :: l)) ++ String "]" R) values
  = Some (JList (rev values ++ map JInt (z :: l)), R).
Proof.
  revert z values f.
  induction l as [|z' l IH]; intros z values f Hf.
  - cbn [map str_join] in *.
    destruct f as [|[|f]]; [lia | rewrite length_append in Hf;
      destruct (of_Z_first z) as [c [r [E _]]]; rewrite E in Hf;
      simpl in Hf; lia |].
    rewrite array_loop_step.
    rewrite (scan_once_number f _ _ _
               (scan_number_of_Z z (String "]" R) eq_refl)).
    reflexivity.
  - cbn [map] in *. rewrite str_join_cons in *.
    rewrite !append_assoc in *.
    set (next := str_join ", " (Str.of_Z z' :: map Str.of_Z l)
                 ++ String "]" R) in *.
    destruct f as [|[|f]]; [lia | rewrite length_append in Hf;
      destruct (of_Z_first z) as [c [r [E _]]]; rewrite E in Hf;
      simpl in Hf; lia |].
    rewrite array_loop_step.
    rewrite (scan_once_number f _ _ _
               (scan_number_of_Z z (", " ++ next) eq_refl)).
    assert (Hnext : json_decoder.skip_ws next = next).
    { subst next. cbn [str_join map].
      destruct (of_Z_first z') as [c [r [E Hc]]].
      destruct (map Str.of_Z l); rewrite ?append_assoc, E;
        apply skip_ws_not_ws, digit_not_ws; exact Hc. }
    assert (Hstep :
      json_decoder.array_loop (S f) next (JInt z :: values)
      = Some (JList (rev values ++ JInt z :: JInt z' :: map JInt l), R)).
    { assert (Hfuel : (2 * String.length next + 1 <= S f)%nat).
      { rewrite (length_append (Str.of_Z z)) in Hf.
        rewrite (length_append ", ") in Hf.
        change (String.length ", ") with 2%nat in Hf. lia. }
      subst next. rewrite (IH z' (JInt z :: values) (S f) Hfuel).
      cbn [rev map]. rewrite <- app_assoc. reflexivity. }
    change (json_decoder.skip_ws (", " ++ next)) with (", " ++ next).
    cbn [append Ascii.eqb Bool.eqb].
    change (json_decoder.skip_ws (String " " next))
      with (json_decoder.skip_ws next).
    rewrite Hnext. exact Hstep.
Qed.

(** The first character of a value that is written is no white space. *)
Lemma dumps_val_first (v : pyval) :
  value_ok v = true ->
  exists c r, json_encoder.dumps_val v = String c r
              /\ json_decoder.is_ws c = false.
Proof.
  destruct v as [|b|z|r|s|l]; intros Hv;
    try (eexists _, _; split; reflexivity).
  - destruct b; eexists _, _; split; reflexivity.
  - destruct (of_Z_first z) as [c [r [E Hc]]].
    exists c, r. split; [exact E | apply digit_not_ws; exact Hc].
  - cbn [json_encoder.dumps_val]. cbn [value_ok] in Hv.
    unfold float_repr_ok in Hv. unfold json_encoder.dumps_float.
    destruct (String.eqb_spec r "nan") as [_|_];
      [eexists _, _; split; reflexivity|].
    destruct (String.eqb_spec r "inf") as [_|_];
      [eexists _, _; split; reflexivity|].
    destruct (String.eqb_spec r "-inf") as [_|_];
      [eexists _, _; split; reflexivity|].
    cbn [orb] in Hv. unfold json_decoder.scan_number in Hv.
    destruct (json_decoder.match_integer r) as [[i r1]|] eqn:E;
      [|discriminate].
    destruct (match_integer_first _ _ _ E) as [c [r' [-> Hc]]].
    exists c, r'. split; [reflexivity | apply digit_not_ws; exact Hc].
Qed.

(** Every value is read back, when a delimiter follows it. *)
Lemma scan_once_value (v : pyval) (R : string) (f : nat) :
  value_ok v = true ->
  starts_with_delimiter R = true ->
  (2 * String.length (json_encoder.dumps_val v ++ R) <= f)%nat ->
  json_decoder.scan_once f (json_encoder.dumps_val v ++ R)
  = Some (to_json v, R).
Proof.
  intros Hv HR Hf.
  assert (Hf2 : exists f', f = S (S f')).
  { destruct (dumps_val_first v Hv) as [c [r [E _]]].
    rewrite E in Hf. simpl in Hf.
    destruct f as [|[|f']]; [lia | lia | eauto]. }
  destruct Hf2 as [f' ->].
  destruct v as [|b|z|r|s|l]; cbn [json_encoder.dumps_val to_json].
  - reflexivity.
  - destruct b; reflexivity.
  - apply scan_once_number, scan_number_of_Z, HR.
  - apply scan_once_float; assumption.
  - unfold json_encoder.dumps_str. cbn [append].
    rewrite scan_once_step, Ascii.eqb_refl, append_assoc.
    cbn [append]. rewrite scanstring_escape_ascii by exact Hv.
    reflexivity.
  - cbn [append]. rewrite scan_once_step.
    cbn [Ascii.eqb Bool.eqb].
    change (Ascii.eqb "[" Str.dquote) with false. cbn iota.
    rewrite append_assoc.
    destruct l as [|z l].
    + reflexivity.
    + destruct (of_Z_first z) as [c [r [E Hc]]].
      assert (Hfirst : exists r',
        str_join ", " (map Str.of_Z (z :: l)) ++ String "]" R
        = String c r').
      { cbn [map str_join]. destruct (map Str.of_Z l);
          rewrite ?append_assoc, E; eexists; reflexivity. }
      destruct Hfirst as [r' Hfirst].
      assert (Hloop := array_loop_ints l z [] R (S f')).
      cbn [json_encoder.dumps_val] in Hf.
      rewrite !append_assoc in Hf. cbn [append] in Hf.
      cbn [append]. rewrite Hfirst in *.
      rewrite (skip_ws_not_ws c r' (digit_not_ws c Hc)).
      replace (Ascii.eqb c "]") with false.
      * apply Hloop. cbn [String.length] in *. lia.
      * symmetry. destruct Hc as [-> | Hc]; [reflexivity|].
        apply Ascii.eqb_neq. intros ->. discriminate.
Qed.

Lemma skip_ws_value (v : pyval) (X : string) :
  value_ok v = true ->
  json_decoder.skip_ws (json_encoder.dumps_val v ++ X)
  = json_encoder.dumps_val v ++ X.
Proof.
  intros Hv. destruct (dumps_val_first v Hv) as [c [r [-> Hc]]].
  apply skip_ws_not_ws. exact Hc.
Qed.

Lemma skip_ws_space (X : string) :
  json_decoder.skip_ws (String " " X) = json_decoder.skip_ws X.
Proof. reflexivity. Qed.

Lemma object_tail_delimiter (d : dict pyval) (R : string) :
  starts_with_delimiter (object_tail d R) = true.
Proof. destruct d as [|[k v] d]; reflexivity. Qed.

(** One item of an object, from its key (after the opening quote). *)
Lemma object_loop_item (k : string) (v : pyval) (tail : string)
    (pairs : list (string * json)) (f : nat) :
  utf8_valid k = true -> value_ok v = true ->
  starts_with_delimiter tail = true ->
  (2 * String.length (json_encoder.dumps_val v ++ tail) <= f)%nat ->
  json_decoder.object_loop (S f)
    (json_encoder.escape_ascii k
     ++ String Str.dquote (": " ++ json_encoder.dumps_val v ++ tail)) pairs
  = match tail with
    | String c r3 =>
        if Ascii.eqb c "}" then
          Some (JDict (json_decoder.dict_of_pairs
                         (rev ((k, to_json v) :: pairs))), r3)
        else if Ascii.eqb c "," then
          match json_decoder.skip_ws r3 with
          | String q r4 =>
              if Ascii.eqb q Str.dquote
              then json_decoder.object_loop f r4 ((k, to_json v) :: pairs)
              else None
          | EmptyString => None
          end
        else None
    | EmptyString => None
    end.
Proof.
  intros Hk Hv Ht Hf.
  rewrite object_loop_step, scanstring_escape_ascii by exact Hk.
  cbn [append]. rewrite (skip_ws_not_ws ":") by reflexivity.
  cbn [Ascii.eqb Bool.eqb negb].
  rewrite skip_ws_space, skip_ws_value by exact Hv.
  rewrite scan_once_value by assumption.
  destruct tail as [|c r3]; [discriminate|].
  rewrite skip_ws_not_ws; [reflexivity|].
  simpl in Ht.
  destruct (Ascii.eqb_spec c ",") as [->|_]; [reflexivity|].
  destruct (Ascii.eqb_spec c "}") as [->|_]; [reflexivity|].
  destruct (Ascii.eqb_spec c "]") as [->|_]; [reflexivity|].
  discriminate.
Qed.

(** The items of an object, from the first key (after its opening
    quote) to the closing brace. *)
Lemma object_loop_items (d : dict pyval) (k : string) (v : pyval)
    (pairs : list (string * json)) (R : string) (f : nat) :
  utf8_valid k = true -> value_ok v = true ->
  forallb (fun kv => utf8_valid (fst kv) && value_ok (snd kv)) d = true ->
  (2 * String.length
         (json_encoder.escape_ascii k
          ++ String Str.dquote (": " ++ json_encoder.dumps_val v
                                ++ object_tail d R)) + 1 <= f)%nat ->
  json_decoder.object_loop f
    (json_encoder.escape_ascii k
     ++ String Str.dquote (": " ++ json_encoder.dumps_val v
                           ++ object_tail d R)) pairs
  = Some (JDict (json_decoder.dict_of_pairs
                   (rev pairs
                    ++ (k, to_json v)
                    :: map (fun kv => (fst kv, to_json (snd kv))) d)),
          R).
Proof.
  revert k v pairs f.
  assert (Hfuel : forall k v tail f,
    (2 * String.length
           (json_encoder.escape_ascii k
            ++ String Str.dquote (": " ++ json_encoder.dumps_val v ++ tail))
     + 1 <= S f)%nat ->
    (2 * String.length (json_encoder.dumps_val v ++ tail) <= f)%nat).
  { intros k v tail f Hf.
    rewrite length_append in Hf. cbn [String.length] in Hf.
    rewrite (length_append ": ") in Hf.
    change (String.length ": ") with 2%nat in Hf. lia. }
  induction d as [|[k' v'] d IH]; intros k v pairs f Hk Hv Hd Hf;
    (destruct f as [|f]; [lia|]);
    pose proof (Hfuel _ _ _ _ Hf) as Hlen;
    rewrite object_loop_item
      by (assumption || apply object_tail_delimiter).
  - reflexivity.
  - cbn [forallb fst snd] in Hd.
    apply andb_true_iff in Hd. destruct Hd as [Hkv Hd].
    apply andb_true_iff in Hkv. destruct Hkv as [Hk' Hv'].
    cbn [object_tail append Ascii.eqb Bool.eqb].
    rewrite skip_ws_space, (skip_ws_not_ws Str.dquote) by reflexivity.
    rewrite Ascii.eqb_refl.
    etransitivity;
      [apply (IH k' v' ((k, to_json v) :: pairs) f Hk' Hv' Hd)|].
    + cbn [object_tail] in Hlen. rewrite length_append in Hlen.
      rewrite (length_append ", ") in Hlen.
      change (String.length ", ") with 2%nat in Hlen.
      cbn [String.length] in Hlen. lia.
    + cbn [rev map fst snd]. rewrite <- app_assoc. reflexivity.
Qed.


Lemma dict_set_fresh {V : Type} (d : dict V) (k : string) (v : V) :
  ~ In k (dict_keys d) -> dict_set d k v = (d ++ [(k, v)])%list.
Proof.
  unfold dict_keys. induction d as [|[k0 v0] d IH]; simpl; intros H.
  - reflexivity.
  - destruct (String.eqb_spec k0 k) as [->|_]; [tauto|].
    rewrite IH by tauto. reflexivity.
Qed.

(** [dict(pairs)] changes nothing when no key comes twice. *)
Lemma dict_of_pairs_NoDup (pairs : list (string * json)) :
  NoDup (dict_keys pairs) -> json_decoder.dict_of_pairs pairs = pairs.
Proof.
  unfold json_decoder.dict_of_pairs.
  assert (H : forall acc : dict json,
    NoDup (dict_keys (acc ++ pairs)%list) ->
    fold_left (fun d kv => dict_set d (fst kv) (snd kv)) pairs acc
    = (acc ++ pairs)%list).
  { induction pairs as [|[k v] pairs IH]; intros acc Hn; simpl.
    - rewrite app_nil_r. reflexivity.
    - unfold dict_keys in Hn. rewrite map_app in Hn. simpl in Hn.
      rewrite dict_set_fresh.
      + rewrite IH; rewrite <- app_assoc; [reflexivity|].
        unfold dict_keys. rewrite map_app. exact Hn.
      + apply NoDup_remove_2 in Hn. intros Hin. apply Hn.
        apply in_or_app. left. exact Hin. }
  intros Hn. apply (H []). exact Hn.
Qed.

Lemma dumps_items_unfold (d : dict pyval) (k : string) (v : pyval)
    (R : string) :
  str_join ", " (map json_encoder.dumps_item ((k, v) :: d)) ++ String "}" R
  = String Str.dquote
      (json_encoder.escape_ascii k
       ++ String Str.dquote (": " ++ json_encoder.dumps_val v
                             ++ object_tail d R)).
Proof.
  revert k v. induction d as [|[k' v'] d IH]; intros k v.
  - cbn [map str_join object_tail].
    unfold json_encoder.dumps_item, json_encoder.dumps_str.
    cbn [fst snd append]. rewrite !append_assoc. reflexivity.
  - cbn [map]. rewrite str_join_cons. rewrite !append_assoc.
    cbn [map] in IH. rewrite IH.
    unfold json_encoder.dumps_item, json_encoder.dumps_str.
    cbn [fst snd append object_tail]. rewrite !append_assoc.
    reflexivity.
Qed.

(** A dictionary that [json.dumps] writes is read back by [json.loads]
    as the same keys with the same values, in the same order. *)
Lemma loads_dumps (d : dict pyval) :
  NoDup (dict_keys d) ->
  forallb (fun kv => utf8_valid (fst kv) && value_ok (snd kv)) d = true ->
  json_decoder.loads (json_encoder.dumps d) = Ok (dict_to_json d).
Proof.
  intros Hn Hd. unfold json_decoder.loads, json_encoder.dumps.
  cbn [append]. rewrite (skip_ws_not_ws "{") by reflexivity.
  set (fuel := (2 * String.length _ + 2)%nat).
  destruct d as [|[k v] d].
  - reflexivity.
  - assert (Ef : fuel = S (2 * String.length
                                 (str_join ", "
                                    (map json_encoder.dumps_item
                                       ((k, v) :: d)) ++ "}") + 3))
      by (subst fuel; cbn [String.length]; lia).
    rewrite Ef. clear Ef fuel.
    rewrite scan_once_step. cbn [Ascii.eqb Bool.eqb].
    change (Ascii.eqb "{" Str.dquote) with false. cbn iota.
    cbn [forallb fst snd] in Hd.
    apply andb_true_iff in Hd. destruct Hd as [Hkv Hd].
    apply andb_true_iff in Hkv. destruct Hkv as [Hk Hv].
    rewrite (dumps_items_unfold d k v EmptyString).
    rewrite (skip_ws_not_ws Str.dquote) by reflexivity.
    change (Ascii.eqb Str.dquote "}") with false. cbn iota.
    rewrite Ascii.eqb_refl.
    rewrite (object_loop_items d k v [] EmptyString) by
      (assumption || (cbn [String.length]; lia)).
    cbn [rev app json_decoder.skip_ws].
    rewrite dict_of_pairs_NoDup; [reflexivity|].
    unfold dict_keys in *. cbn [map fst] in *. rewrite map_map.
    cbn [fst]. exact Hn.
Qed.

End JsonRoundTrip.


(* ================================================================== *)
(** * The texts [json.dumps] writes that are JSON *)

(** The lemmas of the round trip, for the decoder without constants: it
    reads back what [json.dumps] writes for values that have a JSON
    literal. *)
Section JsonStrict.

Lemma scan_atom_number_strict (s rest : string) (x : json) :
  json_decoder.scan_number s = Some (x, rest) ->
  json_strict.scan_atom s = Some (x, rest).
Proof.
  intros H. unfold json_strict.scan_atom, json_decoder.scan_literal.
  assert (Hi : exists i r, json_decoder.match_integer s = Some (i, r)).
  { unfold json_decoder.scan_number in H.
    destruct (json_decoder.match_integer s) as [[i r]|]; [eauto|].
    discriminate. }
  destruct Hi as [i [r Hi]].
  destruct (match_integer_first _ _ _ Hi) as [c [r' [-> Hc]]].
  assert (Hn : Ascii.eqb "n" c = false /\ Ascii.eqb "t" c = false
               /\ Ascii.eqb "f" c = false).
  { destruct Hc as [-> | Hc]; [auto|].
    repeat split; apply Ascii.eqb_neq; intros <-; discriminate. }
  destruct Hn as [Hn [Ht Hf]].
  cbn [Str.strip_prefix]. rewrite Hn, Ht, Hf, H. reflexivity.
Qed.

Lemma scan_once_number_strict (f : nat) (s rest : string) (x : json) :
  json_decoder.scan_number s = Some (x, rest) ->
  json_strict.scan_once (S f) s = Some (x, rest).
Proof.
  intros H. pose proof (scan_atom_number_strict _ _ _ H) as Ha.
  unfold json_decoder.scan_number in H.
  destruct (json_decoder.match_integer s) as [[i r]|] eqn:Hi;
    [|discriminate].
  destruct (match_integer_first _ _ _ Hi) as [c [r' [-> Hc]]].
  cbn [json_strict.scan_once].
  assert (Hq : Ascii.eqb c Str.dquote = false /\ Ascii.eqb c "{" = false
               /\ Ascii.eqb c "[" = false).
  { destruct Hc as [-> | Hc]; [auto|].
    repeat split; apply Ascii.eqb_neq; intros ->; discriminate. }
  destruct Hq as [-> [-> ->]]. exact Ha.
Qed.

Lemma scan_once_float_strict (r R : string) (f : nat) :
  float_repr_ok r = true ->
  finite_value (VFloat r) = true ->
  starts_with_delimiter R = true ->
  json_strict.scan_once (S f) (json_encoder.dumps_float r ++ R)
  = Some (JFloat (json_encoder.dumps_float r), R).
Proof.
  intros Hr Hfin HR. unfold float_repr_ok in Hr.
  unfold json_encoder.dumps_float. cbn [finite_value] in Hfin.
  destruct (String.eqb_spec r "nan") as [->|_]; [discriminate Hfin|].
  destruct (String.eqb_spec r "inf") as [->|_]; [discriminate Hfin|].
  destruct (String.eqb_spec r "-inf") as [->|_]; [discriminate Hfin|].
  cbn [orb] in Hr.
  destruct (json_decoder.scan_number r) as [[x rest]|] eqn:E;
    [|discriminate].
  destruct x; try discriminate. destruct rest; [|discriminate].
  apply String.eqb_eq in Hr. subst text.
  apply scan_once_number_strict.
  apply (scan_number_tail r EmptyString R _ HR E).
Qed.

Lemma array_loop_step_strict (f : nat) (s : string) (values : list json) :
  json_strict.array_loop (S f) s values
  = match json_strict.scan_once f s with
    | None => None
    | Some (value, r) =>
        match json_decoder.skip_ws r with
        | String c r1 =>
            if Ascii.eqb c "]" then Some (JList (rev (value :: values)), r1)
            else if Ascii.eqb c ","
            then json_strict.array_loop f (json_decoder.skip_ws r1)
                   (value :: values)
            else None
        | EmptyString => None
        end
    end.
Proof. reflexivity. Qed.

Lemma object_loop_step_strict (f : nat) (s : string)
    (pairs : list (string * json)) :
  json_strict.object_loop (S f) s pairs
  = match json_decoder.scanstring s with
    | None => None
    | Some (key, r) =>
        match json_decoder.skip_ws r with
        | String colon r1 =>
            if negb (Ascii.eqb colon ":") then None else
            match json_strict.scan_once f (json_decoder.skip_ws r1) with
            | None => None
            | Some (value, r2) =>
                match json_decoder.skip_ws r2 with
                | String c r3 =>
                    if Ascii.eqb c "}" then
                      Some (JDict (json_decoder.dict_of_pairs
                                     (rev ((key, value) :: pairs))), r3)
                    else if Ascii.eqb c "," then
                      match json_decoder.skip_ws r3 with
                      | String q r4 =>
                          if Ascii.eqb q Str.dquote
                          then json_strict.object_loop f r4
                                 ((key, value) :: pairs)
                          else None
                      | EmptyString => None
                      end
                    else None
                | EmptyString => None
                end
            end
        | EmptyString => None
        end
    end.
Proof. reflexivity. Qed.

Lemma scan_once_step_strict (f : nat) (c : ascii) (r : string) :
  json_strict.scan_once (S f) (String c r)
  = if Ascii.eqb c Str.dquote then
      match json_decoder.scanstring r with
      | Some (str, rest) => Some (JStr str, rest)
      | None => None
      end
    else if Ascii.eqb c "{" then
      match json_decoder.skip_ws r with
      | String c1 r1 =>
          if Ascii.eqb c1 "}" then Some (JDict [], r1)
          else if Ascii.eqb c1 Str.dquote
          then json_strict.object_loop f r1 []
          else None
      | EmptyString => None
      end
    else if Ascii.eqb c "[" then
      match json_decoder.skip_ws r with
      | String c1 r1 =>
          if Ascii.eqb c1 "]" then Some (JList [], r1)
          else json_strict.array_loop f (String c1 r1) []
      | EmptyString => None
      end
    else json_strict.scan_atom (String c r).
Proof. reflexivity. Qed.

Lemma array_loop_ints_strict (l : list Z) (z : Z) (values : list json)
    (R : string) (f : nat) :
  (2 * String.length (str_join ", " (map Str.of_Z (z :: l))
                      ++ String "]" R) + 1 <= f)%nat ->
  json_strict.array_loop f
    (str_join ", " (map Str.of_Z (z :: l)) ++ String "]" R) values
  = Some (JList (rev values ++ map JInt (z :: l)), R).
Proof.
  revert z values f.
  induction l as [|z' l IH]; intros z values f Hf.
  - cbn [map str_join] in *.
    destruct f as [|[|f]]; [lia | rewrite length_append in Hf;
      destruct (of_Z_first z) as [c [r [E _]]]; rewrite E in Hf;
      simpl in Hf; lia |].
    rewrite array_loop_step_strict.
    rewrite (scan_once_number_strict f _ _ _
               (scan_number_of_Z z (String "]" R) eq_refl)).
    reflexivity.
  - cbn [map] in *. rewrite str_join_cons in *.
    rewrite !append_assoc in *.
    set (next := str_join ", " (Str.of_Z z' :: map Str.of_Z l)
                 ++ String "]" R) in *.
    destruct f as [|[|f]]; [lia | rewrite length_append in Hf;
      destruct (of_Z_first z) as [c [r [E _]]]; rewrite E in Hf;
      simpl in Hf; lia |].
    rewrite array_loop_step_strict.
    rewrite (scan_once_number_strict f _ _ _
               (scan_number_of_Z z (", " ++ next) eq_refl)).
    assert (Hnext : json_decoder.skip_ws next = next).
    { subst next. cbn [str_join map].
      destruct (of_Z_first z') as [c [r [E Hc]]].
      destruct (map Str.of_Z l); rewrite ?append_assoc, E;
        apply skip_ws_not_ws, digit_not_ws; exact Hc. }
    assert (Hstep :
      json_strict.array_loop (S f) next (JInt z :: values)
      = Some (JList (rev values ++ JInt z :: JInt z' :: map JInt l), R)).
    { assert (Hfuel : (2 * String.length next + 1 <= S f)%nat).
      { rewrite (length_append (Str.of_Z z)) in Hf.
        rewrite (length_append ", ") in Hf.
        change (String.length ", ") with 2%nat in Hf. lia. }
      subst next. rewrite (IH z' (JInt z :: values) (S f) Hfuel).
      cbn [rev map]. rewrite <- app_assoc. reflexivity. }
    change (json_decoder.skip_ws (", " ++ next)) with (", " ++ next).
    cbn [append Ascii.eqb Bool.eqb].
    change (json_decoder.skip_ws (String " " next))
      with (json_decoder.skip_ws next).
    rewrite Hnext. exact Hstep.
Qed.

Lemma scan_once_value_strict (v : pyval) (R : string) (f : nat) :
  value_ok v = true ->
  finite_value v = true ->
  starts_with_delimiter R = true ->
  (2 * String.length (json_encoder.dumps_val v ++ R) <= f)%nat ->
  json_strict.scan_once f (json_encoder.dumps_val v ++ R)
  = Some (to_json v, R).
Proof.
  intros Hv Hfin HR Hf.
  assert (Hf2 : exists f', f = S (S f')).
  { destruct (dumps_val_first v Hv) as [c [r [E _]]].
    rewrite E in Hf. simpl in Hf.
    destruct f as [|[|f']]; [lia | lia | eauto]. }
  destruct Hf2 as [f' ->].
  destruct v as [|b|z|r|s|l]; cbn [json_encoder.dumps_val to_json].
  - reflexivity.
  - destruct b; reflexivity.
  - apply scan_once_number_strict, scan_number_of_Z, HR.
  - apply scan_once_float_strict; assumption.
  - unfold json_encoder.dumps_str. cbn [append].
    rewrite scan_once_step_strict, Ascii.eqb_refl, append_assoc.
    cbn [append]. rewrite scanstring_escape_ascii by exact Hv.
    reflexivity.
  - cbn [append]. rewrite scan_once_step_strict.
    cbn [Ascii.eqb Bool.eqb].
    change (Ascii.eqb "[" Str.dquote) with false. cbn iota.
    rewrite append_assoc.
    destruct l as [|z l].
    + reflexivity.
    + destruct (of_Z_first z) as [c [r [E Hc]]].
      assert (Hfirst : exists r',
        str_join ", " (map Str.of_Z (z :: l)) ++ String "]" R
        = String c r').
      { cbn [map str_join]. destruct (map Str.of_Z l);
          rewrite ?append_assoc, E; eexists; reflexivity. }
      destruct Hfirst as [r' Hfirst].
      assert (Hloop := array_loop_ints_strict l z [] R (S f')).
      cbn [json_encoder.dumps_val] in Hf.
      rewrite !append_assoc in Hf. cbn [append] in Hf.
      cbn [append]. rewrite Hfirst in *.
      rewrite (skip_ws_not_ws c r' (digit_not_ws c Hc)).
      replace (Ascii.eqb c "]") with false.
      * apply Hloop. cbn [String.length] in *. lia.
      * symmetry. destruct Hc as [-> | Hc]; [reflexivity|].
        apply Ascii.eqb_neq. intros ->. discriminate.
Qed.

Lemma object_loop_item_strict (k : string) (v : pyval) (tail : string)
    (pairs : list (string * json)) (f : nat) :
  utf8_valid k = true -> value_ok v = true -> finite_value v = true ->
  starts_with_delimiter tail = true ->
  (2 * String.length (json_encoder.dumps_val v ++ tail) <= f)%nat ->
  json_strict.object_loop (S f)
    (json_encoder.escape_ascii k
     ++ String Str.dquote (": " ++ json_encoder.dumps_val v ++ tail)) pairs
  = match tail with
    | String c r3 =>
        if Ascii.eqb c "}" then
          Some (JDict (json_decoder.dict_of_pairs
                         (rev ((k, to_json v) :: pairs))), r3)
        else if Ascii.eqb c "," then
          match json_decoder.skip_ws r3 with
          | String q r4 =>
              if Ascii.eqb q Str.dquote
              then json_strict.object_loop f r4 ((k, to_json v) :: pairs)
              else None
          | EmptyString => None
          end
        else None
    | EmptyString => None
    end.
Proof.
  intros Hk Hv Hfin Ht Hf.
  rewrite object_loop_step_strict, scanstring_escape_ascii by exact Hk.
  cbn [append]. rewrite (skip_ws_not_ws ":") by reflexivity.
  cbn [Ascii.eqb Bool.eqb negb].
  rewrite skip_ws_space, skip_ws_value by exact Hv.
  rewrite scan_once_value_strict by assumption.
  destruct tail as [|c r3]; [discriminate|].
  rewrite skip_ws_not_ws; [reflexivity|].
  simpl in Ht.
  destruct (Ascii.eqb_spec c ",") as [->|_]; [reflexivity|].
  destruct (Ascii.eqb_spec c "}") as [->|_]; [reflexivity|].
  destruct (Ascii.eqb_spec c "]") as [->|_]; [reflexivity|].
  discriminate.
Qed.

Lemma object_loop_items_strict (d : dict pyval) (k : string) (v : pyval)
    (pairs : list (string * json)) (R : string) (f : nat) :
  utf8_valid k = true -> value_ok v = true -> finite_value v = true ->
  forallb (fun kv => utf8_valid (fst kv) && value_ok (snd kv)
                     && finite_value (snd kv)) d = true ->
  (2 * String.length
         (json_encoder.escape_ascii k
          ++ String Str.dquote (": " ++ json_encoder.dumps_val v
                                ++ object_tail d R)) + 1 <= f)%nat ->
  json_strict.object_loop f
    (json_encoder.escape_ascii k
     ++ String Str.dquote (": " ++ json_encoder.dumps_val v
                           ++ object_tail d R)) pairs
  = Some (JDict (json_decoder.dict_of_pairs
                   (rev pairs
                    ++ (k, to_json v)
                    :: map (fun kv => (fst kv, to_json (snd kv))) d)),
          R).
Proof.
  revert k v pairs f.
  assert (Hfuel : forall k v tail f,
    (2 * String.length
           (json_encoder.escape_ascii k
            ++ String Str.dquote (": " ++ json_encoder.dumps_val v ++ tail))
     + 1 <= S f)%nat ->
    (2 * String.length (json_encoder.dumps_val v ++ tail) <= f)%nat).
  { intros k v tail f Hf.
    rewrite length_append in Hf. cbn [String.length] in Hf.
    rewrite (length_append ": ") in Hf.
    change (String.length ": ") with 2%nat in Hf. lia. }
  induction d as [|[k' v'] d IH]; intros k v pairs f Hk Hv Hfin Hd Hf;
    (destruct f as [|f]; [lia|]);
    pose proof (Hfuel _ _ _ _ Hf) as Hlen;
    rewrite object_loop_item_strict
      by (assumption || apply object_tail_delimiter).
  - reflexivity.
  - cbn [forallb fst snd] in Hd.
    apply andb_true_iff in Hd. destruct Hd as [Hkv Hd].
    apply andb_true_iff in Hkv. destruct Hkv as [Hkv Hfin'].
    apply andb_true_iff in Hkv. destruct Hkv as [Hk' Hv'].
    cbn [object_tail append Ascii.eqb Bool.eqb].
    rewrite skip_ws_space, (skip_ws_not_ws Str.dquote) by reflexivity.
    rewrite Ascii.eqb_refl.
    etransitivity;
      [apply (IH k' v' ((k, to_json v) :: pairs) f Hk' Hv' Hfin' Hd)|].
    + cbn [object_tail] in Hlen. rewrite length_append in Hlen.
      rewrite (length_append ", ") in Hlen.
      change (String.length ", ") with 2%nat in Hlen.
      cbn [String.length] in Hlen. lia.
    + cbn [rev map fst snd]. rewrite <- app_assoc. reflexivity.
Qed.

Lemma loads_dumps_strict (d : dict pyval) :
  NoDup (dict_keys d) ->
  forallb (fun kv => utf8_valid (fst kv) && value_ok (snd kv)
                     && finite_value (snd kv)) d = true ->
  json_strict.loads (json_encoder.dumps d) = Ok (dict_to_json d).
Proof.
  intros Hn Hd. unfold json_strict.loads, json_encoder.dumps.
  cbn [append]. rewrite (skip_ws_not_ws "{") by reflexivity.
  set (fuel := (2 * String.length _ + 2)%nat).
  destruct d as [|[k v] d].
  - reflexivity.
  - assert (Ef : fuel = S (2 * String.length
                                 (str_join ", "
                                    (map json_encoder.dumps_item
                                       ((k, v) :: d)) ++ "}") + 3))
      by (subst fuel; cbn [String.length]; lia).
    rewrite Ef. clear Ef fuel.
    rewrite scan_once_step_strict. cbn [Ascii.eqb Bool.eqb].
    change (Ascii.eqb "{" Str.dquote) with false. cbn iota.
    cbn [forallb fst snd] in Hd.
    apply andb_true_iff in Hd. destruct Hd as [Hkv Hd].
    apply andb_true_iff in Hkv. destruct Hkv as [Hkv Hfin].
    apply andb_true_iff in Hkv. destruct Hkv as [Hk Hv].
    rewrite (dumps_items_unfold d k v EmptyString).
    rewrite (skip_ws_not_ws Str.dquote) by reflexivity.
    change (Ascii.eqb Str.dquote "}") with false. cbn iota.
    rewrite Ascii.eqb_refl.
    rewrite (object_loop_items_strict d k v [] EmptyString) by
      (assumption || (cbn [String.length]; lia)).
    cbn [rev app json_decoder.skip_ws].
    rewrite dict_of_pairs_NoDup; [reflexivity|].
    unfold dict_keys in *. cbn [map fst] in *. rewrite map_map.
    cbn [fst]. exact Hn.
Qed.

End JsonStrict.


(* ================================================================== *)
(** * The extension object in the prompt *)

Section Tags.






End Tags.

Section Extension.

Lemma dict_get_set_inv {V : Type} (d : dict V) (k k' : string) (v v' : V) :
  dict_get (dict_set d k v) k' = Some v' ->
  k' = k \/ dict_get d k' = Some v'.
Proof.
  destruct (String.eqb_spec k k') as [->|Hk]; [auto|].
  rewrite dict_get_set_other by assumption. auto.
Qed.

Lemma dict_get_In {V : Type} (d : dict V) (k : string) (v : V) :
  NoDup (dict_keys d) -> In (k, v) d -> dict_get d k = Some v.
Proof.
  unfold dict_keys. induction d as [|[k0 v0] d IH]; simpl; [tauto|].
  intros Hn [H | H].
  - injection H as -> ->. rewrite String.eqb_refl. reflexivity.
  - apply NoDup_cons_iff in Hn. destruct Hn as [Hk Hn].
    destruct (String.eqb_spec k0 k) as [->|_]; [|auto].
    exfalso. apply Hk. apply in_map_iff. exists (k, v). auto.
Qed.

(** The keys of the extension object are taken from the fixed list, or
    are [width] or [height]. *)
Lemma extension_data_keys (gen_opts : dict pyval) (k : string) (v : pyval) :
  dict_get (extension_data gen_opts) k = Some v ->
  In k (extension_keys ++ ["width"; "height"])%list.
Proof.
  assert (Hcopy : forall v,
    dict_get (copy_extension_keys gen_opts) k = Some v ->
    In k (extension_keys ++ ["width"; "height"])%list).
  { intros v0. rewrite copy_extension_keys_get.
    destruct (existsb (String.eqb k) extension_keys) eqn:E;
      [|discriminate].
    intros _. apply existsb_exists in E. destruct E as [x [Hx E]].
    apply String.eqb_eq in E. subst x. apply in_or_app. auto. }
  unfold extension_data, payload_parts.
  destruct (py_truthy (py_get gen_opts "width")
            && py_truthy (py_get gen_opts "height")); cbn [snd];
    [apply Hcopy|].
  destruct (py_truthy (py_get gen_opts "width")); cbn [snd].
  { intros H. apply dict_get_set_inv in H. destruct H as [-> | H];
      [apply in_or_app; right; simpl; auto | eapply Hcopy; eauto]. }
  destruct (py_truthy (py_get gen_opts "height")); cbn [snd];
    [|apply Hcopy].
  intros H. apply dict_get_set_inv in H. destruct H as [-> | H];
    [apply in_or_app; right; simpl; auto | eapply Hcopy; eauto].
Qed.

Lemma extension_data_ok (gen_opts : dict pyval) :
  forallb (fun kv => value_ok (snd kv)) (extension_data gen_opts) = true ->
  forallb (fun kv => utf8_valid (fst kv) && value_ok (snd kv))
    (extension_data gen_opts) = true.
Proof.
  intros H. rewrite forallb_forall in *. intros [k v] Hin.
  rewrite (H _ Hin), andb_true_r. cbn [fst].
  pose proof (dict_get_In _ _ _ (extension_data_NoDup gen_opts) Hin) as Hg.
  apply extension_data_keys in Hg.
  assert (Hall : forallb utf8_valid
                   (extension_keys ++ ["width"; "height"])%list = true)
    by (vm_compute; reflexivity).
  rewrite forallb_forall in Hall. apply Hall. exact Hg.
Qed.

Lemma prompt_of_payload (gen_opts : dict pyval) (util_opts : UtilOpts) :
  dict_get (build_openai_payload gen_opts util_opts) "prompt"
  = Some (VStr (user_prompt gen_opts ++ open_tag
                ++ json_encoder.dumps (extension_data gen_opts)
                ++ close_tag)).
Proof.
  unfold build_openai_payload, extension_data, user_prompt.
  destruct (payload_parts gen_opts) as [api ext]. cbn [snd].
  apply dict_get_set_same.
Qed.

Lemma extension_data_finite (gen_opts : dict pyval) :
  forallb (fun kv => value_ok (snd kv) && finite_value (snd kv))
    (extension_data gen_opts) = true ->
  forallb (fun kv => utf8_valid (fst kv) && value_ok (snd kv)
                     && finite_value (snd kv))
    (extension_data gen_opts) = true.
Proof.
  intros H.
  assert (Hv : forallb (fun kv => value_ok (snd kv))
                 (extension_data gen_opts) = true).
  { apply forallb_forall. intros kv Hin.
    pose proof (proj1 (forallb_forall _ _) H kv Hin) as Hkv.
    apply andb_prop in Hkv. apply Hkv. }
  pose proof (extension_data_ok gen_opts Hv) as Hk.
  apply forallb_forall. intros kv Hin.
  pose proof (proj1 (forallb_forall _ _) H kv Hin) as Hkv.
  pose proof (proj1 (forallb_forall _ _) Hk kv Hin) as Hkk.
  cbv beta in Hkv, Hkk.
  apply andb_prop in Hkv. destruct Hkv as [_ Hf]. rewrite Hkk, Hf.
  reflexivity.
Qed.

(** C7, as the code has it.  The field [prompt] of the payload is the
    user prompt (the empty text when there is none), the opening tag, the
    text [json.dumps] writes for the extension object and the closing
    tag, in this order; the text between the tags is [{}] when the
    extension object is empty, and [json.loads] reads the extension
    object back from it.  It is valid JSON when no float of the
    extension object is [nan] or infinite: for these [json.dumps] writes
    [NaN], [Infinity] and [-Infinity], which are no JSON. *)
Theorem prompt_field (gen_opts : dict pyval) (util_opts : UtilOpts) :
  dict_get (build_openai_payload gen_opts util_opts) "prompt"
  = Some (VStr (user_prompt gen_opts ++ "<sd_cpp_extra_args>"
                ++ json_encoder.dumps (extension_data gen_opts)
                ++ "</sd_cpp_extra_args>")) /\
  (dict_get gen_opts "prompt" = None -> user_prompt gen_opts = "") /\
  (forall p, dict_get gen_opts "prompt" = Some (VStr p) ->
             user_prompt gen_opts = p) /\
  (extension_data gen_opts = [] ->
   json_encoder.dumps (extension_data gen_opts) = "{}") /\
  (forallb (fun kv => value_ok (snd kv)) (extension_data gen_opts) = true ->
   json_decoder.loads (json_encoder.dumps (extension_data gen_opts))
   = Ok (dict_to_json (extension_data gen_opts))) /\
  (forallb (fun kv => value_ok (snd kv) && finite_value (snd kv))
     (extension_data gen_opts) = true ->
   valid_json (json_encoder.dumps (extension_data gen_opts)) = true).
Proof.
  split; [apply prompt_of_payload|].
  unfold user_prompt, py_get_default.
  split; [intros ->; reflexivity|].
  split; [intros p ->; reflexivity|].
  split; [intros ->; reflexivity|].
  split.
  - intros H. apply loads_dumps.
    + apply extension_data_NoDup.
    + apply extension_data_ok. exact H.
  - intros H. unfold valid_json.
    rewrite (loads_dumps_strict (extension_data gen_opts)).
    + reflexivity.
    + apply extension_data_NoDup.
    + apply extension_data_finite. exact H.
Qed.

Lemma prompt_field_witness :
  user_prompt [("seed", VInt 7); ("cfg_scale", VFloat "7.5")] = "" /\
  json_decoder.loads
    (json_encoder.dumps
       (extension_data [("seed", VInt 7); ("cfg_scale", VFloat "7.5")]))
  = Ok (dict_to_json
          (extension_data [("seed", VInt 7); ("cfg_scale", VFloat "7.5")]))
  /\ valid_json
       (json_encoder.dumps
          (extension_data [("seed", VInt 7); ("cfg_scale", VFloat "7.5")]))
     = true.
Proof.
  pose proof (prompt_field [("seed", VInt 7); ("cfg_scale", VFloat "7.5")]
                (util None None)) as H.
  destruct H as [_ [H1 [_ [_ [H2 H3]]]]].
  split; [exact (H1 eq_refl)|].
  split; [exact (H2 eq_refl)|exact (H3 eq_refl)].
Defined.

(** C7 as stated fails: with [--cfg-scale nan] the text between the
    tags is [{"cfg_scale": NaN}], which is no JSON. *)
Lemma nan_between_the_tags_is_not_json :
  dict_get (build_openai_payload [("cfg_scale", VFloat "nan")]
              (util None None)) "prompt"
  = Some (VStr ("<sd_cpp_extra_args>" ++ Str.quoted "{'cfg_scale': NaN}"
                ++ "</sd_cpp_extra_args>"))
  /\ valid_json (Str.quoted "{'cfg_scale': NaN}") = false
  /\ json_decoder.loads (Str.quoted "{'cfg_scale': NaN}")
     = Ok (JDict [("cfg_scale", JFloat "NaN")]).
Proof. repeat split. Qed.

Example prompt_with_empty_extension :
  build_openai_payload [("prompt", VStr "a cat")] (util None None)
  = [("prompt", VStr "a cat<sd_cpp_extra_args>{}</sd_cpp_extra_args>")].
Proof. reflexivity. Qed.




End Extension.


(* ================================================================== *)
(** * The fuel of the JSON scanner is enough *)

Section JsonFuel.

Lemma skip_ws_length (s : string) :
  (String.length (json_decoder.skip_ws s) <= String.length s)%nat.
Proof.
  induction s as [|c s IH]; simpl; [lia|].
  destruct (json_decoder.is_ws c); simpl; lia.
Qed.

Lemma low_surrogate_length (hi cp : N) (s r : string) :
  json_decoder.low_surrogate hi s = Some (cp, r) ->
  String.length s = (6 + String.length r)%nat.
Proof.
  unfold json_decoder.low_surrogate.
  destruct s as [|b [|u [|g1 [|g2 [|g3 [|g4 r']]]]]]; try discriminate.
  destruct (Ascii.eqb b "\" && Ascii.eqb u "u"); [|discriminate].
  destruct (json_decoder.hex4 g1 g2 g3 g4); [|discriminate].
  destruct (_ && _)%bool; [|discriminate].
  intros H. injection H as _ <-. reflexivity.
Qed.

(** Every scanner consumes at least one character. *)
Lemma scanstring_progress (s str r : string) :
  json_decoder.scanstring s = Some (str, r) ->
  (String.length r < String.length s)%nat.
Proof.
  remember (String.length s) as k eqn:Hk.
  assert (Hlen : (String.length s <= k)%nat) by lia.
  rewrite Hk. clear Hk. revert s str r Hlen.
  induction k as [|k IH]; intros s str r Hlen.
  - destruct s; [discriminate | simpl in Hlen; lia].
  - destruct s as [|c s]; [discriminate|].
    cbn [json_decoder.scanstring]. simpl String.length in *.
    destruct (Ascii.eqb c Str.dquote).
    { intros H. injection H as _ <-. lia. }
    destruct (Ascii.eqb c "\").
    + destruct s as [|e r1]; [discriminate|].
      destruct (Ascii.eqb e "u").
      * destruct r1 as [|h1 [|h2 [|h3 [|h4 r2]]]]; try discriminate.
        destruct (json_decoder.hex4 h1 h2 h3 h4) as [uni|];
          [|discriminate].
        destruct (if ((55296 <=? uni) && (uni <=? 56319))%N
                  then json_decoder.low_surrogate uni r2 else None)
          as [[joined r3]|] eqn:Ep.
        -- destruct r2 as [|x1 [|x2 [|x3 [|x4 [|x5 [|x6 r3']]]]]];
             try discriminate.
           destruct (json_decoder.scanstring r3') as [[str' rest]|] eqn:E;
             [|discriminate].
           intros H. injection H as _ <-.
           apply IH in E; simpl in *; lia.
        -- destruct (json_decoder.scanstring r2) as [[str' rest]|] eqn:E;
             [|discriminate].
           intros H. injection H as _ <-.
           apply IH in E; simpl in *; lia.
      * destruct (json_decoder.backslash e); [|discriminate].
        destruct (json_decoder.scanstring r1) as [[str' rest]|] eqn:E;
          [|discriminate].
        intros H. injection H as _ <-.
        apply IH in E; simpl in *; lia.
    + destruct (N_of_ascii c <? 32)%N; [discriminate|].
      destruct (json_decoder.scanstring s) as [[str' rest]|] eqn:E;
        [|discriminate].
      intros H. injection H as _ <-.
      apply IH in E; lia.
Qed.

Lemma span_digits_length (s ds rest : string) :
  span_digits s = (ds, rest) ->
  String.length s = (String.length ds + String.length rest)%nat.
Proof.
  revert ds rest. induction s as [|c s IH]; intros ds rest; simpl.
  - intros H. injection H as <- <-. reflexivity.
  - destruct (Str.is_digit c).
    + destruct (span_digits s) as [ds' rest'].
      intros H. injection H as <- <-. simpl. rewrite (IH _ _ eq_refl). lia.
    + intros H. injection H as <- <-. reflexivity.
Qed.

Lemma strip_prefix_length (p s rest : string) :
  Str.strip_prefix p s = Some rest ->
  String.length s = (String.length p + String.length rest)%nat.
Proof.
  revert s. induction p as [|a p IH]; intros s; simpl.
  - intros H. injection H as <-. reflexivity.
  - destruct s as [|b s]; [discriminate|].
    destruct (Ascii.eqb a b); [|discriminate].
    intros H. simpl. rewrite (IH _ H). reflexivity.
Qed.

Lemma scan_number_progress (s r : string) (v : json) :
  json_decoder.scan_number s = Some (v, r) ->
  (String.length r < String.length s)%nat.
Proof.
  unfold json_decoder.scan_number.
  destruct (json_decoder.match_integer s) as [[i r1]|] eqn:Ei;
    [|discriminate].
  assert (H1 : (String.length r1 < String.length s)%nat).
  { unfold json_decoder.match_integer in Ei.
    assert (Hbody : forall sign s1,
      match s1 with
      | String c r =>
          if Ascii.eqb c "0" then Some (sign ++ "0", r)
          else if Str.is_digit c
               then let (ds, rest0) := span_digits s1 in
                    Some (sign ++ ds, rest0)
               else None
      | EmptyString => None
      end = Some (i, r1) ->
      (String.length r1 < String.length s1)%nat).
    { intros sign s1. destruct s1 as [|c r0]; [discriminate|].
      destruct (Ascii.eqb c "0").
      - intros H. injection H as _ <-. simpl. lia.
      - destruct (Str.is_digit c) eqn:Ec; [|discriminate].
        destruct (span_digits (String c r0)) as [ds rest0] eqn:E.
        intros H. injection H as _ <-.
        pose proof (span_digits_length _ _ _ E) as Hl.
        simpl in E. rewrite Ec in E.
        destruct (span_digits r0). injection E as <- _.
        simpl in Hl. simpl. lia. }
    destruct s as [|c r0]; [discriminate|].
    destruct (Ascii.eqb c "-").
    - apply Hbody in Ei. simpl. lia.
    - apply (Hbody EmptyString (String c r0)) in Ei. exact Ei. }
  destruct (json_decoder.match_frac r1) as [fr r2] eqn:Ef.
  assert (H2 : (String.length r2 <= String.length r1)%nat).
  { unfold json_decoder.match_frac in Ef.
    destruct r1 as [|c r0]; [injection Ef as _ <-; lia|].
    destruct (Ascii.eqb c ".").
    - destruct (span_digits r0) as [ds rest0] eqn:E.
      apply span_digits_length in E.
      destruct (Str.is_empty ds); injection Ef as _ <-; simpl; lia.
    - injection Ef as _ <-. lia. }
  destruct (json_decoder.match_exp r2) as [ex r3] eqn:Ee.
  assert (H3 : (String.length r3 <= String.length r2)%nat).
  { unfold json_decoder.match_exp in Ee.
    destruct r2 as [|e r0]; [injection Ee as _ <-; lia|].
    destruct (Ascii.eqb e "e" || Ascii.eqb e "E").
    - assert (Hsign : forall (sign r1' : string),
        (String.length r1' <= String.length r0)%nat ->
        (let (ds, rest0) := span_digits r1' in
         if Str.is_empty ds then (EmptyString, String e r0)
         else (String e (sign ++ ds), rest0)) = (ex, r3) ->
        (String.length r3 <= String.length (String e r0))%nat).
      { intros sign r1' Hle. destruct (span_digits r1') as [ds rest0] eqn:E.
        apply span_digits_length in E.
        destruct (Str.is_empty ds); intros H; injection H as _ <-;
          simpl; lia. }
      destruct r0 as [|c r0'].
      + apply (Hsign EmptyString EmptyString) in Ee; [exact Ee | lia].
      + destruct (Ascii.eqb c "-");
          [apply Hsign in Ee; [exact Ee | simpl; lia]|].
        destruct (Ascii.eqb c "+");
          [apply Hsign in Ee; [exact Ee | simpl; lia]|].
        apply (Hsign EmptyString (String c r0')) in Ee; [exact Ee | lia].
    - injection Ee as _ <-. lia. }
  destruct (_ && _)%bool; intros H; injection H as _ <-; lia.
Qed.

Lemma scan_atom_progress (s r : string) (v : json) :
  json_decoder.scan_atom s = Some (v, r) ->
  (String.length r < String.length s)%nat.
Proof.
  unfold json_decoder.scan_atom, json_decoder.scan_literal.
  repeat match goal with
         | |- context [Str.strip_prefix ?lit s] =>
             let E := fresh "E" in
             destruct (Str.strip_prefix lit s) eqn:E;
             [apply strip_prefix_length in E; intros H;
              injection H as _ <-; simpl in E; lia|]
         | |- context [json_decoder.scan_number s] =>
             let E := fresh "E" in
             destruct (json_decoder.scan_number s) as [[? ?]|] eqn:E;
             [apply scan_number_progress in E; intros H;
              injection H as _ <-; exact E|]
         end.
  discriminate.
Qed.

Ltac skip_ws_cases r c r1 :=
  let E := fresh "Ews" in
  let L := fresh "Lws" in
  pose proof (skip_ws_length r) as L;
  destruct (json_decoder.skip_ws r) as [|c r1] eqn:E;
  [try discriminate | cbn [String.length] in L].

Lemma scan_once_progress (f : nat) :
  (forall s v r, json_decoder.scan_once f s = Some (v, r) ->
                 (String.length r < String.length s)%nat) /\
  (forall s values v r,
     json_decoder.array_loop f s values = Some (v, r) ->
     (String.length r < String.length s)%nat) /\
  (forall s pairs v r,
     json_decoder.object_loop f s pairs = Some (v, r) ->
     (String.length r < String.length s)%nat).
Proof.
  induction f as [|f [IHs [IHa IHo]]].
  - repeat split; intros; discriminate.
  - repeat split.
    + intros s v r. destruct s as [|c r0]; [discriminate|].
      rewrite scan_once_step. cbn [String.length].
      destruct (Ascii.eqb c Str.dquote).
      { destruct (json_decoder.scanstring r0) as [[str rest]|] eqn:E;
          [|discriminate].
        apply scanstring_progress in E.
        intros H. injection H as _ <-. lia. }
      destruct (Ascii.eqb c "{").
      { skip_ws_cases r0 c1 r1.
        destruct (Ascii.eqb c1 "}");
          [intros H; injection H as _ <-; lia|].
        destruct (Ascii.eqb c1 Str.dquote); [|discriminate].
        intros H. apply IHo in H. lia. }
      destruct (Ascii.eqb c "[").
      { skip_ws_cases r0 c1 r1.
        destruct (Ascii.eqb c1 "]");
          [intros H; injection H as _ <-; lia|].
        intros H. apply IHa in H. cbn [String.length] in H. lia. }
      intros H. apply scan_atom_progress in H. exact H.
    + intros s values v r. rewrite array_loop_step.
      destruct (json_decoder.scan_once f s) as [[value r']|] eqn:E;
        [|discriminate].
      apply IHs in E.
      skip_ws_cases r' c r1.
      destruct (Ascii.eqb c "]"); [intros H; injection H as _ <-; lia|].
      destruct (Ascii.eqb c ","); [|discriminate].
      intros H. apply IHa in H.
      pose proof (skip_ws_length r1) as Lr1. lia.
    + intros s pairs v r. rewrite object_loop_step.
      destruct (json_decoder.scanstring s) as [[key r']|] eqn:E;
        [|discriminate].
      apply scanstring_progress in E.
      skip_ws_cases r' colon r1.
      destruct (negb (Ascii.eqb colon ":")); [discriminate|].
      destruct (json_decoder.scan_once f (json_decoder.skip_ws r1))
        as [[value r2]|] eqn:E2; [|discriminate].
      apply IHs in E2. pose proof (skip_ws_length r1) as Lr1.
      skip_ws_cases r2 c r3.
      destruct (Ascii.eqb c "}"); [intros Hx; injection Hx as _ <-; lia|].
      destruct (Ascii.eqb c ","); [|discriminate].
      skip_ws_cases r3 q r4.
      destruct (Ascii.eqb q Str.dquote); [|discriminate].
      intros Hx. apply IHo in Hx. lia.
Qed.

(** Above two units of fuel per character the result does not depend
    on the fuel. *)
Lemma scan_once_fuel (f : nat) :
  (forall s f', (2 * String.length s <= f)%nat -> (f <= f')%nat ->
                json_decoder.scan_once f s = json_decoder.scan_once f' s) /\
  (forall s values f',
     (2 * String.length s + 1 <= f)%nat -> (f <= f')%nat ->
     json_decoder.array_loop f s values
     = json_decoder.array_loop f' s values) /\
  (forall s pairs f',
     (2 * String.length s + 1 <= f)%nat -> (f <= f')%nat ->
     json_decoder.object_loop f s pairs
     = json_decoder.object_loop f' s pairs).
Proof.
  induction f as [|f [IHs [IHa IHo]]].
  - repeat split.
    + intros s f' Hs _. destruct s; [|simpl in Hs; lia].
      destruct f'; reflexivity.
    + intros; lia.
    + intros; lia.
  - repeat split.
    + intros s f' Hs Hf. destruct f' as [|f']; [lia|].
      destruct s as [|c r0]; [reflexivity|].
      rewrite !scan_once_step. cbn [String.length] in Hs.
      destruct (Ascii.eqb c Str.dquote); [reflexivity|].
      destruct (Ascii.eqb c "{").
      { skip_ws_cases r0 c1 r1; [reflexivity|].
        destruct (Ascii.eqb c1 "}"); [reflexivity|].
        destruct (Ascii.eqb c1 Str.dquote); [|reflexivity].
        apply IHo; lia. }
      destruct (Ascii.eqb c "[").
      { skip_ws_cases r0 c1 r1; [reflexivity|].
        destruct (Ascii.eqb c1 "]"); [reflexivity|].
        apply IHa; cbn [String.length]; lia. }
      reflexivity.
    + intros s values f' Hs Hf. destruct f' as [|f']; [lia|].
      rewrite !array_loop_step.
      rewrite (IHs s f') by lia.
      destruct (json_decoder.scan_once f' s) as [[value r']|] eqn:E;
        [|reflexivity].
      rewrite <- (IHs s f') in E by lia.
      apply (proj1 (scan_once_progress f)) in E.
      skip_ws_cases r' c r1; [reflexivity|].
      destruct (Ascii.eqb c "]"); [reflexivity|].
      destruct (Ascii.eqb c ","); [|reflexivity].
      pose proof (skip_ws_length r1) as Lr1. apply IHa; lia.
    + intros s pairs f' Hs Hf. destruct f' as [|f']; [lia|].
      rewrite !object_loop_step.
      destruct (json_decoder.scanstring s) as [[key r']|] eqn:E;
        [|reflexivity].
      apply scanstring_progress in E.
      skip_ws_cases r' colon r1; [reflexivity|].
      destruct (negb (Ascii.eqb colon ":")); [reflexivity|].
      pose proof (skip_ws_length r1) as Lr1.
      rewrite (IHs (json_decoder.skip_ws r1) f') by lia.
      destruct (json_decoder.scan_once f' (json_decoder.skip_ws r1))
        as [[value r2]|] eqn:E2; [|reflexivity].
      rewrite <- (IHs (json_decoder.skip_ws r1) f') in E2 by lia.
      apply (proj1 (scan_once_progress f)) in E2.
      skip_ws_cases r2 c r3; [reflexivity|].
      destruct (Ascii.eqb c "}"); [reflexivity|].
      destruct (Ascii.eqb c ","); [|reflexivity].
      skip_ws_cases r3 q r4; [reflexivity|].
      destruct (Ascii.eqb q Str.dquote); [|reflexivity].
      apply IHo; lia.
Qed.

(** More fuel keeps a result. *)
Lemma scan_once_mono (f : nat) :
  (forall s f' x, (f <= f')%nat ->
     json_decoder.scan_once f s = Some x ->
     json_decoder.scan_once f' s = Some x) /\
  (forall s values f' x, (f <= f')%nat ->
     json_decoder.array_loop f s values = Some x ->
     json_decoder.array_loop f' s values = Some x) /\
  (forall s pairs f' x, (f <= f')%nat ->
     json_decoder.object_loop f s pairs = Some x ->
     json_decoder.object_loop f' s pairs = Some x).
Proof.
  induction f as [|f [IHs [IHa IHo]]].
  - repeat split; intros; discriminate.
  - repeat split.
    + intros s f' x Hf. destruct f' as [|f']; [lia|].
      destruct s as [|c r0]; [discriminate|].
      rewrite !scan_once_step.
      destruct (Ascii.eqb c Str.dquote); [auto|].
      destruct (Ascii.eqb c "{").
      { destruct (json_decoder.skip_ws r0) as [|c1 r1]; [auto|].
        destruct (Ascii.eqb c1 "}"); [auto|].
        destruct (Ascii.eqb c1 Str.dquote); [|auto].
        apply IHo. lia. }
      destruct (Ascii.eqb c "[").
      { destruct (json_decoder.skip_ws r0) as [|c1 r1]; [auto|].
        destruct (Ascii.eqb c1 "]"); [auto|].
        apply IHa. lia. }
      auto.
    + intros s values f' x Hf. destruct f' as [|f']; [lia|].
      rewrite !array_loop_step.
      destruct (json_decoder.scan_once f s) as [[value r']|] eqn:E;
        [|discriminate].
      rewrite (IHs s f' _ ltac:(lia) E).
      destruct (json_decoder.skip_ws r') as [|c r1]; [auto|].
      destruct (Ascii.eqb c "]"); [auto|].
      destruct (Ascii.eqb c ","); [|auto].
      apply IHa. lia.
    + intros s pairs f' x Hf. destruct f' as [|f']; [lia|].
      rewrite !object_loop_step.
      destruct (json_decoder.scanstring s) as [[key r']|]; [|auto].
      destruct (json_decoder.skip_ws r') as [|colon r1]; [auto|].
      destruct (negb (Ascii.eqb colon ":")); [auto|].
      destruct (json_decoder.scan_once f (json_decoder.skip_ws r1))
        as [[value r2]|] eqn:E2; [|discriminate].
      rewrite (IHs _ f' _ ltac:(lia) E2).
      destruct (json_decoder.skip_ws r2) as [|c r3]; [auto|].
      destruct (Ascii.eqb c "}"); [auto|].
      destruct (Ascii.eqb c ","); [|auto].
      destruct (json_decoder.skip_ws r3) as [|q r4]; [auto|].
      destruct (Ascii.eqb q Str.dquote); [|auto].
      apply IHo. lia.
Qed.

(** [json.loads] accepts a text exactly when the scanner reads one
    value and nothing but white space after it, with some fuel. *)
Theorem loads_iff (s : string) (v : json) :
  json_decoder.loads s = Ok v <->
  exists f r,
    json_decoder.scan_once f (json_decoder.skip_ws s) = Some (v, r) /\
    json_decoder.skip_ws r = EmptyString.
Proof.
  unfold json_decoder.loads. split.
  - destruct (json_decoder.scan_once _ _) as [[obj rest]|] eqn:E;
      [|discriminate].
    destruct (json_decoder.skip_ws rest) eqn:Er; [|discriminate].
    intros H. injection H as <-. eauto.
  - intros [f [r [Hs Hr]]].
    set (bound := (2 * String.length s + 2)%nat).
    assert (Hb : json_decoder.scan_once bound (json_decoder.skip_ws s)
                 = Some (v, r)).
    { pose proof (skip_ws_length s) as Hl.
      rewrite (proj1 (scan_once_fuel bound) _ (Nat.max f bound))
        by (subst bound; lia).
      apply (proj1 (scan_once_mono f) _ _ _ (Nat.le_max_l f bound) Hs). }
    rewrite Hb, Hr. reflexivity.
Qed.

End JsonFuel.


(* ================================================================== *)
(** * The decoder reads every standard base64 text *)

Section Base64.

Local Open Scope N_scope.

Lemma byte_N_bounded (b : byte) : byte_N b < 256.
Proof. apply ascii_bounded. Qed.

Lemma to_byte_byte_N (b : byte) : base64.to_byte (byte_N b) = b.
Proof.
  unfold base64.to_byte, byte_N.
  rewrite N.mod_small by apply ascii_bounded.
  rewrite ascii_N_embedding. apply byte_of_ascii_of_byte.
Qed.

Lemma sextet_checked (v : N) : v < 64 -> sextet_check v = true.
Proof.
  apply (forall_below 64 sextet_check). vm_compute. reflexivity.
Qed.

Lemma pair_checked (x y : N) :
  x < 256 -> y < 256 -> pair_check x y = true.
Proof.
  intros Hx Hy.
  assert (H : pairs_check x = true).
  { apply (forall_below 256 pairs_check); [vm_compute; reflexivity|exact Hx]. }
  apply (forall_below 256 (pair_check x)); [exact H|exact Hy].
Qed.

(** The facts of a pair of bytes that the proofs use. *)
Lemma pair_facts (x y : N) :
  x < 256 -> y < 256 ->
  sextet_1 x < 64 /\ sextet_2 x y < 64 /\ sextet_3 x y < 64
  /\ sextet_4 x < 64
  /\ N.lor (N.shiftl (sextet_1 x) 2) (N.shiftr (sextet_2 x y) 4) mod 256 = x
  /\ N.land (sextet_2 x y) 15 = N.shiftr y 4
  /\ N.lor (N.shiftl (N.shiftr x 4) 4) (N.shiftr (sextet_3 x y) 2) mod 256
     = x
  /\ N.land (sextet_3 x y) 3 = N.shiftr y 6
  /\ N.lor (N.shiftl (N.shiftr x 6) 6) (sextet_4 x) mod 256 = x.
Proof.
  intros Hx Hy. pose proof (pair_checked x y Hx Hy) as H.
  unfold pair_check in H.
  repeat (apply andb_prop in H; destruct H as [H ?]).
  repeat match goal with
         | E : (_ <? _) = true |- _ => apply N.ltb_lt in E
         | E : (_ =? _) = true |- _ => apply N.eqb_eq in E
         end.
  tauto.
Qed.

(** One step of the loop on a character of the alphabet. *)
Lemma a2b_loop_sextet (v : N) (rest : string) (quad_pos leftchar pads : N)
    (bin_data : bytes) :
  v < 64 ->
  base64.a2b_loop (String (b2a_char v) rest) quad_pos leftchar pads bin_data
  = if quad_pos =? 0 then base64.a2b_loop rest 1 v 0 bin_data
    else if quad_pos =? 1 then
      base64.a2b_loop rest 2 (N.land v 15) 0
        (base64.to_byte (N.lor (N.shiftl leftchar 2) (N.shiftr v 4))
         :: bin_data)
    else if quad_pos =? 2 then
      base64.a2b_loop rest 3 (N.land v 3) 0
        (base64.to_byte (N.lor (N.shiftl leftchar 4) (N.shiftr v 2))
         :: bin_data)
    else
      base64.a2b_loop rest 0 0 0
        (base64.to_byte (N.lor (N.shiftl leftchar 6) v) :: bin_data).
Proof.
  intros Hv. pose proof (sextet_checked v Hv) as H.
  unfold sextet_check in H.
  destruct (base64.table_a2b_base64 (b2a_char v)) as [w|] eqn:Et;
    [|discriminate].
  apply andb_prop in H. destruct H as [H _].
  apply andb_prop in H. destruct H as [Hw Hp].
  apply N.eqb_eq in Hw. subst w.
  apply negb_true_iff in Hp.
  cbn [base64.a2b_loop]. rewrite Hp, Et. reflexivity.
Qed.

Lemma is_ascii_sextet (v : N) (rest : string) :
  v < 64 ->
  base64.is_ascii (String (b2a_char v) rest) = base64.is_ascii rest.
Proof.
  intros Hv. pose proof (sextet_checked v Hv) as H.
  unfold sextet_check in H.
  destruct (base64.table_a2b_base64 (b2a_char v)); [|discriminate].
  apply andb_prop in H. destruct H as [_ H].
  cbn [base64.is_ascii]. rewrite H. reflexivity.
Qed.

Lemma to_byte_mod (n : N) (b : byte) :
  n mod 256 = byte_N b -> base64.to_byte n = b.
Proof.
  intros H. rewrite <- (to_byte_byte_N b). unfold base64.to_byte.
  rewrite H. rewrite N.mod_small by apply byte_N_bounded. reflexivity.
Qed.

(** The first two characters of a group give back its first byte. *)
Lemma a2b_loop_two (b0 : byte) (y : N) (rest : string) (bin_data : bytes) :
  y < 256 ->
  base64.a2b_loop
    (String (b2a_char (sextet_1 (byte_N b0)))
       (String (b2a_char (sextet_2 (byte_N b0) y)) rest)) 0 0 0 bin_data
  = base64.a2b_loop rest 2 (N.shiftr y 4) 0 (b0 :: bin_data).
Proof.
  intros Hy.
  destruct (pair_facts (byte_N b0) y (byte_N_bounded b0) Hy)
    as (H1 & H2 & _ & _ & E1 & E2 & _).
  rewrite (a2b_loop_sextet _ _ _ _ _ _ H1). cbn [N.eqb].
  rewrite (a2b_loop_sextet _ _ _ _ _ _ H2).
  change (1 =? 0) with false. change (1 =? 1) with true. cbv iota.
  rewrite E2. rewrite (to_byte_mod _ b0 E1). reflexivity.
Qed.

(** The third character gives back the second byte. *)
Lemma a2b_loop_third (b1 : byte) (z : N) (rest : string) (bin_data : bytes) :
  z < 256 ->
  base64.a2b_loop (String (b2a_char (sextet_3 (byte_N b1) z)) rest)
    2 (N.shiftr (byte_N b1) 4) 0 bin_data
  = base64.a2b_loop rest 3 (N.shiftr z 6) 0 (b1 :: bin_data).
Proof.
  intros Hz.
  destruct (pair_facts (byte_N b1) z (byte_N_bounded b1) Hz)
    as (_ & _ & H3 & _ & _ & _ & E3 & E4 & _).
  rewrite (a2b_loop_sextet _ _ _ _ _ _ H3).
  change (2 =? 0) with false. change (2 =? 1) with false.
  change (2 =? 2) with true. cbv iota.
  rewrite E4. rewrite (to_byte_mod _ b1 E3). reflexivity.
Qed.

(** The fourth character gives back the third byte. *)
Lemma a2b_loop_fourth (b2 : byte) (rest : string) (bin_data : bytes) :
  base64.a2b_loop (String (b2a_char (sextet_4 (byte_N b2))) rest)
    3 (N.shiftr (byte_N b2) 6) 0 bin_data
  = base64.a2b_loop rest 0 0 0 (b2 :: bin_data).
Proof.
  destruct (pair_facts (byte_N b2) 0 (byte_N_bounded b2) eq_refl)
    as (_ & _ & _ & H4 & _ & _ & _ & _ & E5).
  rewrite (a2b_loop_sextet _ _ _ _ _ _ H4).
  change (3 =? 0) with false. change (3 =? 1) with false.
  change (3 =? 2) with false. cbv iota.
  rewrite (to_byte_mod _ b2 E5). reflexivity.
Qed.

Lemma a2b_loop_b64encode (n : nat) :
  forall (data bin_data : bytes),
    (List.length data <= n)%nat ->
    base64.a2b_loop (b64encode data) 0 0 0 bin_data
    = Ok (rev bin_data ++ data)%list.
Proof.
  induction n as [n IH] using lt_wf_ind. intros data bin_data Hn.
  destruct data as [|b0 [|b1 [|b2 rest]]]; cbn [b64encode].
  - cbn. rewrite app_nil_r. reflexivity.
  - rewrite (a2b_loop_two b0 0 _ _ eq_refl). reflexivity.
  - rewrite (a2b_loop_two b0 (byte_N b1) _ _ (byte_N_bounded b1)).
    rewrite (a2b_loop_third b1 0 _ _ eq_refl). cbn.
    rewrite <- app_assoc. reflexivity.
  - rewrite (a2b_loop_two b0 (byte_N b1) _ _ (byte_N_bounded b1)).
    rewrite (a2b_loop_third b1 (byte_N b2) _ _ (byte_N_bounded b2)).
    rewrite a2b_loop_fourth.
    cbn [List.length] in Hn.
    rewrite (IH (List.length rest)) by lia.
    cbn [rev]. rewrite <- !app_assoc. reflexivity.
Qed.

Lemma is_ascii_b64encode (n : nat) :
  forall data : bytes,
    (List.length data <= n)%nat ->
    base64.is_ascii (b64encode data) = true.
Proof.
  induction n as [n IH] using lt_wf_ind. intros data Hn.
  destruct data as [|b0 [|b1 [|b2 rest]]]; cbn [b64encode].
  - reflexivity.
  - destruct (pair_facts (byte_N b0) 0 (byte_N_bounded b0) eq_refl)
      as (H1 & H2 & _).
    rewrite (is_ascii_sextet _ _ H1), (is_ascii_sextet _ _ H2).
    reflexivity.
  - destruct (pair_facts (byte_N b0) (byte_N b1) (byte_N_bounded b0)
                (byte_N_bounded b1)) as (H1 & H2 & _).
    destruct (pair_facts (byte_N b1) 0 (byte_N_bounded b1) eq_refl)
      as (_ & _ & H3 & _).
    rewrite (is_ascii_sextet _ _ H1), (is_ascii_sextet _ _ H2),
      (is_ascii_sextet _ _ H3).
    reflexivity.
  - destruct (pair_facts (byte_N b0) (byte_N b1) (byte_N_bounded b0)
                (byte_N_bounded b1)) as (H1 & H2 & _).
    destruct (pair_facts (byte_N b1) (byte_N b2) (byte_N_bounded b1)
                (byte_N_bounded b2)) as (_ & _ & H3 & _).
    destruct (pair_facts (byte_N b2) 0 (byte_N_bounded b2) eq_refl)
      as (_ & _ & _ & H4 & _).
    rewrite (is_ascii_sextet _ _ H1), (is_ascii_sextet _ _ H2),
      (is_ascii_sextet _ _ H3), (is_ascii_sextet _ _ H4).
    cbn [List.length] in Hn. apply (IH (List.length rest)); lia.
Qed.

(** X14.  The base64 decoder reads the standard encoding back: decoding
    the text [b64encode] writes for a buffer gives the buffer, whatever
    its length and its bytes. *)
Theorem b64decode_b64encode (data : bytes) :
  base64.b64decode (b64encode data) = Ok data.
Proof.
  unfold base64.b64decode, base64.a2b_base64.
  rewrite (is_ascii_b64encode (List.length data)) by lia.
  rewrite (a2b_loop_b64encode (List.length data)) by lia.
  reflexivity.
Qed.

Lemma b64encode_nonempty (b : byte) (data : bytes) :
  b64encode (b :: data) <> EmptyString.
Proof. destruct data as [|b1 [|b2 rest]]; discriminate. Qed.

(** X16.  A response whose records carry the standard base64 encodings
    of images that are not empty decodes to these images, in order. *)
Theorem decode_encoded_images (body : string) (d : dict json)
    (records : list json) (images : list bytes) :
  json_decoder.loads body = Ok (JDict d) ->
  dict_get d "data" = Some (JList records) ->
  Forall2
    (fun record image =>
       exists rd,
         record = JDict rd /\
         dict_get rd "b64_json" = Some (JStr (b64encode image)) /\
         image <> [])
    records images ->
  decode_openai_response body = Ok images.
Proof.
  intros Hl Hd Hall.
  rewrite (decode_openai_response_records _ _ _ Hl Hd).
  clear Hl Hd. generalize 0%nat.
  induction Hall as [|r img records images Hr _ IH]; intros i.
  - reflexivity.
  - destruct Hr as [rd [-> [Hg Hne]]].
    cbn [decode_loop].
    rewrite (decode_item_valid i rd (b64encode img) img Hg).
    + simpl. rewrite IH. reflexivity.
    + destruct img as [|b img]; [congruence|apply b64encode_nonempty].
    + unfold base64.b64decode, base64.a2b_base64.
      rewrite (is_ascii_b64encode (List.length img)) by lia.
      rewrite (a2b_loop_b64encode (List.length img)) by lia.
      reflexivity.
Qed.

Lemma decode_encoded_images_witness :
  decode_openai_response
    (Str.quoted "{'data':[{'b64_json':'aGVsbG8='},{'b64_json':'aGk='}]}")
  = Ok [list_byte_of_string "hello"; list_byte_of_string "hi"].
Proof.
  apply (decode_encoded_images _
           [("data", JList [JDict [("b64_json", JStr "aGVsbG8=")];
                            JDict [("b64_json", JStr "aGk=")]])]
           [JDict [("b64_json", JStr "aGVsbG8=")];
            JDict [("b64_json", JStr "aGk=")]]);
    [reflexivity | reflexivity |].
  constructor; [|constructor; [|constructor]].
  - exists [("b64_json", JStr "aGVsbG8=")].
    repeat split; discriminate.
  - exists [("b64_json", JStr "aGk=")].
    repeat split; discriminate.
Defined.

Lemma a2b_loop_filter (s : string) :
  forall (quad_pos leftchar pads : N) (bin_data : bytes),
    base64.a2b_loop (b64_filter s) quad_pos leftchar pads bin_data
    = base64.a2b_loop s quad_pos leftchar pads bin_data.
Proof.
  induction s as [|c s IH]; intros quad_pos leftchar pads bin_data;
    [reflexivity|].
  cbn [b64_filter]. unfold b64_significant.
  destruct (Ascii.eqb c "=") eqn:Ep; cbn [orb].
  - cbn [base64.a2b_loop]. rewrite Ep.
    destruct (2 <=? quad_pos); [|apply IH].
    destruct (4 <=? quad_pos + (pads + 1)); [reflexivity|apply IH].
  - destruct (base64.table_a2b_base64 c) as [v|] eqn:Et.
    + cbn [base64.a2b_loop]. rewrite Ep, Et.
      destruct (quad_pos =? 0); [apply IH|].
      destruct (quad_pos =? 1); [apply IH|].
      destruct (quad_pos =? 2); apply IH.
    + rewrite IH. cbn [base64.a2b_loop]. rewrite Ep, Et. reflexivity.
Qed.

Lemma is_ascii_filter (s : string) :
  base64.is_ascii s = true -> base64.is_ascii (b64_filter s) = true.
Proof.
  induction s as [|c s IH]; [reflexivity|].
  cbn [base64.is_ascii b64_filter]. intros H.
  apply andb_prop in H. destruct H as [Hc Hs].
  destruct (b64_significant c); [|exact (IH Hs)].
  cbn [base64.is_ascii]. rewrite Hc. exact (IH Hs).
Qed.

(** X15.  The base64 decoder skips what it does not know: in a text of
    ASCII characters, every character that is neither of the base64
    alphabet nor the padding character (a space, a line break, an
    exclamation mark) is ignored, so that the text decodes as the text
    without these characters does. *)
Theorem b64decode_ignores_other_characters (s : string) :
  base64.is_ascii s = true ->
  base64.b64decode s = base64.b64decode (b64_filter s).
Proof.
  intros H. unfold base64.b64decode, base64.a2b_base64.
  rewrite H, (is_ascii_filter s H). symmetry. apply a2b_loop_filter.
Qed.

Lemma b64decode_ignores_other_characters_witness :
  base64.b64decode (String.append "aGVs" (String.append newline "bG8= !"))
  = base64.b64decode "aGVsbG8=".
Proof.
  apply (b64decode_ignores_other_characters
           (String.append "aGVs" (String.append newline "bG8= !"))).
  reflexivity.
Defined.

End Base64.


(* ================================================================== *)
(** * The layer lists *)

Section Layers.

Lemma digits_value_acc (d : Decimal.uint) (acc : positive) :
  digits_value (N.pos acc) (NilEmpty.string_of_uint d)
  = N.pos (Pos.of_uint_acc d acc).
Proof.
  revert acc. induction d; intros acc; cbn [NilEmpty.string_of_uint
    digits_value Pos.of_uint_acc]; try reflexivity;
    rewrite <- IHd; f_equal;
    match goal with
    | |- context [N_of_ascii ?c] =>
        let v := eval vm_compute in (N_of_ascii c - 48)%N in
        change (N_of_ascii c - 48)%N with v
    end; lia.
Qed.

Lemma digits_value_of_uint (d : Decimal.uint) :
  digits_value 0%N (NilEmpty.string_of_uint d) = N.of_uint d.
Proof.
  unfold N.of_uint.
  induction d; cbn [NilEmpty.string_of_uint digits_value Pos.of_uint];
    try reflexivity; try exact IHd;
    match goal with
    | |- context [N_of_ascii ?c] =>
        let v := eval vm_compute in (10 * 0 + (N_of_ascii c - 48))%N in
        change (10 * 0 + (N_of_ascii c - 48))%N with v
    end; apply digits_value_acc.
Qed.

Lemma digits_value_to_uint (n : N) :
  digits_value 0%N (NilEmpty.string_of_uint (N.to_uint n)) = n.
Proof. rewrite digits_value_of_uint. apply DecimalN.Unsigned.of_to. Qed.

Lemma is_digit_facts (c : ascii) :
  Str.is_digit c = true ->
  is_space c = false /\ Ascii.eqb c "_" = false /\ Ascii.eqb c "+" = false
  /\ Ascii.eqb c "-" = false /\ Ascii.eqb c "," = false
  /\ (N_of_ascii c <? 128)%N = true.
Proof.
  destruct c as [[] [] [] [] [] [] [] []]; cbv; intros H;
    try discriminate H; repeat split.
Qed.

Lemma span_int_body_digits (s : string) :
  all_digits s = true -> span_int_body s = (s, EmptyString).
Proof.
  induction s as [|c r IH]; [reflexivity|]. cbn [all_digits span_int_body].
  intros H. apply andb_prop in H. destruct H as [Hc Hr].
  rewrite Hc, (IH Hr). reflexivity.
Qed.

Lemma underscores_ok_digits (s : string) :
  all_digits s = true -> underscores_ok false s = true.
Proof.
  induction s as [|c r IH]; [reflexivity|]. cbn [all_digits underscores_ok].
  intros H. apply andb_prop in H. destruct H as [Hc Hr].
  destruct (is_digit_facts c Hc) as (_ & -> & _). exact (IH Hr).
Qed.

Lemma drop_underscores_digits (s : string) :
  all_digits s = true -> drop_underscores s = s.
Proof.
  induction s as [|c r IH]; [reflexivity|]. cbn [all_digits drop_underscores].
  intros H. apply andb_prop in H. destruct H as [Hc Hr].
  destruct (is_digit_facts c Hc) as (_ & -> & _). rewrite (IH Hr).
  reflexivity.
Qed.

Lemma is_ascii_digits (s : string) :
  all_digits s = true -> base64.is_ascii s = true.
Proof.
  induction s as [|c r IH]; [reflexivity|]. cbn [all_digits base64.is_ascii].
  intros H. apply andb_prop in H. destruct H as [Hc Hr].
  destruct (is_digit_facts c Hc) as (_ & _ & _ & _ & _ & ->). exact (IH Hr).
Qed.

Lemma no_comma_digits (s : string) :
  all_digits s = true -> Str.contains_char "," s = false.
Proof.
  induction s as [|c r IH]; [reflexivity|].
  cbn [all_digits Str.contains_char].
  intros H. apply andb_prop in H. destruct H as [Hc Hr].
  destruct (is_digit_facts c Hc) as (_ & _ & _ & _ & -> & _). exact (IH Hr).
Qed.

(** [int] reads the decimal text of an integer back. *)
Lemma py_int_of_Z (z : Z) : py_int (Str.of_Z z) = Some (Ok z).
Proof.
  rewrite of_Z_sign_digits.
  set (ds := NilEmpty.string_of_uint (N.to_uint (Z.abs_N z))).
  assert (Hd : all_digits ds = true) by apply all_digits_string_of_uint.
  assert (Hne : ds <> EmptyString) by apply string_of_uint_nonempty.
  assert (Hv : digits_value 0%N ds = Z.abs_N z)
    by apply digits_value_to_uint.
  clearbody ds.
  assert (Hbody : span_int_body ds = (ds, EmptyString))
    by apply span_int_body_digits, Hd.
  assert (Hdrop : drop_underscores ds = ds)
    by apply drop_underscores_digits, Hd.
  assert (Hasc : base64.is_ascii ds = true) by apply is_ascii_digits, Hd.
  destruct ds as [|c r]; [congruence|].
  cbn [all_digits] in Hd. apply andb_prop in Hd. destruct Hd as [Hc Hr].
  destruct (is_digit_facts c Hc) as (Hs & Hu & Hp & Hm & _ & Ha).
  assert (Hok : underscores_ok true (String c r) = true).
  { cbn [underscores_ok]. rewrite Hu. apply underscores_ok_digits, Hr. }
  assert (Hstrip : lstrip_space (String c r) = String c r).
  { cbn [lstrip_space]. rewrite Hs. reflexivity. }
  unfold py_int. destruct (z <? 0) eqn:Ez; cbn [append].
  - assert (Hx : base64.is_ascii (String "-" (String c r)) = true).
    { change (base64.is_ascii (String "-" (String c r)))
        with (base64.is_ascii (String c r)). exact Hasc. }
    rewrite Hx.
    change (lstrip_space (String "-" (String c r)))
      with (String "-" (String c r)).
    cbn [negb]. cbv iota zeta. rewrite Hbody, Hok. cbn [all_space andb].
    rewrite Hdrop, Hv. do 2 f_equal. apply Z.ltb_lt in Ez. lia.
  - rewrite Hasc, Hstrip. cbn [negb]. cbv zeta.
    assert (Hsign :
      match String c r with
      | String "+" r0 => (false, r0)
      | String "-" r0 => (true, r0)
      | _ => (false, String c r)
      end = (false, String c r)).
    { apply Ascii.eqb_neq in Hp. apply Ascii.eqb_neq in Hm.
      destruct c as [[] [] [] [] [] [] [] []]; try reflexivity;
        congruence. }
    rewrite Hsign, Hbody, Hok. cbn [all_space andb].
    rewrite Hdrop, Hv. do 2 f_equal. apply Z.ltb_ge in Ez. lia.
Qed.

Lemma py_split_nonempty (c : ascii) (s : string) : py_split c s <> [].
Proof.
  destruct s as [|a r]; cbn [py_split]; [discriminate|].
  destruct (Ascii.eqb a c); [discriminate|].
  destruct (py_split c r); discriminate.
Qed.

Lemma py_split_no_sep (c : ascii) (x : string) :
  Str.contains_char c x = false -> py_split c x = [x].
Proof.
  induction x as [|a r IH]; [reflexivity|].
  cbn [Str.contains_char py_split]. intros H.
  apply orb_false_iff in H. destruct H as [Ha Hr].
  rewrite Ha, (IH Hr). reflexivity.
Qed.

Lemma py_split_app (c : ascii) (x r : string) :
  Str.contains_char c x = false ->
  py_split c (x ++ String c r) = x :: py_split c r.
Proof.
  induction x as [|a x IH]; cbn [append Str.contains_char py_split].
  - intros _. rewrite Ascii.eqb_refl. reflexivity.
  - intros H. apply orb_false_iff in H. destruct H as [Ha Hx].
    rewrite Ha, (IH Hx). reflexivity.
Qed.

Lemma py_split_join (c : ascii) (x : string) (l : list string) :
  Forall (fun y => Str.contains_char c y = false) (x :: l) ->
  py_split c (str_join (String c EmptyString) (x :: l)) = x :: l.
Proof.
  revert x. induction l as [|y l IH]; intros x H.
  - cbn [str_join]. apply py_split_no_sep. inversion H; assumption.
  - rewrite str_join_cons. cbn [append].
    inversion H as [|? ? Hx Hl]; subst.
    rewrite (py_split_app c x _ Hx), (IH y Hl). reflexivity.
Qed.

Lemma py_split_length (c : ascii) (s : string) :
  List.length (py_split c s) = S (count_char c s).
Proof.
  induction s as [|a r IH]; [reflexivity|]. cbn [py_split count_char].
  destruct (Ascii.eqb a c).
  - cbn [List.length]. rewrite IH. reflexivity.
  - destruct (py_split c r) as [|x l] eqn:E.
    + exfalso. exact (py_split_nonempty c r E).
    + cbn [List.length] in *. rewrite IH. reflexivity.
Qed.

Lemma py_split_ascii (c : ascii) (s : string) :
  base64.is_ascii s = true ->
  Forall (fun x => base64.is_ascii x = true) (py_split c s).
Proof.
  induction s as [|a r IH]; cbn [base64.is_ascii py_split].
  - intros _. repeat constructor.
  - intros H. apply andb_prop in H. destruct H as [Ha Hr].
    specialize (IH Hr). destruct (Ascii.eqb a c).
    + constructor; [reflexivity|exact IH].
    + destruct (py_split c r) as [|x l]; constructor.
      * cbn [base64.is_ascii]. rewrite Ha. reflexivity.
      * constructor.
      * cbn [base64.is_ascii]. rewrite Ha.
        inversion IH; subst. assumption.
      * inversion IH; assumption.
Qed.

Lemma ints_of_map_of_Z (l : list Z) :
  ints_of (map Str.of_Z l) = Some (Ok l).
Proof.
  induction l as [|z l IH]; [reflexivity|].
  cbn [map ints_of]. rewrite py_int_of_Z, IH. reflexivity.
Qed.

Lemma ints_of_length (l : list string) (zs : list Z) :
  ints_of l = Some (Ok zs) -> List.length zs = List.length l.
Proof.
  revert zs. induction l as [|x l IH]; intros zs; cbn [ints_of].
  - intros H. injection H as <-. reflexivity.
  - destruct (py_int x) as [[z|e]|]; try discriminate.
    destruct (ints_of l) as [[zs'|e]|]; try discriminate.
    intros H. injection H as <-. cbn [List.length].
    rewrite (IH zs' eq_refl). reflexivity.
Qed.

Lemma of_Z_no_comma (z : Z) : Str.contains_char "," (Str.of_Z z) = false.
Proof.
  rewrite of_Z_sign_digits.
  pose proof (no_comma_digits _
    (all_digits_string_of_uint (N.to_uint (Z.abs_N z)))) as H.
  destruct (z <? 0); cbn [append Str.contains_char]; [|exact H].
  rewrite H. reflexivity.
Qed.

Lemma span_int_body_has_digit (s : string) :
  underscores_ok true (fst (span_int_body s)) = true -> has_digit s = true.
Proof.
  destruct s as [|c r]; cbn [span_int_body has_digit].
  - intros H. discriminate H.
  - destruct (Str.is_digit c) eqn:Ed; [reflexivity|]. cbn [orb].
    destruct (Ascii.eqb c "_") eqn:Eu.
    + destruct (span_int_body r) as [body rest]. cbn [fst underscores_ok].
      rewrite Eu. intros H. discriminate H.
    + intros H. discriminate H.
Qed.

Lemma has_digit_lstrip_space (s : string) :
  has_digit (lstrip_space s) = true -> has_digit s = true.
Proof.
  induction s as [|c r IH]; cbn [lstrip_space has_digit]; [auto|].
  destruct (is_space c); [|auto].
  intros H. rewrite (IH H). apply orb_true_r.
Qed.

(** A text without a digit is no integer. *)
Lemma py_int_no_digit (x : string) :
  base64.is_ascii x = true -> has_digit x = false ->
  py_int x = Some (Raise (invalid_literal x)).
Proof.
  intros Ha Hd. unfold py_int. rewrite Ha. cbn [negb].
  assert (Hs : has_digit (lstrip_space x) = false).
  { destruct (has_digit (lstrip_space x)) eqn:E; [|reflexivity].
    rewrite (has_digit_lstrip_space x E) in Hd. discriminate Hd. }
  set (s := lstrip_space x) in *. clearbody s.
  assert (Hsign : forall negative s1,
            match s with
            | String "+" r => (false, r)
            | String "-" r => (true, r)
            | _ => (false, s)
            end = (negative, s1) -> has_digit s1 = false).
  { intros negative s1 E. destruct s as [|c r]; [injection E as _ <-; exact Hs|].
    cbn [has_digit] in Hs. apply orb_false_iff in Hs. destruct Hs as [Hc Hr].
    destruct c as [[] [] [] [] [] [] [] []]; injection E as _ <-;
      try exact Hr; cbn [has_digit]; rewrite Hc, Hr; reflexivity. }
  destruct (match s with
            | String "+" r => (false, r)
            | String "-" r => (true, r)
            | _ => (false, s)
            end) as [negative s1] eqn:E.
  specialize (Hsign negative s1 eq_refl).
  destruct (span_int_body s1) as [body rest] eqn:Eb.
  destruct (underscores_ok true body) eqn:Eok; [|reflexivity].
  pose proof (span_int_body_has_digit s1) as H. rewrite Eb in H.
  rewrite (H Eok) in Hsign. discriminate Hsign.
Qed.

Lemma py_int_ascii (x : string) :
  base64.is_ascii x = true ->
  py_int x = Some (Raise (invalid_literal x))
  \/ exists z, py_int x = Some (Ok z).
Proof.
  intros Hx. unfold py_int. rewrite Hx. cbn [negb].
  destruct (lstrip_space x) as [|c r];
    repeat match goal with
           | |- context [let (_, _) := ?e in _] => destruct e
           | |- context [if ?b then _ else _] => destruct b
           end; eauto.
Qed.

(** On texts of ASCII characters the comprehension gives the integers
    of all of them, or raises for the first that is none. *)
Lemma ints_of_ascii (l : list string) :
  Forall (fun x => base64.is_ascii x = true) l ->
  (exists zs, ints_of l = Some (Ok zs)
              /\ Forall2 (fun x z => py_int x = Some (Ok z)) l zs)
  \/ (exists x, In x l /\ ints_of l = Some (Raise (invalid_literal x))).
Proof.
  induction 1 as [|x l Hx _ IH].
  - left. exists []. split; [reflexivity|constructor].
  - cbn [ints_of]. destruct (py_int_ascii x Hx) as [Hp|[z Hp]]; rewrite Hp.
    + right. exists x. split; [left; reflexivity|reflexivity].
    + destruct IH as [[zs [E F]]|[y [Hy E]]]; rewrite E.
      * left. exists (z :: zs). split; [reflexivity|].
        constructor; assumption.
      * right. exists y. split; [right; exact Hy|reflexivity].
Qed.

(** X1.  The conversion of a layer option reads back the list that was
    written: for a list of integers that is not empty, the decimal texts
    of its elements joined by commas are converted to the list. *)
Theorem convert_layers_round_trip (l : list Z) :
  l <> [] ->
  convert_layers (str_join "," (map Str.of_Z l)) = Some (Ok l).
Proof.
  intros Hl. unfold convert_layers.
  destruct l as [|z l]; [congruence|]. cbn [map].
  rewrite (py_split_join "," (Str.of_Z z) (map Str.of_Z l)).
  - apply (ints_of_map_of_Z (z :: l)).
  - change (Forall (fun y => Str.contains_char "," y = false)
              (map Str.of_Z (z :: l))).
    apply Forall_forall. intros y Hy. apply in_map_iff in Hy.
    destruct Hy as [a [<- _]]. apply of_Z_no_comma.
Qed.

Lemma convert_layers_round_trip_witness :
  convert_layers (str_join "," (map Str.of_Z [7; 8; 9]))
  = Some (Ok [7; 8; 9]).
Proof. apply (convert_layers_round_trip [7; 8; 9]). discriminate. Defined.

(** X2.  A converted layer option holds one integer per text between
    commas: one more than the option has commas, so the list is never
    empty. *)
Theorem convert_layers_count (s : string) (l : list Z) :
  convert_layers s = Some (Ok l) ->
  List.length l = S (count_char "," s) /\ l <> [].
Proof.
  unfold convert_layers. intros H.
  pose proof (ints_of_length _ _ H) as Hlen.
  rewrite py_split_length in Hlen. split; [exact Hlen|].
  intros ->. discriminate Hlen.
Qed.

Lemma convert_layers_count_witness :
  List.length [7; 8; 9] = S (count_char "," "7,8,9") /\ [7; 8; 9] <> [].
Proof. apply (convert_layers_count "7,8,9" [7; 8; 9]). reflexivity. Defined.

(** X3.  A layer option of ASCII characters in which some text between
    commas holds no digit (an empty text, as after a trailing comma or
    for the empty option) is not converted: [int] raises [ValueError]
    for one of the texts, which leaves [parse_arguments]. *)
Theorem convert_layers_blank_segment (s x : string) :
  base64.is_ascii s = true ->
  In x (py_split "," s) ->
  has_digit x = false ->
  exists y, In y (py_split "," s)
            /\ convert_layers s = Some (Raise (invalid_literal y)).
Proof.
  intros Ha Hin Hd. unfold convert_layers.
  pose proof (py_split_ascii "," s Ha) as Hall.
  destruct (ints_of_ascii _ Hall) as [[zs [_ F]]|[y [Hy E]]].
  - exfalso.
    assert (Hx : exists z, py_int x = Some (Ok z)).
    { clear -F Hin. induction F as [|a z l zs Haz _ IH];
        [contradiction|].
      destruct Hin as [<-|Hin]; [exists z; exact Haz|exact (IH Hin)]. }
    destruct Hx as [z Hz].
    rewrite py_int_no_digit in Hz; [discriminate Hz| |exact Hd].
    rewrite Forall_forall in Hall. exact (Hall x Hin).
  - exists y. split; assumption.
Qed.

Lemma convert_layers_blank_segment_witness :
  exists y, In y (py_split "," "7,8,")
            /\ convert_layers "7,8," = Some (Raise (invalid_literal y)).
Proof.
  apply (convert_layers_blank_segment "7,8," "");
    [reflexivity | right; right; left; reflexivity | reflexivity].
Defined.

Lemma convert_layer_option_frame (args_dict args' : dict pyval)
    (arg : string) :
  convert_layer_option args_dict arg = Some (Ok args') ->
  dict_keys args' = dict_keys args_dict
  /\ forall k, k <> arg -> dict_get args' k = dict_get args_dict k.
Proof.
  unfold convert_layer_option, py_get.
  destruct (dict_get args_dict arg) as [v|] eqn:Eg.
  - destruct v; try discriminate.
    + intros H. injection H as <-. split; reflexivity.
    + destruct (convert_layers s) as [[l|e]|]; try discriminate.
      intros H. injection H as <-. split.
      * rewrite dict_keys_set. unfold dict_has. rewrite Eg. reflexivity.
      * intros k Hk. apply dict_get_set_other. congruence.
  - intros H. injection H as <-. split; reflexivity.
Qed.

(** X4.  The conversion of the layer options changes nothing else:
    when it succeeds the dictionary has the same keys in the same order,
    and every key other than [skip_layers] and [high_noise_skip_layers]
    keeps its value. *)
Theorem convert_layer_options_frame (args_dict args' : dict pyval) :
  convert_layer_options args_dict = Some (Ok args') ->
  dict_keys args' = dict_keys args_dict
  /\ forall k, k <> "skip_layers" -> k <> "high_noise_skip_layers" ->
               dict_get args' k = dict_get args_dict k.
Proof.
  unfold convert_layer_options.
  destruct (convert_layer_option args_dict "skip_layers")
    as [[d1|e]|] eqn:E1; try discriminate.
  intros E2.
  destruct (convert_layer_option_frame _ _ _ E1) as [K1 G1].
  destruct (convert_layer_option_frame _ _ _ E2) as [K2 G2].
  split; [congruence|].
  intros k H1 H2. rewrite (G2 k H2). exact (G1 k H1).
Qed.

Lemma convert_layer_options_frame_witness :
  dict_keys [("seed", VInt 7); ("skip_layers", VInts [7; 8])]
  = dict_keys [("seed", VInt 7); ("skip_layers", VStr "7,8")]
  /\ forall k, k <> "skip_layers" -> k <> "high_noise_skip_layers" ->
               dict_get [("seed", VInt 7); ("skip_layers", VInts [7; 8])] k
               = dict_get [("seed", VInt 7); ("skip_layers", VStr "7,8")] k.
Proof.
  apply (convert_layer_options_frame
           [("seed", VInt 7); ("skip_layers", VStr "7,8")]).
  reflexivity.
Defined.

End Layers.


(* ================================================================== *)
(** * More on the payload encoder *)

Section PayloadMore.

Lemma payload_parts_keys (gen_opts : dict pyval) :
  dict_keys (fst (payload_parts gen_opts))
  = ((if py_truthy (py_get gen_opts "width")
         && py_truthy (py_get gen_opts "height")
      then ["size"] else [])
     ++ (if py_truthy (py_get gen_opts "output_format")
         then ["output_format"] else [])
     ++ (if py_truthy (py_get gen_opts "batch_count")
         then ["n"] else []))%list.
Proof.
  unfold payload_parts.
  destruct (py_truthy (py_get gen_opts "width"));
    destruct (py_truthy (py_get gen_opts "height"));
    destruct (py_truthy (py_get gen_opts "output_format"));
    destruct (py_truthy (py_get gen_opts "batch_count")); reflexivity.
Qed.

Lemma payload_parts_n (gen_opts : dict pyval) :
  dict_get (fst (payload_parts gen_opts)) "n"
  = if py_truthy (py_get gen_opts "batch_count")
    then Some (py_get gen_opts "batch_count") else None.
Proof.
  unfold payload_parts.
  destruct (py_truthy (py_get gen_opts "width"));
    destruct (py_truthy (py_get gen_opts "height"));
    destruct (py_truthy (py_get gen_opts "output_format"));
    destruct (py_truthy (py_get gen_opts "batch_count")); reflexivity.
Qed.

Lemma payload_parts_size (gen_opts : dict pyval) :
  dict_get (fst (payload_parts gen_opts)) "size"
  = if py_truthy (py_get gen_opts "width")
       && py_truthy (py_get gen_opts "height")
    then Some (VStr (py_str (py_get gen_opts "width") ++ "x"
                     ++ py_str (py_get gen_opts "height")))
    else None.
Proof.
  unfold payload_parts.
  destruct (py_truthy (py_get gen_opts "width"));
    destruct (py_truthy (py_get gen_opts "height"));
    destruct (py_truthy (py_get gen_opts "output_format"));
    destruct (py_truthy (py_get gen_opts "batch_count")); reflexivity.
Qed.

(** X5.  The field [n] of the payload is the batch count when one is
    given and is not zero; a batch count of zero, like none at all, sends
    no [n]. *)
Theorem batch_count_field (gen_opts : dict pyval) (util_opts : UtilOpts) :
  dict_get (build_openai_payload gen_opts util_opts) "n"
  = (if py_truthy (py_get gen_opts "batch_count")
     then Some (py_get gen_opts "batch_count") else None)
  /\ (forall n, dict_get gen_opts "batch_count" = Some (VInt n) ->
                dict_get (build_openai_payload gen_opts util_opts) "n"
                = if n =? 0 then None else Some (VInt n))
  /\ (dict_get gen_opts "batch_count" = None ->
      dict_get (build_openai_payload gen_opts util_opts) "n" = None).
Proof.
  assert (H : dict_get (build_openai_payload gen_opts util_opts) "n"
              = if py_truthy (py_get gen_opts "batch_count")
                then Some (py_get gen_opts "batch_count") else None).
  { rewrite build_openai_payload_get by discriminate.
    apply payload_parts_n. }
  split; [exact H|]. split.
  - intros n Hn. rewrite H. unfold py_get. rewrite Hn. cbn [py_truthy].
    destruct (n =? 0); reflexivity.
  - intros Hn. rewrite H. unfold py_get. rewrite Hn. reflexivity.
Qed.

Lemma batch_count_field_witness :
  dict_get (build_openai_payload [("batch_count", VInt 0)] (util None None))
    "n" = None
  /\ dict_get (build_openai_payload [("batch_count", VInt 4)]
                 (util None None)) "n" = Some (VInt 4)
  /\ dict_get (build_openai_payload [] (util None None)) "n" = None.
Proof.
  split; [|split].
  - exact (proj1 (proj2 (batch_count_field [("batch_count", VInt 0)]
                           (util None None))) 0 eq_refl).
  - exact (proj1 (proj2 (batch_count_field [("batch_count", VInt 4)]
                           (util None None))) 4 eq_refl).
  - exact (proj2 (proj2 (batch_count_field [] (util None None))) eq_refl).
Defined.

Lemma build_openai_payload_keys (gen_opts : dict pyval)
    (util_opts : UtilOpts) :
  dict_keys (build_openai_payload gen_opts util_opts)
  = (dict_keys (fst (payload_parts gen_opts)) ++ ["prompt"])%list.
Proof.
  unfold build_openai_payload.
  destruct (payload_parts gen_opts) as [api_data extension] eqn:E.
  pose proof (payload_parts_keys gen_opts) as K. rewrite E in K.
  cbn [fst] in *. rewrite dict_keys_set.
  replace (dict_has api_data "prompt") with false; [reflexivity|].
  symmetry. apply not_true_is_false. intros Hin.
  apply dict_has_In in Hin. rewrite K in Hin.
  destruct (py_truthy (py_get gen_opts "width")
            && py_truthy (py_get gen_opts "height"));
    destruct (py_truthy (py_get gen_opts "output_format"));
    destruct (py_truthy (py_get gen_opts "batch_count"));
    cbn in Hin; intuition discriminate.
Qed.

(** X6.  The payload has the fields [size], [output_format], [n] and
    [prompt], in this order, each of the first three only under its
    condition, and no other field: [prompt] is always there and is the
    last, and no option of the command line reaches the top level of the
    payload under its own name. *)
Theorem payload_fields (gen_opts : dict pyval) (util_opts : UtilOpts) :
  dict_keys (build_openai_payload gen_opts util_opts)
  = ((if py_truthy (py_get gen_opts "width")
         && py_truthy (py_get gen_opts "height")
      then ["size"] else [])
     ++ (if py_truthy (py_get gen_opts "output_format")
         then ["output_format"] else [])
     ++ (if py_truthy (py_get gen_opts "batch_count")
         then ["n"] else [])
     ++ ["prompt"])%list.
Proof.
  rewrite build_openai_payload_keys, payload_parts_keys.
  rewrite <- !app_assoc. reflexivity.
Qed.

Lemma extension_data_get_extension_key (gen_opts : dict pyval)
    (k : string) :
  existsb (String.eqb k) extension_keys = true ->
  dict_get (extension_data gen_opts) k
  = if is_not_none (py_get gen_opts k) then Some (py_get gen_opts k)
    else None.
Proof.
  intros Hk.
  assert (Hw : k <> "width" /\ k <> "height").
  { split; intros ->; discriminate Hk. }
  destruct Hw as [Hw Hh].
  unfold extension_data, payload_parts.
  pose proof (copy_extension_keys_get gen_opts k) as G.
  rewrite Hk in G. cbn [andb] in G.
  destruct (py_truthy (py_get gen_opts "width"));
    destruct (py_truthy (py_get gen_opts "height"));
    destruct (py_truthy (py_get gen_opts "output_format"));
    destruct (py_truthy (py_get gen_opts "batch_count"));
    cbn [andb snd];
    try rewrite dict_get_set_other by congruence; exact G.
Qed.

(** X7.  Every option of the list [extension_keys] that has a value
    goes into the extension object with that value, also a value that
    counts as false (a seed of zero, an empty text, [False]); an option
    without a value is left out; and a key that is neither in that list
    nor [width] or [height] is never in the extension object. *)
Theorem extension_object_members (gen_opts : dict pyval) (k : string) :
  (In k extension_keys ->
   dict_get (extension_data gen_opts) k
   = match py_get gen_opts k with
     | VNone => None
     | v => Some v
     end)
  /\ (~ In k (extension_keys ++ ["width"; "height"])%list ->
      dict_get (extension_data gen_opts) k = None).
Proof.
  split.
  - intros Hin.
    rewrite extension_data_get_extension_key.
    + destruct (py_get gen_opts k); reflexivity.
    + apply existsb_exists. exists k. split; [exact Hin|].
      apply String.eqb_refl.
  - intros Hn.
    destruct (dict_get (extension_data gen_opts) k) as [v|] eqn:E;
      [|reflexivity].
    exfalso. apply Hn. exact (extension_data_keys _ _ _ E).
Qed.

Lemma extension_object_members_witness :
  dict_get (extension_data [("seed", VInt 0); ("verbose", VBool true)])
    "seed" = Some (VInt 0)
  /\ dict_get (extension_data [("seed", VInt 0); ("verbose", VBool true)])
       "verbose" = None.
Proof.
  split.
  - apply (proj1 (extension_object_members
                    [("seed", VInt 0); ("verbose", VBool true)] "seed")).
    right; left; reflexivity.
  - apply (proj2 (extension_object_members
                    [("seed", VInt 0); ("verbose", VBool true)] "verbose")).
    intros H. cbn in H.
    repeat (destruct H as [H|H]; [discriminate H|]). exact H.
Defined.

Lemma copy_fold_keys (gen_opts : dict pyval) (keys : list string) :
  NoDup keys ->
  forall acc : dict pyval,
    (forall k, In k keys -> ~ In k (dict_keys acc)) ->
    dict_keys (fold_left (copy_step gen_opts) keys acc)
    = (dict_keys acc
       ++ filter (fun k => is_not_none (py_get gen_opts k)) keys)%list.
Proof.
  induction 1 as [|k keys Hk _ IH]; intros acc Hacc.
  - cbn. rewrite app_nil_r. reflexivity.
  - cbn [fold_left filter]. unfold copy_step at 2.
    destruct (is_not_none (py_get gen_opts k)).
    + rewrite IH.
      * rewrite dict_set_fresh by (apply Hacc; left; reflexivity).
        unfold dict_keys. rewrite map_app, <- app_assoc. reflexivity.
      * intros k' Hk'. rewrite dict_set_fresh
          by (apply Hacc; left; reflexivity).
        unfold dict_keys. rewrite map_app. intros Hin.
        apply in_app_or in Hin. destruct Hin as [Hin|[<-|[]]].
        -- exact (Hacc k' (or_intror Hk') Hin).
        -- exact (Hk Hk').
    + apply IH. intros k' Hk'. apply Hacc. right. exact Hk'.
Qed.

Lemma extension_keys_NoDup : NoDup extension_keys.
Proof.
  unfold extension_keys.
  repeat (constructor;
          [cbn; intros H;
           repeat (destruct H as [H|H]; [discriminate H|]); exact H|]).
  constructor.
Qed.

Lemma copy_extension_keys_keys (gen_opts : dict pyval) :
  dict_keys (copy_extension_keys gen_opts)
  = filter (fun k => is_not_none (py_get gen_opts k)) extension_keys.
Proof.
  change (copy_extension_keys gen_opts)
    with (fold_left (copy_step gen_opts) extension_keys []).
  rewrite (copy_fold_keys gen_opts extension_keys extension_keys_NoDup
             [] (fun k _ H => H)).
  change (dict_keys (@nil (string * pyval))) with (@nil string).
  apply app_nil_l.
Qed.

Lemma extension_data_eq (gen_opts : dict pyval) :
  extension_data gen_opts
  = if py_truthy (py_get gen_opts "width")
    then if py_truthy (py_get gen_opts "height")
         then copy_extension_keys gen_opts
         else dict_set (copy_extension_keys gen_opts) "width"
                (py_get gen_opts "width")
    else if py_truthy (py_get gen_opts "height")
         then dict_set (copy_extension_keys gen_opts) "height"
                (py_get gen_opts "height")
         else copy_extension_keys gen_opts.
Proof.
  unfold extension_data, payload_parts.
  set (c := copy_extension_keys gen_opts). clearbody c.
  destruct (py_truthy (py_get gen_opts "width"));
    destruct (py_truthy (py_get gen_opts "height"));
    destruct (py_truthy (py_get gen_opts "output_format"));
    destruct (py_truthy (py_get gen_opts "batch_count")); reflexivity.
Qed.

Lemma dict_keys_set_fresh (d : dict pyval) (k : string) (v : pyval) :
  ~ In k (dict_keys d) ->
  dict_keys (dict_set d k v) = (dict_keys d ++ [k])%list.
Proof.
  intros H. rewrite (dict_set_fresh d k v H).
  unfold dict_keys. rewrite map_app. reflexivity.
Qed.

(** X8.  The members of the extension object stand in the order of
    the list [extension_keys], whatever the order of the options on the
    command line, followed by [width] or [height] when one of them is
    sent alone. *)
Theorem extension_object_order (gen_opts : dict pyval) :
  dict_keys (extension_data gen_opts)
  = (filter (fun k => is_not_none (py_get gen_opts k)) extension_keys
     ++ (if py_truthy (py_get gen_opts "width")
         then if py_truthy (py_get gen_opts "height")
              then [] else ["width"]
         else if py_truthy (py_get gen_opts "height")
              then ["height"] else []))%list.
Proof.
  assert (Hfresh : forall k, ~ In k extension_keys ->
                             ~ In k (dict_keys (copy_extension_keys gen_opts))).
  { intros k Hk. rewrite copy_extension_keys_keys. intros Hin.
    apply filter_In in Hin. exact (Hk (proj1 Hin)). }
  assert (Hw : ~ In "width" extension_keys).
  { unfold extension_keys. intros H.
    repeat (destruct H as [H|H]; [discriminate H|]). exact H. }
  assert (Hh : ~ In "height" extension_keys).
  { unfold extension_keys. intros H.
    repeat (destruct H as [H|H]; [discriminate H|]). exact H. }
  rewrite extension_data_eq.
  destruct (py_truthy (py_get gen_opts "width"));
    destruct (py_truthy (py_get gen_opts "height")).
  - rewrite copy_extension_keys_keys. symmetry. apply app_nil_r.
  - rewrite (dict_keys_set_fresh _ _ _ (Hfresh _ Hw)).
    rewrite copy_extension_keys_keys. reflexivity.
  - rewrite (dict_keys_set_fresh _ _ _ (Hfresh _ Hh)).
    rewrite copy_extension_keys_keys. reflexivity.
  - rewrite copy_extension_keys_keys. symmetry. apply app_nil_r.
Qed.

Lemma copy_fold_ext (g1 g2 : dict pyval) (keys : list string) :
  (forall k, py_get g1 k = py_get g2 k) ->
  forall acc,
    fold_left (copy_step g1) keys acc = fold_left (copy_step g2) keys acc.
Proof.
  intros H. induction keys as [|k keys IH]; intros acc; [reflexivity|].
  cbn [fold_left]. unfold copy_step at 2 4. rewrite (H k). apply IH.
Qed.

(** X9.  The payload depends on the generation options only through
    the value each key has: two sets of options that give every key the
    same value (in whatever order the options stand) give the same
    payload, whatever the utility options are. *)
Theorem payload_order_independent (g1 g2 : dict pyval)
    (u1 u2 : UtilOpts) :
  (forall k, dict_get g1 k = dict_get g2 k) ->
  build_openai_payload g1 u1 = build_openai_payload g2 u2.
Proof.
  intros H.
  assert (Hg : forall k, py_get g1 k = py_get g2 k).
  { intros k. unfold py_get. rewrite (H k). reflexivity. }
  assert (Hc : copy_extension_keys g1 = copy_extension_keys g2).
  { exact (copy_fold_ext g1 g2 extension_keys Hg []). }
  unfold build_openai_payload, payload_parts, py_get_default.
  rewrite Hc, (H "prompt"), !Hg. reflexivity.
Qed.

Lemma payload_order_independent_witness :
  build_openai_payload [("seed", VInt 7); ("steps", VInt 20)]
    (util None None)
  = build_openai_payload [("steps", VInt 20); ("seed", VInt 7)]
      (util (Some "a.png") None).
Proof.
  apply payload_order_independent. intros k. cbn [dict_get].
  destruct (String.eqb "seed" k) eqn:E1;
    destruct (String.eqb "steps" k) eqn:E2; try reflexivity.
  apply String.eqb_eq in E1. apply String.eqb_eq in E2. congruence.
Defined.

Lemma append_sep_inj (c : ascii) (a b a' b' : string) :
  Str.contains_char c a = false -> Str.contains_char c a' = false ->
  a ++ String c b = a' ++ String c b' -> a = a' /\ b = b'.
Proof.
  revert a'. induction a as [|x a IH]; intros [|x' a'];
    cbn [append Str.contains_char]; intros Ha Ha' E.
  - injection E as ->. split; reflexivity.
  - injection E as <- _. rewrite Ascii.eqb_refl in Ha'. discriminate Ha'.
  - injection E as -> _. rewrite Ascii.eqb_refl in Ha. discriminate Ha.
  - injection E as -> E. apply orb_false_iff in Ha, Ha'.
    destruct (IH a' (proj2 Ha) (proj2 Ha') E) as [-> ->].
    split; reflexivity.
Qed.

Lemma of_Z_no_x (z : Z) : Str.contains_char "x" (Str.of_Z z) = false.
Proof.
  rewrite of_Z_sign_digits.
  assert (H : forall d, Str.contains_char "x" (NilEmpty.string_of_uint d)
                        = false) by (induction d; cbn; auto).
  destruct (z <? 0); cbn [append Str.contains_char]; rewrite H; reflexivity.
Qed.

(** X10.  The field [size] tells the two dimensions apart: payloads
    built from integer widths and heights (none of them zero) have the
    same [size] only when the widths are equal and the heights are
    equal. *)
Theorem size_field_injective (g g' : dict pyval) (u u' : UtilOpts)
    (w h w' h' : Z) :
  dict_get g "width" = Some (VInt w) ->
  dict_get g "height" = Some (VInt h) ->
  dict_get g' "width" = Some (VInt w') ->
  dict_get g' "height" = Some (VInt h') ->
  w <> 0 -> h <> 0 -> w' <> 0 -> h' <> 0 ->
  dict_get (build_openai_payload g u) "size"
  = dict_get (build_openai_payload g' u') "size" ->
  w = w' /\ h = h'.
Proof.
  intros Gw Gh Gw' Gh' Hw Hh Hw' Hh'.
  rewrite !build_openai_payload_get by discriminate.
  rewrite !payload_parts_size. unfold py_get.
  rewrite Gw, Gh, Gw', Gh'. cbn [py_truthy py_str].
  apply Z.eqb_neq in Hw, Hh, Hw', Hh'. rewrite Hw, Hh, Hw', Hh'.
  cbn [negb andb]. intros E. injection E as E.
  destruct (append_sep_inj "x" _ _ _ _ (of_Z_no_x w) (of_Z_no_x w') E)
    as [E1 E2].
  split; apply of_Z_inj; assumption.
Qed.

Lemma size_field_injective_witness :
  dict_get (build_openai_payload
              [("width", VInt 768); ("height", VInt 512)] (util None None))
    "size"
  = dict_get (build_openai_payload
                [("height", VInt 512); ("width", VInt 768)]
                (util None None)) "size"
  /\ (768 = 768 /\ 512 = 512).
Proof.
  split; [reflexivity|].
  apply (size_field_injective
           [("width", VInt 768); ("height", VInt 512)]
           [("height", VInt 512); ("width", VInt 768)]
           (util None None) (util None None));
    first [reflexivity | discriminate].
Defined.

End PayloadMore.


(* ================================================================== *)
(** * More on the response decoder *)

Section DecoderMore.

Lemma decode_item_inv (i : nat) (record : json) (image : bytes) :
  decode_item i record = Ok image -> image_record record image.
Proof.
  unfold decode_item. destruct record as [| | | | |l|rd];
    cbn [py_dict_get bind]; try discriminate.
  destruct (dict_get rd "b64_json") as [v|] eqn:Eg; cbn [bind].
  - destruct (negb (json_truthy v)) eqn:Et; [discriminate|].
    destruct v as [|b|z|r|s|l|d]; cbn [b64decode_value]; try discriminate.
    destruct (base64.b64decode s) as [img|e] eqn:Eb.
    + intros H. injection H as <-. exists rd, s.
      repeat split; [exact Eg| |exact Eb].
      intros ->. discriminate Et.
    + destruct e; discriminate.
  - cbn. discriminate.
Qed.

Lemma decode_loop_inv (items : list json) :
  forall (i : nat) (images : list bytes),
    decode_loop i items = Ok images -> Forall2 image_record items images.
Proof.
  induction items as [|r items IH]; intros i images; cbn [decode_loop].
  - intros H. injection H as <-. constructor.
  - destruct (decode_item i r) as [img|e] eqn:Ei; cbn [bind];
      [|discriminate].
    destruct (decode_loop (S i) items) as [imgs|e] eqn:El; cbn [bind];
      [|discriminate].
    intros H. injection H as <-.
    constructor; [exact (decode_item_inv _ _ _ Ei)|exact (IH _ _ El)].
Qed.

Lemma decode_loop_valid (items : list json) (images : list bytes) :
  Forall2 image_record items images ->
  forall i, decode_loop i items = Ok images.
Proof.
  induction 1 as [|r img items images Hr _ IH]; intros i.
  - reflexivity.
  - destruct Hr as [rd [s [-> [Hg [Hs Hb]]]]].
    cbn [decode_loop]. rewrite (decode_item_valid _ _ _ _ Hg Hs Hb).
    cbn [bind]. rewrite IH. reflexivity.
Qed.

Lemma decode_openai_response_object (body : string) (d : dict json)
    (v : json) :
  json_decoder.loads body = Ok (JDict d) ->
  dict_get d "data" = Some v ->
  decode_openai_response body
  = (items <- py_iter v ;; decode_loop 0 items).
Proof.
  intros Hl Hd. unfold decode_openai_response. rewrite Hl.
  cbn [bind py_in]. unfold dict_has. rewrite Hd. cbn [negb py_getitem].
  rewrite Hd. reflexivity.
Qed.

(** The body is an object with a [data] member whenever the decoder
    gets as far as the loop. *)
Lemma decode_openai_response_inv (body : string) (r : result (list bytes)) :
  decode_openai_response body = r ->
  (exists d v, json_decoder.loads body = Ok (JDict d)
               /\ dict_get d "data" = Some v
               /\ r = (items <- py_iter v ;; decode_loop 0 items))
  \/ (exists msg, r = Raise (ValueError msg))
  \/ r = Raise TypeError.
Proof.
  intros <-. unfold decode_openai_response.
  destruct (json_decoder.loads body) as [data|e] eqn:El.
  - destruct data as [|b|z|t|s|l|d]; cbn [bind py_in];
      try (right; right; reflexivity).
    + destruct (Str.contains "data" s); cbn [negb py_getitem bind];
        [right; right; reflexivity|right; left; eauto].
    + destruct (existsb (is_str "data") l); cbn [negb py_getitem bind];
        [right; right; reflexivity|right; left; eauto].
    + unfold dict_has.
      destruct (dict_get d "data") as [v|] eqn:Ed; cbn [negb];
        [|right; left; eauto].
      left. exists d, v. cbn [py_getitem]. rewrite Ed.
      repeat split; reflexivity.
  - right. left. unfold json_decoder.loads in El.
    destruct (json_decoder.scan_once _ _) as [[obj rest]|];
      [destruct (json_decoder.skip_ws rest)|];
      try discriminate; injection El as <-; cbn [bind]; eauto.
Qed.

(** X11.  The decoder returns images for exactly these responses: the
    body is a JSON object with a member [data], and every item that
    iterating over [data] gives is an object whose [b64_json] is a text
    that is not empty and that the base64 decoder accepts; the images
    are the decoded texts, in order.  (The items are the elements of an
    array; an empty text or an empty object for [data] has no item and
    gives no image.) *)
Theorem decode_success (body : string) (images : list bytes) :
  decode_openai_response body = Ok images <->
  exists d v items,
    json_decoder.loads body = Ok (JDict d) /\
    dict_get d "data" = Some v /\
    py_iter v = Ok items /\
    Forall2 image_record items images.
Proof.
  split.
  - intros H.
    destruct (decode_openai_response_inv body _ H)
      as [[d [v [Hl [Hd E]]]]|[[msg E]|E]]; try discriminate.
    destruct (py_iter v) as [items|e] eqn:Ei; cbn [bind] in E;
      [|discriminate].
    exists d, v, items. repeat split; try assumption.
    exact (decode_loop_inv items 0 images (eq_sym E)).
  - intros [d [v [items [Hl [Hd [Hi F]]]]]].
    rewrite (decode_openai_response_object _ _ _ Hl Hd), Hi. cbn [bind].
    exact (decode_loop_valid items images F 0).
Qed.

Lemma decode_item_raises (i : nat) (record : json) (e : exn) :
  decode_item i record = Raise e ->
  (exists msg, e = ValueError msg) \/ e = TypeError \/ e = AttributeError.
Proof.
  unfold decode_item. destruct record as [| | | | |l|rd];
    cbn [py_dict_get bind];
    try (intros H; injection H as <-; right; right; reflexivity).
  destruct (match dict_get rd "b64_json" with
            | Some v => Ok v | None => Ok JNull end) as [v|e0] eqn:Eg;
    [|destruct (dict_get rd "b64_json"); discriminate].
  cbn [bind].
  destruct (negb (json_truthy v));
    [intros H; injection H as <-; left; eauto|].
  destruct v as [|b|z|r|s|l|d]; cbn [b64decode_value];
    try (intros H; injection H as <-; right; left; reflexivity).
  destruct (base64.b64decode s) as [img|e1] eqn:Eb; [discriminate|].
  destruct (b64decode_raises s e1 Eb) as [[msg ->]| ->];
    intros H; injection H as <-; left; eauto.
Qed.

Lemma decode_loop_raises (items : list json) :
  forall (i : nat) (e : exn),
    decode_loop i items = Raise e ->
    (exists msg, e = ValueError msg) \/ e = TypeError
    \/ e = AttributeError.
Proof.
  induction items as [|r items IH]; intros i e; cbn [decode_loop];
    [discriminate|].
  destruct (decode_item i r) as [img|e0] eqn:Ei; cbn [bind].
  - destruct (decode_loop (S i) items) as [imgs|e1] eqn:El; cbn [bind];
      [discriminate|].
    intros H. injection H as <-. exact (IH _ _ El).
  - intros H. injection H as <-. exact (decode_item_raises _ _ _ Ei).
Qed.

(** X12.  Whatever the body is, the decoder returns images or raises
    one of [ValueError], [TypeError] and [AttributeError]: the errors of
    the JSON parser and of the base64 decoder never leave it as such, and
    no key is looked up that is not there. *)
Theorem decode_raises_only (body : string) (e : exn) :
  decode_openai_response body = Raise e ->
  (exists msg, e = ValueError msg) \/ e = TypeError \/ e = AttributeError.
Proof.
  intros H.
  destruct (decode_openai_response_inv body _ H)
    as [[d [v [Hl [Hd E]]]]|[[msg E]|E]].
  - destruct (py_iter v) as [items|e0] eqn:Ei; cbn [bind] in E.
    + exact (decode_loop_raises items 0 e (eq_sym E)).
    + injection E as ->. right. left.
      destruct v; cbn [py_iter] in Ei; congruence.
  - injection E as ->. left. eauto.
  - injection E as ->. right. left. reflexivity.
Qed.

Lemma decode_raises_only_witness :
  (exists msg, AttributeError = ValueError msg)
  \/ AttributeError = TypeError \/ AttributeError = AttributeError.
Proof.
  apply (decode_raises_only (Str.quoted "{'data':[7]}")). reflexivity.
Defined.

(** X13.  A [b64_json] text that holds a character outside ASCII makes
    the decoder raise the [ValueError] of the base64 library as it is:
    the message does not name the item. *)
Theorem decode_non_ascii_base64 (body : string) (d rd : dict json)
    (pre post : list json) (images : list bytes) (s : string) :
  json_decoder.loads body = Ok (JDict d) ->
  dict_get d "data" = Some (JList (pre ++ JDict rd :: post)) ->
  decode_loop 0 pre = Ok images ->
  dict_get rd "b64_json" = Some (JStr s) ->
  base64.is_ascii s = false ->
  decode_openai_response body
  = Raise (ValueError
             "string argument should contain only ASCII characters").
Proof.
  intros Hl Hd Hpre Hg Ha.
  rewrite (decode_openai_response_object _ _ _ Hl Hd). cbn [py_iter bind].
  apply (decode_loop_first_failure pre post (JDict rd) images _ Hpre).
  unfold decode_item. cbn [py_dict_get]. rewrite Hg. cbn [bind].
  destruct s as [|c s]; [discriminate Ha|].
  cbn [json_truthy Str.is_empty negb b64decode_value].
  unfold base64.b64decode. rewrite Ha. reflexivity.
Qed.

Lemma decode_non_ascii_base64_witness :
  decode_openai_response
    (Str.quoted "{'data':[{'b64_json':'aGVsbG8\u00e9'}]}")
  = Raise (ValueError
             "string argument should contain only ASCII characters").
Proof.
  apply (decode_non_ascii_base64 _
           [("data", JList [JDict [("b64_json",
               JStr (String.append "aGVsbG8" (json_decoder.chr 233)))]])]
           [("b64_json",
             JStr (String.append "aGVsbG8" (json_decoder.chr 233)))]
           [] [] []
           (String.append "aGVsbG8" (json_decoder.chr 233)));
    reflexivity.
Defined.

End DecoderMore.
